(** * RWA token manager (rwa-backend/index.ts): a shallow embedding

    The program is an interactive console client: a numbered menu, one
    line of operator input per prompt, calls to a chain client, and a few
    module-level variables (the account registry, the bound signer, the
    connected token).  It is modelled as a state-and-trace monad over
    those variables, with the operator's input lines, the chain and the
    entropy source as explicit external inputs.

    Contents: the JavaScript primitives the program uses; amount scaling;
    the data model; the external collaborators as type classes; the monad
    of runs; the operations of index.ts, function by function; start-up; a
    fixed outside world for concrete runs; then the properties. *)

From Stdlib Require Import String Ascii List ZArith NArith QArith Qround Qabs Lia Lqa Bool.
Import ListNotations.

Local Open Scope string_scope.
Local Open Scope Z_scope.

(** ** JavaScript string primitives used by the program *)

(** [s.startsWith(p)] *)
Definition startsWith (s p : string) : bool := String.prefix p s.

Definition lowerAscii (c : ascii) : ascii :=
  let n := N_of_ascii c in
  if ((65 <=? n) && (n <=? 90))%N then ascii_of_N (n + 32) else c.

(** [s.toLowerCase()], on the ASCII letters (strings are byte strings here). *)
Fixpoint toLowerCase (s : string) : string :=
  match s with
  | EmptyString => EmptyString
  | String c r => String (lowerAscii c) (toLowerCase r)
  end.

(** JavaScript truthiness of a string: only the empty string is falsy. *)
Definition truthy (s : string) : bool :=
  match s with EmptyString => false | _ => true end.

(** [a || b] on strings where [a] may be [undefined]. *)
Definition orElse (a : option string) (b : string) : string :=
  match a with
  | Some s => if truthy s then s else b
  | None => b
  end.

(** *** Decimal digits *)

Definition isDigit (c : ascii) : bool :=
  let n := N_of_ascii c in ((48 <=? n) && (n <=? 57))%N.

Definition digitValue (c : ascii) : N := (N_of_ascii c - 48)%N.

Definition digitChar (d : N) : ascii := ascii_of_N (48 + d).

(** Value of a digit sequence read most significant digit first. *)
Definition digitsValue (ds : list ascii) : N :=
  fold_left (fun acc c => (acc * 10 + digitValue c)%N) ds 0%N.

Fixpoint toDigits (fuel : nat) (n : N) : list ascii :=
  match fuel with
  | O => []
  | S fuel' =>
      if (n <? 10)%N then [digitChar n]
      else toDigits fuel' (n / 10)%N ++ [digitChar (n mod 10)%N]
  end.

(** Decimal digits of [n], without leading zeros ([0] prints as one digit):
    what [String(n)] and [n.toString()] give for a non-negative integer. *)
Definition digitsOf (n : N) : list ascii :=
  toDigits (S (N.to_nat (N.log2 n))) n.

Definition showN (n : N) : string := string_of_list_ascii (digitsOf n).

(** *** parseInt *)

(** The white space [parseInt] skips (the ASCII part of StrWhiteSpaceChar). *)
Definition isWhiteSpace (c : ascii) : bool :=
  let n := N_of_ascii c in
  ((n =? 9) || (n =? 10) || (n =? 11) || (n =? 12) || (n =? 13) || (n =? 32))%N.

Fixpoint trimStart (s : string) : string :=
  match s with
  | String c r => if isWhiteSpace c then trimStart r else s
  | EmptyString => EmptyString
  end.

(** Value of [c] as a digit in radix 10 or 16, when it is one. *)
Definition radixDigit (radix : N) (c : ascii) : option N :=
  let n := N_of_ascii c in
  if ((48 <=? n) && (n <=? 57))%N then Some (n - 48)%N
  else if (radix =? 16)%N then
    if ((97 <=? n) && (n <=? 102))%N then Some (n - 87)%N
    else if ((65 <=? n) && (n <=? 70))%N then Some (n - 55)%N
    else None
  else None.

(** Longest prefix of radix digits: [None] when it is empty, else its value. *)
Fixpoint leadingDigits (radix : N) (acc : option N) (s : string) : option N :=
  match s with
  | String c r =>
      match radixDigit radix c with
      | Some d =>
          leadingDigits radix
            (Some (match acc with Some a => a * radix + d | None => d end)%N) r
      | None => acc
      end
  | EmptyString => acc
  end.

(** [parseInt(s)] with no radix argument; [None] stands for [NaN].  The
    result is an exact integer (a JavaScript number above 2^53 is rounded;
    the program only compares the result with small array lengths). *)
Definition parseInt (s : string) : option Z :=
  let s1 := trimStart s in
  let '(sign, s2) :=
    match s1 with
    | String "-" r => (-1, r)
    | String "+" r => (1, r)
    | _ => (1, s1)
    end in
  let '(radix, s3) :=
    match s2 with
    | String "0" (String "x" r) => (16%N, r)
    | String "0" (String "X" r) => (16%N, r)
    | _ => (10%N, s2)
    end in
  match leadingDigits radix None s3 with
  | Some m => Some (sign * Z.of_N m)
  | None => None
  end.

(** ** Amount scaling

    [parseAmount] and [formatAmount] (index.ts, lines 87-94) only forward
    to [parseUnits] and [formatUnits] of the chain client library, whose
    code is not part of this repository's sources. *)

(** A decimal string taken apart: sign, digits before and after the point. *)
Record DecimalString := {
  negative : bool;
  integerPart : list ascii;
  fractionPart : list ascii
}.

Fixpoint splitAtDot (l : list ascii) : list ascii * option (list ascii) :=
  match l with
  | [] => ([], None)
  | c :: r =>
      if Ascii.eqb c "." then ([], Some r)
      else let '(a, b) := splitAtDot r in (c :: a, b)
  end.

(** A leading minus sign, taken off. *)
Definition stripSign (l : list ascii) : bool * list ascii :=
  match l with
  | "-"%char :: r => (true, r)
  | _ => (false, l)
  end.

(** The valid decimal strings: an optional minus sign, digits, optionally
    a point and more digits, with at least one digit in all. *)
Definition parseDecimal (s : string) : option DecimalString :=
  let '(neg, body) := stripSign (list_ascii_of_string s) in
  let '(int, frac) := splitAtDot body in
  let frac := match frac with Some f => f | None => [] end in
  if forallb isDigit int && forallb isDigit frac
     && negb ((length int + length frac =? 0)%nat)
  then Some {| negative := neg; integerPart := int; fractionPart := frac |}
  else None.

Definition pow10 (n : nat) : Q := inject_Z (10 ^ Z.of_nat n).

(** The number that integer digits and fraction digits denote. *)
Definition magnitude (int frac : list ascii) : Q :=
  (inject_Z (Z.of_N (digitsValue int))
   + inject_Z (Z.of_N (digitsValue frac)) / pow10 (length frac))%Q.

(** The rational number a decimal string denotes. *)
Definition decimalValue (d : DecimalString) : Q :=
  let m := magnitude (integerPart d) (fractionPart d) in
  if negative d then (- m)%Q else m.

(** Rounding to the nearest integer, halves away from zero. *)
Definition roundQ (q : Q) : Z :=
  if Qle_bool 0 q then Qfloor (q + (1 # 2)) else - Qfloor (- q + (1 # 2)).

(** Modelled from the spec: [parseUnits] of the chain client library is not
    under src/.  Section 4.4 (c): "integer = round(decimal_string x
    10^decimals), rejecting non-numeric input".  [None] is the rejection
    (the library throws). *)
Definition parseUnits (value : string) (decimals : nat) : option Z :=
  match parseDecimal value with
  | Some d => Some (roundQ (decimalValue d * pow10 decimals))
  | None => None
  end.

Fixpoint trimTrailingZeros (l : list ascii) : list ascii :=
  match l with
  | [] => []
  | c :: r =>
      match trimTrailingZeros r with
      | [] => if Ascii.eqb c "0" then [] else [c]
      | r' => c :: r'
      end
  end.

(** [s.padStart(n, "0")] on a digit list. *)
Definition padStart (l : list ascii) (n : nat) : list ascii :=
  repeat "0"%char (n - length l) ++ l.

(** Modelled from the spec: [formatUnits] of the chain client library is not
    under src/.  It is the decimal-scaled display of section 4.5, the
    inverse scaling of [parseUnits]: the decimal string of
    [value / 10^decimals], with no trailing zeros in the fraction and no
    point when the fraction is empty. *)
Definition formatUnits (value : Z) (decimals : nat) : string :=
  let display := padStart (digitsOf (Z.abs_N value)) decimals in
  let cut := (length display - decimals)%nat in
  let integer := firstn cut display in
  let fraction := trimTrailingZeros (skipn cut display) in
  string_of_list_ascii
    ((if value <? 0 then ["-"%char] else [])
     ++ (match integer with [] => ["0"%char] | _ => integer end)
     ++ (match fraction with [] => [] | _ => "."%char :: fraction end)).

(** Errors the program can see thrown. *)
Inductive Error :=
| InvalidDecimalNumberError (value : string)   (* parseUnits *)
| InvalidPrivateKeyError (key : string)        (* privateKeyToAccount *)
| RpcError                                     (* any failed chain call *)
| TypeError (what : string).                   (* property of undefined *)

(** The [decimals] default of [formatAmount] and [parseAmount]. *)
Definition defaultDecimals : nat := 18.

(** index.ts, lines 87-89. *)
Definition formatAmount (amount : Z) (decimals : nat) : string :=
  formatUnits amount decimals.

(** index.ts, lines 92-94; [inl] is a thrown error. *)
Definition parseAmount (amount : string) (decimals : nat) : Error + Z :=
  match parseUnits amount decimals with
  | Some n => inr n
  | None => inl (InvalidDecimalNumberError amount)
  end.

(** index.ts, lines 97-102. *)
Definition toHexAddress (address : string) : string :=
  if negb (startsWith address "0x") then "0x" ++ address else address.

(** ** Data model (index.ts, lines 39-84) *)

(** What [privateKeyToAccount] returns, as far as the program looks at it:
    the derived address, and the key the account signs with. *)
Record Account := {
  address : string;
  signingKey : string
}.

Module Config.
Record t := {
  rpcUrl : string;
  chainId : option Z;             (* [None] is NaN *)
  tokenFactoryAddress : string;
  privateKey : string
}.
End Config.

Module AccountInfo.
Record t := {
  name : string;
  privateKey : string;
  account : Account;
  address : string
}.
End AccountInfo.

Record PublicClient := { publicTransport : string }.

Record WalletClient := {
  walletAccount : Account;
  walletTransport : string
}.

(** The module-level variables, once [initialize] has assigned them. *)
Record Session := {
  config : Config.t;
  publicClient : PublicClient;
  walletClient : WalletClient;
  account : Account;
  userAddress : string;
  tokenAddress : option string;        (* [None] is null *)
  accounts : list AccountInfo.t;
  currentAccountIndex : Z
}.

Definition setTokenAddress (v : option string) (s : Session) : Session :=
  {| config := config s; publicClient := publicClient s;
     walletClient := walletClient s; account := account s;
     userAddress := userAddress s; tokenAddress := v;
     accounts := accounts s; currentAccountIndex := currentAccountIndex s |}.

Definition setCurrentAccountIndex (v : Z) (s : Session) : Session :=
  {| config := config s; publicClient := publicClient s;
     walletClient := walletClient s; account := account s;
     userAddress := userAddress s; tokenAddress := tokenAddress s;
     accounts := accounts s; currentAccountIndex := v |}.

Definition setAccount (v : Account) (s : Session) : Session :=
  {| config := config s; publicClient := publicClient s;
     walletClient := walletClient s; account := v;
     userAddress := userAddress s; tokenAddress := tokenAddress s;
     accounts := accounts s; currentAccountIndex := currentAccountIndex s |}.

Definition setUserAddress (v : string) (s : Session) : Session :=
  {| config := config s; publicClient := publicClient s;
     walletClient := walletClient s; account := account s;
     userAddress := v; tokenAddress := tokenAddress s;
     accounts := accounts s; currentAccountIndex := currentAccountIndex s |}.

Definition setWalletClient (v : WalletClient) (s : Session) : Session :=
  {| config := config s; publicClient := publicClient s;
     walletClient := v; account := account s;
     userAddress := userAddress s; tokenAddress := tokenAddress s;
     accounts := accounts s; currentAccountIndex := currentAccountIndex s |}.

(** [accounts.push(info)] *)
Definition pushAccount (info : AccountInfo.t) (s : Session) : Session :=
  {| config := config s; publicClient := publicClient s;
     walletClient := walletClient s; account := account s;
     userAddress := userAddress s; tokenAddress := tokenAddress s;
     accounts := accounts s ++ [info];
     currentAccountIndex := currentAccountIndex s |}.

(** [accounts[i]]; [None] is undefined. *)
Definition accountAt (l : list AccountInfo.t) (i : Z) : option AccountInfo.t :=
  if i <? 0 then None else nth_error l (Z.to_nat i).

(** [!tokenAddress] fails: the token the operations then work on. *)
Definition connectedToken (s : Session) : option string :=
  match tokenAddress s with
  | Some t => if truthy t then Some t else None
  | None => None
  end.

(** ** The contract interface (TOKEN_ABI and TOKEN_FACTORY_ABI) *)

Inductive ReadFn :=
| FnName
| FnSymbol
| FnDecimals
| FnTotalSupply
| FnBalanceOf (owner : string)
| FnAllowance (owner spender : string).

Definition ReadResult (f : ReadFn) : Type :=
  match f with
  | FnName | FnSymbol => string
  | FnDecimals => nat
  | FnTotalSupply | FnBalanceOf _ | FnAllowance _ _ => Z
  end.

Inductive WriteFn :=
| FnCreateToken (name symbol initialOwner : string)
| FnMint (to : string) (amount : Z)
| FnBurn (amount : Z)
| FnTransfer (to : string) (amount : Z)
| FnApprove (spender : string) (amount : Z)
| FnTransferFrom (sender recipient : string) (amount : Z).

(** The decoded arguments of a TokenCreated log; an argument that could not
    be decoded is undefined ([None]). *)
Record TokenCreatedArgs := {
  argsTokenAddress : option string;
  argsOwner : option string
}.

(** A TokenCreated log as [getLogs] returns it; [args] is undefined
    ([None]) when none of the arguments could be decoded. *)
Record TokenCreatedLog := {
  args : option TokenCreatedArgs
}.

Record Receipt := { blockNumber : Z }.

(** ** The external collaborators

    The chain (behind the read and write clients), the entropy source and
    the key derivation are not part of the program.  The chain is any
    state [W] that answers each request and moves on; [None] is a rejected
    promise. *)

Class ChainClient (W : Type) := {
  chain_read : W -> string -> forall f : ReadFn, option (ReadResult f) * W;
  chain_write : W -> Account -> string -> WriteFn -> option string * W;
  chain_wait : W -> string -> option Receipt * W;
  chain_logs : W -> string -> Z -> Z -> option (list TokenCreatedLog) * W;
  chain_balance : W -> string -> option Z * W
}.

(** [crypto.randomBytes], one byte at a time. *)
Class Entropy (W : Type) := {
  random_byte : W -> Byte.byte * W
}.

(** The address derivation of [privateKeyToAccount]; [None] when the key is
    refused. *)
Class Signer := {
  addressOfKey : string -> option string
}.

(** ** Runs: outcome, variables, remaining input, console and chain trace *)

(** The functions that call each other in a cycle. *)
Inductive proc := ShowMainMenu | CreateNewAccount | SwitchAccount.

Inductive Halted :=
| Exited (code : Z)          (* process.exit(code) *)
| AwaitingInput              (* rl.question with no line left to read *)
| OutOfFuel (p : proc).      (* the run was cut when it was about to call [p] *)

Inductive Outcome (A : Type) :=
| Return (a : A)
| Throw (e : Error)
| Halt (h : Halted).
Arguments Return {A} a.
Arguments Throw {A} e.
Arguments Halt {A} h.

Inductive Event :=
| ConsoleLog (line : string)
| ConsoleError (label : string) (error : Error)
| Question (prompt : string)
| ReadContract (address : string) (f : ReadFn)
| WriteContract (signer : Account) (address : string) (f : WriteFn)
| WaitForTransactionReceipt (hash : string)
| GetLogs (address : string) (fromBlock toBlock : Z)
| GetBalance (address : string)
| RandomBytes (size : nat)
| RlClose.

(** How an early [return] inside a [try] block leaves it. *)
Inductive Completion := Normal | Returned.

Declare Scope prog_scope.
Delimit Scope prog_scope with prog.

Section Program.

Context {W : Type} {chain : ChainClient W} {entropy : Entropy W} {signer : Signer}.

(** What the program consumes: the operator's lines and the outside world. *)
Record Input := {
  stdin : list string;
  world : W
}.

Record Run (S A : Type) := {
  outcome : Outcome A;
  final : S;                 (* the variables at the end *)
  rest : Input;              (* what is left to consume *)
  trace : list Event         (* what the run printed and requested, in order *)
}.
Arguments outcome {S A} r.
Arguments final {S A} r.
Arguments rest {S A} r.
Arguments trace {S A} r.

Definition Prog (S A : Type) : Type := S -> Input -> Run S A.

Definition ret {S A} (a : A) : Prog S A :=
  fun s i => {| outcome := Return a; final := s; rest := i; trace := [] |}.

Definition throw {S A} (e : Error) : Prog S A :=
  fun s i => {| outcome := Throw e; final := s; rest := i; trace := [] |}.

Definition halt {S A} (h : Halted) : Prog S A :=
  fun s i => {| outcome := Halt h; final := s; rest := i; trace := [] |}.

(** The run [r] after the events [t]. *)
Definition prepend {S A} (t : list Event) (r : Run S A) : Run S A :=
  let '(Build_Run _ _ o s i t') := r in
  {| outcome := o; final := s; rest := i; trace := t ++ t' |}.

Definition bind {S A B} (m : Prog S A) (k : A -> Prog S B) : Prog S B :=
  fun s i =>
    let '(Build_Run _ _ o s1 i1 t) := m s i in
    match o with
    | Return a => prepend t (k a s1 i1)
    | Throw e => {| outcome := Throw e; final := s1; rest := i1; trace := t |}
    | Halt h => {| outcome := Halt h; final := s1; rest := i1; trace := t |}
    end.

(** [try { m } catch (error) { handler error }]: only a thrown error is
    caught; an exit or a run that stops does not come back. *)
Definition tryCatch {S A} (m : Prog S A) (handler : Error -> Prog S A) : Prog S A :=
  fun s i =>
    let '(Build_Run _ _ o s1 i1 t) := m s i in
    match o with
    | Throw e => prepend t (handler e s1 i1)
    | Return a => {| outcome := Return a; final := s1; rest := i1; trace := t |}
    | Halt h => {| outcome := Halt h; final := s1; rest := i1; trace := t |}
    end.

Notation "x <- m ;; k" := (bind m (fun x => k))
  (at level 61, m at next level, right associativity) : prog_scope.
Notation "m ;; k" := (bind m (fun _ => k))
  (at level 61, right associativity) : prog_scope.
Local Open Scope prog_scope.

Definition get {S} : Prog S S :=
  fun s i => {| outcome := Return s; final := s; rest := i; trace := [] |}.

Definition modify {S} (f : S -> S) : Prog S unit :=
  fun s i => {| outcome := Return tt; final := f s; rest := i; trace := [] |}.

Definition tell {S} (t : list Event) : Prog S unit :=
  fun s i => {| outcome := Return tt; final := s; rest := i; trace := t |}.

(** [console.log(line)] *)
Definition log {S} (line : string) : Prog S unit := tell [ConsoleLog line].

(** [console.error(label, error)] *)
Definition consoleError {S} (label : string) (error : Error) : Prog S unit :=
  tell [ConsoleError label error].

(** [process.exit(code)] *)
Definition exit {S A} (code : Z) : Prog S A := halt (Exited code).

(** A value or a thrown error, from a pure function. *)
Definition lift {S A} (r : Error + A) : Prog S A :=
  match r with
  | inr a => ret a
  | inl e => throw e
  end.

(** [await rl.question(prompt)]: prints the prompt and takes the next line. *)
Definition question {S} (prompt : string) : Prog S string :=
  fun s i =>
    match stdin i with
    | line :: lines =>
        {| outcome := Return line; final := s;
           rest := {| stdin := lines; world := world i |};
           trace := [Question prompt] |}
    | [] =>
        {| outcome := Halt AwaitingInput; final := s; rest := i;
           trace := [Question prompt] |}
    end.

(** One request to the outside world, traced as [e]; the answer is the
    settled promise ([None] when rejected). *)
Definition request {S A} (e : Event) (ask : W -> option A * W) : Prog S (option A) :=
  fun s i =>
    let '(answer, w) := ask (world i) in
    {| outcome := Return answer; final := s;
       rest := {| stdin := stdin i; world := w |};
       trace := [e] |}.

(** [await promise] *)
Definition await {S A} (promise : option A) : Prog S A :=
  match promise with
  | Some a => ret a
  | None => throw RpcError
  end.

(** [publicClient.readContract({address, abi: TOKEN_ABI, functionName, args})],
    not yet awaited. *)
Definition startRead {S} (address : string) (f : ReadFn) : Prog S (option (ReadResult f)) :=
  request (ReadContract address f) (fun w => chain_read w address f).

Definition readContract {S} (address : string) (f : ReadFn) : Prog S (ReadResult f) :=
  p <- startRead address f ;; await p.

(** [walletClient.writeContract({address, abi, functionName, args, chain,
    account})]: the [account] argument is the signer. *)
Definition writeContract {S} (signer : Account) (address : string) (f : WriteFn)
  : Prog S string :=
  p <- request (WriteContract signer address f)
         (fun w => chain_write w signer address f) ;;
  await p.

Definition waitForTransactionReceipt {S} (hash : string) : Prog S Receipt :=
  p <- request (WaitForTransactionReceipt hash) (fun w => chain_wait w hash) ;;
  await p.

(** [publicClient.getLogs] for the TokenCreated event of [address]. *)
Definition getLogs {S} (address : string) (fromBlock toBlock : Z)
  : Prog S (list TokenCreatedLog) :=
  p <- request (GetLogs address fromBlock toBlock)
         (fun w => chain_logs w address fromBlock toBlock) ;;
  await p.

Definition getBalance {S} (address : string) : Prog S Z :=
  p <- request (GetBalance address) (fun w => chain_balance w address) ;;
  await p.

Definition privateKeyToAccount {S} (key : string) : Prog S Account :=
  match addressOfKey key with
  | Some a => ret {| address := a; signingKey := key |}
  | None => throw (InvalidPrivateKeyError key)
  end.

Fixpoint drawBytes (n : nat) (w : W) : list Byte.byte * W :=
  match n with
  | O => ([], w)
  | S n' =>
      let '(b, w1) := random_byte w in
      let '(bs, w2) := drawBytes n' w1 in
      (b :: bs, w2)
  end.

(** [crypto.randomBytes(size)] *)
Definition randomBytes {S} (size : nat) : Prog S (list Byte.byte) :=
  fun s i =>
    let '(bs, w) := drawBytes size (world i) in
    {| outcome := Return bs; final := s;
       rest := {| stdin := stdin i; world := w |};
       trace := [RandomBytes size] |}.

Definition hexChar (d : N) : ascii :=
  if (d <? 10)%N then ascii_of_N (48 + d) else ascii_of_N (87 + d).

(** [bytes.toString('hex')] *)
Fixpoint toHex (bytes : list Byte.byte) : string :=
  match bytes with
  | [] => EmptyString
  | b :: r =>
      let n := Byte.to_N b in
      String (hexChar (n / 16)) (String (hexChar (n mod 16)) (toHex r))
  end.

(** index.ts, lines 680-683. *)
Definition generateRandomPrivateKey {S} : Prog S string :=
  bytes <- randomBytes 32 ;;
  ret ("0x" ++ toHex bytes).

(** [accounts[i].field] throws when [accounts[i]] is undefined. *)
Definition accountInfoAt (i : Z) : Prog Session AccountInfo.t :=
  s <- get ;;
  match accountAt (accounts s) i with
  | Some info => ret info
  | None => throw (TypeError "accounts[i] is undefined")
  end.

Definition nl : string := String (ascii_of_nat 10) EmptyString.

Definition noTokenConnected : string :=
  "No token connected. Please connect to a token first.".

(** ** The operations

    Each function that ends by calling back into the menu takes the cyclic
    calls as [call]; [exec] below ties the knot. *)

Section Operations.

Variable call : proc -> Prog Session unit.

(** index.ts, lines 551-604.  The result is [None] for the bare [return]. *)
Definition showTokenDetails : Prog Session (option bool) :=
  s <- get ;;
  match connectedToken s with
  | None =>
      log noTokenConnected ;;
      call ShowMainMenu ;;
      ret None
  | Some token =>
      tryCatch
        (p1 <- startRead token FnName ;;
         p2 <- startRead token FnSymbol ;;
         p3 <- startRead token FnDecimals ;;
         p4 <- startRead token FnTotalSupply ;;
         name <- await p1 ;;
         symbol <- await p2 ;;
         decimals <- await p3 ;;
         totalSupply <- await p4 ;;
         log "Token Details:" ;;
         log ("Name: " ++ name) ;;
         log ("Symbol: " ++ symbol) ;;
         log ("Decimals: " ++ showN (N.of_nat decimals)) ;;
         log ("Total Supply: " ++ formatAmount totalSupply decimals) ;;
         log ("Contract Address: " ++ token) ;;
         balance <- readContract token (FnBalanceOf (userAddress s)) ;;
         log ("Your balance: " ++ formatAmount balance decimals))
        (fun error =>
           consoleError "Error fetching token details:" error ;;
           modify (setTokenAddress None)) ;;
      s' <- get ;;
      ret (Some (match tokenAddress s' with Some _ => true | None => false end))
  end.

(** [logs.length > 0 && logs[0].args.tokenAddress], and the address it then
    is (index.ts, lines 207-208); reading [tokenAddress] of an undefined
    [args] throws. *)
Definition createdToken (logs : list TokenCreatedLog) : Error + option string :=
  match logs with
  | first :: _ =>
      match args first with
      | Some decoded =>
          match argsTokenAddress decoded with
          | Some a => inr (if truthy a then Some a else None)
          | None => inr None
          end
      | None => inl (TypeError "logs[0].args is undefined")
      end
  | [] => inr None
  end.

(** index.ts, lines 167-221. *)
Definition createToken : Prog Session unit :=
  tryCatch
    (name <- question "Enter token name: " ;;
     symbol <- question "Enter token symbol: " ;;
     s <- get ;;
     initialOwnerInput <-
       question ("Enter initial owner address (default: " ++ userAddress s ++ "): ") ;;
     let initialOwner :=
       if truthy initialOwnerInput then toHexAddress initialOwnerInput
       else userAddress s in
     log ("Creating token " ++ name ++ " (" ++ symbol ++ ")...") ;;
     hash <- writeContract (account s)
               (toHexAddress (Config.tokenFactoryAddress (config s)))
               (FnCreateToken name symbol initialOwner) ;;
     log ("Transaction sent: " ++ hash) ;;
     log "Waiting for transaction confirmation..." ;;
     receipt <- waitForTransactionReceipt hash ;;
     logs <- getLogs (toHexAddress (Config.tokenFactoryAddress (config s)))
               (blockNumber receipt) (blockNumber receipt) ;;
     found <- lift (createdToken logs) ;;
     match found with
     | Some created =>
         modify (setTokenAddress (Some created)) ;;
         log ("Token created successfully at address: " ++ created) ;;
         _ <- showTokenDetails ;;
         ret tt
     | None =>
         log "Token creation event not found in the transaction receipt"
     end)
    (fun error => consoleError "Error creating token:" error) ;;
  call ShowMainMenu.

(** index.ts, lines 224-237. *)
Definition connectToToken : Prog Session bool :=
  tryCatch
    (addressInput <- question "Enter token address: " ;;
     modify (setTokenAddress (Some (toHexAddress addressInput))) ;;
     _ <- showTokenDetails ;;
     ret true)
    (fun error =>
       consoleError "Error connecting to token:" error ;;
       modify (setTokenAddress None) ;;
       ret false).

(** index.ts, lines 240-288. *)
Definition mintTokens : Prog Session unit :=
  s <- get ;;
  match connectedToken s with
  | None =>
      log noTokenConnected ;;
      call ShowMainMenu
  | Some token =>
      tryCatch
        (recipientInput <-
           question ("Enter recipient address (default: " ++ userAddress s ++ "): ") ;;
         let recipient :=
           if truthy recipientInput then toHexAddress recipientInput
           else userAddress s in
         amount <- question "Enter amount to mint: " ;;
         decimals <- readContract token FnDecimals ;;
         amountInWei <- lift (parseAmount amount decimals) ;;
         log ("Minting " ++ amount ++ " tokens to " ++ recipient ++ "...") ;;
         hash <- writeContract (account s) token (FnMint recipient amountInWei) ;;
         log ("Transaction sent: " ++ hash) ;;
         log "Waiting for transaction confirmation..." ;;
         _ <- waitForTransactionReceipt hash ;;
         log "Tokens minted successfully!" ;;
         balance <- readContract token (FnBalanceOf recipient) ;;
         log ("New balance of " ++ recipient ++ ": " ++ formatAmount balance decimals))
        (fun error => consoleError "Error minting tokens:" error) ;;
      call ShowMainMenu
  end.

(** index.ts, lines 291-337. *)
Definition burnTokens : Prog Session unit :=
  s <- get ;;
  match connectedToken s with
  | None =>
      log noTokenConnected ;;
      call ShowMainMenu
  | Some token =>
      tryCatch
        (amount <- question "Enter amount to burn: " ;;
         decimals <- readContract token FnDecimals ;;
         amountInWei <- lift (parseAmount amount decimals) ;;
         log ("Burning " ++ amount ++ " tokens...") ;;
         hash <- writeContract (account s) token (FnBurn amountInWei) ;;
         log ("Transaction sent: " ++ hash) ;;
         log "Waiting for transaction confirmation..." ;;
         _ <- waitForTransactionReceipt hash ;;
         log "Tokens burned successfully!" ;;
         balance <- readContract token (FnBalanceOf (userAddress s)) ;;
         log ("New balance: " ++ formatAmount balance decimals))
        (fun error => consoleError "Error burning tokens:" error) ;;
      call ShowMainMenu
  end.

(** index.ts, lines 340-388. *)
Definition transferTokens : Prog Session unit :=
  s <- get ;;
  match connectedToken s with
  | None =>
      log noTokenConnected ;;
      call ShowMainMenu
  | Some token =>
      tryCatch
        (recipientInput <- question "Enter recipient address: " ;;
         let recipient := toHexAddress recipientInput in
         amount <- question "Enter amount to transfer: " ;;
         decimals <- readContract token FnDecimals ;;
         amountInWei <- lift (parseAmount amount decimals) ;;
         log ("Transferring " ++ amount ++ " tokens to " ++ recipient ++ "...") ;;
         hash <- writeContract (account s) token
                   (FnTransfer recipient amountInWei) ;;
         log ("Transaction sent: " ++ hash) ;;
         log "Waiting for transaction confirmation..." ;;
         _ <- waitForTransactionReceipt hash ;;
         log "Tokens transferred successfully!" ;;
         balance <- readContract token (FnBalanceOf (userAddress s)) ;;
         log ("New balance: " ++ formatAmount balance decimals))
        (fun error => consoleError "Error transferring tokens:" error) ;;
      call ShowMainMenu
  end.

(** index.ts, lines 391-439. *)
Definition approveTokens : Prog Session unit :=
  s <- get ;;
  match connectedToken s with
  | None =>
      log noTokenConnected ;;
      call ShowMainMenu
  | Some token =>
      tryCatch
        (spenderInput <- question "Enter spender address: " ;;
         let spender := toHexAddress spenderInput in
         amount <- question "Enter amount to approve: " ;;
         decimals <- readContract token FnDecimals ;;
         amountInWei <- lift (parseAmount amount decimals) ;;
         log ("Approving " ++ amount ++ " tokens for " ++ spender ++ "...") ;;
         hash <- writeContract (account s) token
                   (FnApprove spender amountInWei) ;;
         log ("Transaction sent: " ++ hash) ;;
         log "Waiting for transaction confirmation..." ;;
         _ <- waitForTransactionReceipt hash ;;
         log "Tokens approved successfully!" ;;
         allowance <- readContract token
                        (FnAllowance (userAddress s) spender) ;;
         log ("New allowance for " ++ spender ++ ": "
              ++ formatAmount allowance decimals))
        (fun error => consoleError "Error approving tokens:" error) ;;
      call ShowMainMenu
  end.

(** index.ts, lines 442-516.  The insufficient-allowance branch returns from
    inside the [try] block, after showing the menu there. *)
Definition transferFromTokens : Prog Session unit :=
  s <- get ;;
  match connectedToken s with
  | None =>
      log noTokenConnected ;;
      call ShowMainMenu
  | Some token =>
      completion <-
        tryCatch
          (senderInput <- question "Enter sender address: " ;;
           let sender := toHexAddress senderInput in
           recipientInput <- question "Enter recipient address: " ;;
           let recipient := toHexAddress recipientInput in
           amount <- question "Enter amount to transfer: " ;;
           decimals <- readContract token FnDecimals ;;
           amountInWei <- lift (parseAmount amount decimals) ;;
           allowance <- readContract token (FnAllowance sender (userAddress s)) ;;
           if allowance <? amountInWei then
             log ("Insufficient allowance. Current allowance: "
                  ++ formatAmount allowance decimals) ;;
             call ShowMainMenu ;;
             ret Returned
           else
             log ("Transferring " ++ amount ++ " tokens from " ++ sender
                  ++ " to " ++ recipient ++ "...") ;;
             hash <- writeContract (account s) token
                       (FnTransferFrom sender recipient amountInWei) ;;
             log ("Transaction sent: " ++ hash) ;;
             log "Waiting for transaction confirmation..." ;;
             _ <- waitForTransactionReceipt hash ;;
             log "Tokens transferred successfully!" ;;
             recipientBalance <- readContract token (FnBalanceOf recipient) ;;
             log ("New balance of " ++ recipient ++ ": "
                  ++ formatAmount recipientBalance decimals) ;;
             newAllowance <- readContract token
                               (FnAllowance sender (userAddress s)) ;;
             log ("Remaining allowance: " ++ formatAmount newAllowance decimals) ;;
             ret Normal)
          (fun error =>
             consoleError "Error transferring tokens:" error ;;
             ret Normal) ;;
      match completion with
      | Returned => ret tt
      | Normal => call ShowMainMenu
      end
  end.

(** index.ts, lines 519-548. *)
Definition checkBalance : Prog Session unit :=
  s <- get ;;
  match connectedToken s with
  | None =>
      log noTokenConnected ;;
      call ShowMainMenu
  | Some token =>
      tryCatch
        (addressInput <-
           question ("Enter address to check (default: " ++ userAddress s ++ "): ") ;;
         let address :=
           if truthy addressInput then toHexAddress addressInput
           else userAddress s in
         decimals <- readContract token FnDecimals ;;
         balance <- readContract token (FnBalanceOf address) ;;
         log ("Balance of " ++ address ++ ": " ++ formatAmount balance decimals))
        (fun error => consoleError "Error checking balance:" error) ;;
      call ShowMainMenu
  end.

(** index.ts, lines 686-715. *)
Definition createNewAccount : Prog Session unit :=
  tryCatch
    (name <- question "Enter a name for this account: " ;;
     privateKey <- generateRandomPrivateKey ;;
     newAccount <- privateKeyToAccount privateKey ;;
     let accountInfo :=
       {| AccountInfo.name := name;
          AccountInfo.privateKey := privateKey;
          AccountInfo.account := newAccount;
          AccountInfo.address := address newAccount |} in
     modify (pushAccount accountInfo) ;;
     log ("New account created: " ++ name) ;;
     log ("Address: " ++ AccountInfo.address accountInfo) ;;
     log ("Private Key: " ++ privateKey ++ " (Keep this secure!)") ;;
     switchToNew <- question "Switch to this account? (y/n): " ;;
     if (toLowerCase switchToNew =? "y")%string then
       s <- get ;;
       modify (setCurrentAccountIndex (Z.of_nat (length (accounts s)) - 1)) ;;
       call SwitchAccount
     else ret tt)
    (fun error => consoleError "Error creating new account:" error) ;;
  call ShowMainMenu.

(** One line of the account list of [switchAccount]. *)
Definition accountLine (current : Z) (index : nat) (acc : AccountInfo.t) : string :=
  showN (N.of_nat index + 1) ++ ". " ++ AccountInfo.name acc
  ++ " (" ++ AccountInfo.address acc ++ ")"
  ++ (if Z.of_nat index =? current then " (Current)" else "").

(** [accounts.forEach((acc, index) => console.log(...))] *)
Fixpoint logAccounts (current : Z) (index : nat) (l : list AccountInfo.t)
  : Prog Session unit :=
  match l with
  | [] => ret tt
  | acc :: r =>
      log (accountLine current index acc) ;;
      logAccounts current (S index) r
  end.

(** index.ts, lines 718-766. *)
Definition switchAccount : Prog Session unit :=
  completion <-
    tryCatch
      (s <- get ;;
       if (length (accounts s) =? 0)%nat then
         log "No accounts available. Please create an account first." ;;
         call CreateNewAccount ;;
         ret Returned
       else
         log (nl ++ "Available Accounts:") ;;
         logAccounts (currentAccountIndex s) 0 (accounts s) ;;
         choice <- question "Select account number (or 'c' to create new): " ;;
         if (toLowerCase choice =? "c")%string then
           call CreateNewAccount ;;
           ret Returned
         else
           match parseInt choice with
           | Some n =>
               let selectedIndex := n - 1 in
               if (selectedIndex >=? 0)
                  && (selectedIndex <? Z.of_nat (length (accounts s)))
               then
                 modify (setCurrentAccountIndex selectedIndex) ;;
                 selected <- accountInfoAt selectedIndex ;;
                 modify (setAccount (AccountInfo.account selected)) ;;
                 modify (setUserAddress (address (AccountInfo.account selected))) ;;
                 modify (setWalletClient
                           {| walletAccount := AccountInfo.account selected;
                              walletTransport := Config.rpcUrl (config s) |}) ;;
                 log ("Switched to account: " ++ AccountInfo.name selected) ;;
                 log ("Address: " ++ address (AccountInfo.account selected)) ;;
                 balance <- getBalance (address (AccountInfo.account selected)) ;;
                 log ("Account balance: " ++ formatAmount balance defaultDecimals
                      ++ " ETH") ;;
                 ret Normal
               else
                 log "Invalid selection. Please try again." ;;
                 ret Normal
           | None =>
               (* NaN - 1 is NaN, and every comparison with NaN is false *)
               log "Invalid selection. Please try again." ;;
               ret Normal
           end)
      (fun error =>
         consoleError "Error switching account:" error ;;
         ret Normal) ;;
  match completion with
  | Returned => ret tt
  | Normal => call ShowMainMenu
  end.

(** index.ts, lines 769-802. *)
Definition importAccount : Prog Session unit :=
  tryCatch
    (name <- question "Enter a name for this account: " ;;
     entered <- question "Enter private key: " ;;
     let privateKey :=
       if negb (startsWith entered "0x") then "0x" ++ entered else entered in
     importedAccount <- privateKeyToAccount privateKey ;;
     let accountInfo :=
       {| AccountInfo.name := name;
          AccountInfo.privateKey := privateKey;
          AccountInfo.account := importedAccount;
          AccountInfo.address := address importedAccount |} in
     modify (pushAccount accountInfo) ;;
     log ("Account imported: " ++ name) ;;
     log ("Address: " ++ AccountInfo.address accountInfo) ;;
     switchToNew <- question "Switch to this account? (y/n): " ;;
     if (toLowerCase switchToNew =? "y")%string then
       s <- get ;;
       modify (setCurrentAccountIndex (Z.of_nat (length (accounts s)) - 1)) ;;
       call SwitchAccount
     else ret tt)
    (fun error => consoleError "Error importing account:" error) ;;
  call ShowMainMenu.

Definition menuLines : list string :=
  [ nl ++ "=== Token Operations ===";
    "1. Create new token";
    "2. Connect to existing token";
    "3. Mint tokens (owner only)";
    "4. Burn tokens (owner only)";
    "5. Transfer tokens";
    "6. Approve tokens";
    "7. Transfer tokens from another account";
    "8. Check balance";
    "9. Show token details";
    nl ++ "=== Account Management ===";
    "10. Create new account";
    "11. Import existing account";
    "12. Switch account";
    nl ++ "0. Exit" ].

(** index.ts, lines 607-677. *)
Definition showMainMenu : Prog Session unit :=
  log (nl ++ "=== RWA Token Manager ===") ;;
  s <- get ;;
  current <- accountInfoAt (currentAccountIndex s) ;;
  log ("Current Account: " ++ AccountInfo.name current
       ++ " (" ++ AccountInfo.address current ++ ")") ;;
  tell (map ConsoleLog menuLines) ;;
  choice <- question "Enter your choice: " ;;
  if (choice =? "1")%string then createToken
  else if (choice =? "2")%string then _ <- connectToToken ;; call ShowMainMenu
  else if (choice =? "3")%string then mintTokens
  else if (choice =? "4")%string then burnTokens
  else if (choice =? "5")%string then transferTokens
  else if (choice =? "6")%string then approveTokens
  else if (choice =? "7")%string then transferFromTokens
  else if (choice =? "8")%string then checkBalance
  else if (choice =? "9")%string then _ <- showTokenDetails ;; call ShowMainMenu
  else if (choice =? "10")%string then call CreateNewAccount
  else if (choice =? "11")%string then importAccount
  else if (choice =? "12")%string then call SwitchAccount
  else if (choice =? "0")%string then
    log "Goodbye!" ;;
    tell [RlClose] ;;
    exit 0
  else
    log "Invalid choice. Please try again." ;;
    call ShowMainMenu.

End Operations.

(** The cycle [showMainMenu] / [createNewAccount] / [switchAccount], cut
    after [fuel] calls. *)
Fixpoint exec (fuel : nat) (p : proc) : Prog Session unit :=
  match fuel with
  | O => halt (OutOfFuel p)
  | S fuel' =>
      match p with
      | ShowMainMenu => showMainMenu (exec fuel')
      | CreateNewAccount => createNewAccount (exec fuel')
      | SwitchAccount => switchAccount (exec fuel')
      end
  end.

(** ** Start-up (index.ts, lines 39-45 and 105-164) *)

(** The [config] object, from [process.env] after [dotenv.config()]. *)
Definition loadConfig (env : string -> option string) : Config.t :=
  {| Config.rpcUrl := orElse (env "RPC_URL") "http://localhost:8545";
     Config.chainId := parseInt (orElse (env "CHAIN_ID") "");
     Config.tokenFactoryAddress := orElse (env "TOKEN_FACTORY_ADDRESS") "";
     Config.privateKey := orElse (env "PRIVATE_KEY") "" |}.

Definition setPrivateKey (v : string) (c : Config.t) : Config.t :=
  {| Config.rpcUrl := Config.rpcUrl c; Config.chainId := Config.chainId c;
     Config.tokenFactoryAddress := Config.tokenFactoryAddress c;
     Config.privateKey := v |}.

Definition setTokenFactoryAddress (v : string) (c : Config.t) : Config.t :=
  {| Config.rpcUrl := Config.rpcUrl c; Config.chainId := Config.chainId c;
     Config.tokenFactoryAddress := v;
     Config.privateKey := Config.privateKey c |}.

(** Lines 107-149 of [initialize]: the prompts for what is missing, the
    clients, the primary account and the first registry entry.  The
    variables it assigns are the [Session] it returns; [accounts] starts
    empty and [tokenAddress] null. *)
Definition connect : Prog Config.t Session :=
  log "Connecting to blockchain..." ;;
  c0 <- get ;;
  (if negb (truthy (Config.privateKey c0)) then
     inputPrivateKey <- question "Enter your private key: " ;;
     modify (setPrivateKey inputPrivateKey)
   else ret tt) ;;
  c1 <- get ;;
  (if negb (truthy (Config.tokenFactoryAddress c1)) then
     inputAddress <- question "Enter TokenFactory contract address: " ;;
     modify (setTokenFactoryAddress inputAddress)
   else ret tt) ;;
  c <- get ;;
  let publicClient := {| publicTransport := Config.rpcUrl c |} in
  let privateKey :=
    if negb (startsWith (Config.privateKey c) "0x")
    then "0x" ++ Config.privateKey c else Config.privateKey c in
  account <- privateKeyToAccount privateKey ;;
  let userAddress := address account in
  let accounts :=
    ([] ++ [ {| AccountInfo.name := "Default Account";
                AccountInfo.privateKey := privateKey;
                AccountInfo.account := account;
                AccountInfo.address := userAddress |} ])%list in
  let walletClient :=
    {| walletAccount := account; walletTransport := Config.rpcUrl c |} in
  ret {| config := c; publicClient := publicClient;
         walletClient := walletClient; account := account;
         userAddress := userAddress; tokenAddress := None;
         accounts := accounts; currentAccountIndex := 0 |}.

(** Runs [m] on the session variables. *)
Definition inSession {A} (session : Session) (m : Prog Session A) : Prog Config.t A :=
  fun _ i =>
    let '(Build_Run _ _ o s1 i1 t) := m session i in
    {| outcome := o; final := config s1; rest := i1; trace := t |}.

(** index.ts, lines 105-164. *)
Definition initialize (fuel : nat) : Prog Config.t unit :=
  tryCatch
    (session <- connect ;;
     log ("Connected with account: " ++ userAddress session) ;;
     balance <- getBalance (userAddress session) ;;
     log ("Account balance: " ++ formatAmount balance defaultDecimals ++ " ETH") ;;
     log "Initialization complete!" ;;
     inSession session (exec fuel ShowMainMenu))
    (fun error =>
       consoleError "Initialization error:" error ;;
       exit 1).

End Program.

Arguments Input W : clear implicits.
Arguments Run W S A : clear implicits.
Arguments Prog W S A : clear implicits.
Arguments outcome {W S A} r.
Arguments final {W S A} r.
Arguments rest {W S A} r.
Arguments trace {W S A} r.
Arguments Build_Run {W S A} outcome final rest trace.

Notation "x <- m ;; k" := (bind m (fun x => k))
  (at level 61, m at next level, right associativity) : prog_scope.
Notation "m ;; k" := (bind m (fun _ => k))
  (at level 61, right associativity) : prog_scope.

(** ** A fixed outside world, for concrete runs

    A chain that gives the same answers every time, an entropy source that
    repeats one byte, and a toy key derivation (the last 40 characters of a
    66-character key). *)

Record Stub := {
  stubName : option string;
  stubSymbol : option string;
  stubDecimals : option nat;
  stubTotalSupply : option Z;
  stubBalanceOf : option Z;
  stubAllowance : option Z;
  stubWrite : option string;
  stubReceipt : option Receipt;
  stubLogs : option (list TokenCreatedLog);
  stubBalance : option Z;
  stubByte : Byte.byte
}.

Definition stubRead (w : Stub) (f : ReadFn) : option (ReadResult f) :=
  match f with
  | FnName => stubName w
  | FnSymbol => stubSymbol w
  | FnDecimals => stubDecimals w
  | FnTotalSupply => stubTotalSupply w
  | FnBalanceOf _ => stubBalanceOf w
  | FnAllowance _ _ => stubAllowance w
  end.

Definition stubChain : ChainClient Stub :=
  {| chain_read := fun w _ f => (stubRead w f, w);
     chain_write := fun w _ _ _ => (stubWrite w, w);
     chain_wait := fun w _ => (stubReceipt w, w);
     chain_logs := fun w _ _ _ => (stubLogs w, w);
     chain_balance := fun w _ => (stubBalance w, w) |}.

Definition stubEntropy : Entropy Stub :=
  {| random_byte := fun w => (stubByte w, w) |}.

Definition toySigner : Signer :=
  {| addressOfKey := fun key =>
       if (String.length key =? 66)%nat
       then Some ("0x" ++ substring 26 40 key) else None |}.

(** A token with 18 decimals, on a chain where every call succeeds. *)
Definition liveToken : Stub :=
  {| stubName := Some "Gold"; stubSymbol := Some "GLD";
     stubDecimals := Some 18%nat;
     stubTotalSupply := Some (1000 * 10 ^ 18);
     stubBalanceOf := Some (7 * 10 ^ 18);
     stubAllowance := Some (3 * 10 ^ 18);
     stubWrite := Some "0xhash";
     stubReceipt := Some {| blockNumber := 42 |};
     stubLogs := Some [ {| args := Some {| argsTokenAddress := Some "0xt0ken";
                                           argsOwner := Some "0x0wner" |} |} ];
     stubBalance := Some (5 * 10 ^ 18);
     stubByte := Byte.x2a |}.

(** The same chain with every token read failing. *)
Definition deadToken : Stub :=
  {| stubName := None; stubSymbol := None; stubDecimals := None;
     stubTotalSupply := None; stubBalanceOf := None; stubAllowance := None;
     stubWrite := Some "0xhash";
     stubReceipt := Some {| blockNumber := 42 |};
     stubLogs := Some [ {| args := Some {| argsTokenAddress := Some "0xt0ken";
                                           argsOwner := Some "0x0wner" |} |} ];
     stubBalance := Some (5 * 10 ^ 18);
     stubByte := Byte.x2a |}.

Definition primaryKey : string :=
  "0x00000000000000000000000011111111111111111111aaaaaaaaaaaaaaaaaaaa".

Definition stubExec := @exec Stub stubChain stubEntropy toySigner.
Definition stubInitialize := @initialize Stub stubChain stubEntropy toySigner.
Definition stubConnect := @connect Stub toySigner.

(** ** Vocabulary of the statements *)

(** A transaction handed to the write client. *)
Definition isSubmission (e : Event) : bool :=
  match e with WriteContract _ _ _ => true | _ => false end.

Definition isQuestion (e : Event) : bool :=
  match e with Question _ => true | _ => false end.

(** The five reads of a token-details fetch, in the order they are issued. *)
Definition detailsReads (user : string) : list ReadFn :=
  [FnName; FnSymbol; FnDecimals; FnTotalSupply; FnBalanceOf user].

(** Whether the chain, asked [reads] of [token] one after the other from
    state [w], answers every one of them.  (The fifth read of a details
    fetch is only issued when the first four were answered; when one of
    those fails the result here is [false] whatever the fifth would be.) *)
Fixpoint readsSucceed {W} {chain : ChainClient W} (w : W) (token : string)
  (reads : list ReadFn) : bool :=
  match reads with
  | [] => true
  | f :: r =>
      let '(answer, w1) := chain_read w token f in
      match answer with
      | Some _ => readsSucceed w1 token r
      | None => false
      end
  end.

(** What [createToken] prints and requests up to the reading of the logs. *)
Definition createTokenEvents (s : Session) (name symbol ownerInput hash : string)
  (receipt : Receipt) : list Event :=
  [ Question "Enter token name: ";
    Question "Enter token symbol: ";
    Question ("Enter initial owner address (default: " ++ userAddress s ++ "): ");
    ConsoleLog ("Creating token " ++ name ++ " (" ++ symbol ++ ")...");
    WriteContract (account s)
      (toHexAddress (Config.tokenFactoryAddress (config s)))
      (FnCreateToken name symbol
         (if truthy ownerInput then toHexAddress ownerInput else userAddress s));
    ConsoleLog ("Transaction sent: " ++ hash);
    ConsoleLog "Waiting for transaction confirmation...";
    WaitForTransactionReceipt hash;
    GetLogs (toHexAddress (Config.tokenFactoryAddress (config s)))
      (blockNumber receipt) (blockNumber receipt) ].

(** The four reads a token-details fetch issues together. *)
Definition detailsRequests (token : string) : list Event :=
  [ ReadContract token FnName;
    ReadContract token FnSymbol;
    ReadContract token FnDecimals;
    ReadContract token FnTotalSupply ].

(** The details of [token] as displayed once the four reads are answered,
    up to the request for the balance of [user]. *)
Definition detailsDisplay (token tokenName tokenSymbol : string) (decimals : nat)
  (totalSupply : Z) (user : string) : list Event :=
  [ ConsoleLog "Token Details:";
    ConsoleLog ("Name: " ++ tokenName);
    ConsoleLog ("Symbol: " ++ tokenSymbol);
    ConsoleLog ("Decimals: " ++ showN (N.of_nat decimals));
    ConsoleLog ("Total Supply: " ++ formatAmount totalSupply decimals);
    ConsoleLog ("Contract Address: " ++ token);
    ReadContract token (FnBalanceOf user) ].

(** The run [r] of a mutating operation reached the main menu with the
    variables [s], and either submitted exactly the transaction [tx n], with
    [n] the decimal string [amount] scaled by 10^[decimals] and rounded, or,
    [amount] not being a decimal string, submitted nothing and reported the
    error under [label]. *)
Definition scaledSubmission {W} (r : Run W Session unit) (s : Session)
  (label amount : string) (decimals : nat) (tx : Z -> Event) : Prop :=
  outcome r = Halt (OutOfFuel ShowMainMenu)
  /\ final r = s
  /\ match parseDecimal amount with
     | Some d =>
         filter isSubmission (trace r)
         = [tx (roundQ (decimalValue d * pow10 decimals))]
     | None =>
         filter isSubmission (trace r) = []
         /\ In (ConsoleError label (InvalidDecimalNumberError amount)) (trace r)
     end.

(** The account list [switchAccount] prints. *)
Fixpoint accountLines (current : Z) (index : nat) (l : list AccountInfo.t)
  : list string :=
  match l with
  | [] => []
  | acc :: r => accountLine current index acc :: accountLines current (S index) r
  end.

(** An identity whose address and account are the derivation of its key. *)
Definition Derived {signer : Signer} (info : AccountInfo.t) : Prop :=
  addressOfKey (AccountInfo.privateKey info) = Some (AccountInfo.address info)
  /\ AccountInfo.account info
     = {| address := AccountInfo.address info;
          signingKey := AccountInfo.privateKey info |}.

(** The registry only grew, by derived identities. *)
Definition Extends {signer : Signer} (s s' : Session) : Prop :=
  exists added,
    accounts s' = (accounts s ++ added)%list /\ Forall Derived added.

(** The identity [createNewAccount] and [importAccount] append. *)
Definition identity (name key derived : string) : AccountInfo.t :=
  {| AccountInfo.name := name;
     AccountInfo.privateKey := key;
     AccountInfo.account := {| address := derived; signingKey := key |};
     AccountInfo.address := derived |}.

(** Every run of [m] leaves a registry that extends the one it started from. *)
Definition Keeps (W : Type) {signer : Signer} {A} (m : Prog W Session A) : Prop :=
  forall (s : Session) (i : Input W), Extends s (final (m s i)).

(** Every value [m] returns satisfies [Q]. *)
Definition Yields (W : Type) {A} (m : Prog W Session A) (Q : A -> Prop) : Prop :=
  forall (s : Session) (i : Input W) (a : A), outcome (m s i) = Return a -> Q a.

(** ** Concrete sessions, and two sentences of the spec as worded *)

(** The session [connect] sets up for [primaryKey], with the scenario's
    connection parameters. *)
Definition primaryAddress : string := "0x11111111111111111111aaaaaaaaaaaaaaaaaaaa".

Definition primaryAccount : Account :=
  {| address := primaryAddress; signingKey := primaryKey |}.

Definition primarySession : Session :=
  {| config := {| Config.rpcUrl := "http://localhost:8545";
                  Config.chainId := Some 1337;
                  Config.tokenFactoryAddress := "0xfac";
                  Config.privateKey := primaryKey |};
     publicClient := {| publicTransport := "http://localhost:8545" |};
     walletClient := {| walletAccount := primaryAccount;
                        walletTransport := "http://localhost:8545" |};
     account := primaryAccount;
     userAddress := primaryAddress;
     tokenAddress := None;
     accounts := [identity "Default Account" primaryKey primaryAddress];
     currentAccountIndex := 0 |}.

(** The same session with the token at "0xt0k" connected. *)
Definition connectedSession : Session :=
  setTokenAddress (Some "0xt0k") primarySession.

(** The created account of the stub's entropy: 32 bytes 0x2a. *)
Definition bobKey : string :=
  "0x2a2a2a2a2a2a2a2a2a2a2a2a2a2a2a2a2a2a2a2a2a2a2a2a2a2a2a2a2a2a2a2a".

Definition bobAddress : string := "0x2a2a2a2a2a2a2a2a2a2a2a2a2a2a2a2a2a2a2a2a".

(** C5 as the spec words it, for a run [r] of [createToken] that started
    with [prior] connected and read [logs] from the confirmation's block. *)
Definition createTokenAsClaimed {W} (prior : option string)
  (logs : list TokenCreatedLog) (r : Run W Session unit) : Prop :=
  match logs with
  | first :: _ =>
      tokenAddress (final r)
      = match args first with
        | Some decoded => argsTokenAddress decoded
        | None => None
        end
      /\ In (ConsoleLog "Token Details:") (trace r)
  | [] =>
      tokenAddress (final r) = prior
      /\ In (ConsoleLog "Token creation event not found in the transaction receipt")
           (trace r)
  end.

(** The four connection parameters, by the environment variable of each. *)
Definition connectionParameters : list string :=
  ["RPC_URL"; "CHAIN_ID"; "TOKEN_FACTORY_ADDRESS"; "PRIVATE_KEY"].

(** C2 as the spec words it: as many prompts as parameters the environment
    leaves unset. *)
Definition everyUnsetParameterRequested {W} (env : string -> option string)
  (r : Run W Config.t Session) : Prop :=
  length (filter isQuestion (trace r))
  = length (filter (fun k => match env k with None => true | Some _ => false end)
              connectionParameters).


(** ** Vocabulary of the session-wide statements *)

(** The bindings agree: the current index names a registered identity, the
    user address is the signing account's, the wallet client is bound to
    the signing account, and the signing account is a registered one. *)
Definition Coherent (s : Session) : Prop :=
  (exists info, accountAt (accounts s) (currentAccountIndex s) = Some info)
  /\ userAddress s = address (account s)
  /\ walletAccount (walletClient s) = account s
  /\ In (account s) (map AccountInfo.account (accounts s)).

(** [t] ends with the events [suffix]. *)
Definition EndsWith (t suffix : list Event) : Prop :=
  exists before, t = (before ++ suffix)%list.

(** What the exit branch of the menu prints and does last. *)
Definition goodbye : list Event := [ConsoleLog "Goodbye!"; RlClose].

(** The run [r], started from [s], threw nothing out, kept the bindings
    coherent and the configuration as it was, and if it ended the process
    it did so with status 0, right after the goodbye. *)
Definition Survives {W A} (s : Session) (r : Run W Session A) : Prop :=
  Coherent (final r)
  /\ config (final r) = config s
  /\ match outcome r with
     | Throw _ => False
     | Halt (Exited code) => code = 0 /\ EndsWith (trace r) goodbye
     | _ => True
     end.

(** The run [r] did not come back to its caller. *)
Definition Loops {W A} (r : Run W Session A) : Prop :=
  match outcome r with
  | Return _ => False
  | _ => True
  end.

(** A request to the chain through the read client or the write client. *)
Definition isChainRequest (e : Event) : bool :=
  match e with
  | ReadContract _ _ | WriteContract _ _ _ | WaitForTransactionReceipt _
  | GetLogs _ _ _ | GetBalance _ => true
  | _ => false
  end.

(** A lower-case hexadecimal digit. *)
Definition isLowerHex (c : ascii) : bool :=
  let n := N_of_ascii c in
  (((48 <=? n) && (n <=? 57)) || ((97 <=? n) && (n <=? 102)))%N.

(** The entries of the main menu. *)
Definition menuChoices : list string :=
  ["0"; "1"; "2"; "3"; "4"; "5"; "6"; "7"; "8"; "9"; "10"; "11"; "12"].

(** What [showMainMenu] prints before it asks for the choice, [current]
    being the identity at the current index. *)
Definition menuEvents (current : AccountInfo.t) : list Event :=
  (ConsoleLog (nl ++ "=== RWA Token Manager ===")
   :: ConsoleLog ("Current Account: " ++ AccountInfo.name current
                  ++ " (" ++ AccountInfo.address current ++ ")")
   :: map ConsoleLog menuLines)%list.

(** The key [importAccount] registers for what was entered. *)
Definition importedKey (entered : string) : string :=
  if negb (startsWith entered "0x") then "0x" ++ entered else entered.

(** The run [r] of a token operation, up to the menu: the variables are
    those it started with, and it handed at most one transaction to the
    write client, signed by the bound account and sent to the token. *)
Definition AtMostOneSubmission {W} (s : Session) (token : string)
  (r : Run W Session unit) : Prop :=
  final r = s
  /\ (filter isSubmission (trace r) = []
      \/ exists f, filter isSubmission (trace r) = [WriteContract (account s) token f]).

(** The chain of [liveToken] with every submission rejected. *)
Definition rejectingChain : Stub :=
  {| stubName := Some "Gold"; stubSymbol := Some "GLD";
     stubDecimals := Some 18%nat;
     stubTotalSupply := Some (1000 * 10 ^ 18);
     stubBalanceOf := Some (7 * 10 ^ 18);
     stubAllowance := Some (3 * 10 ^ 18);
     stubWrite := None;
     stubReceipt := Some {| blockNumber := 42 |};
     stubLogs := Some [];
     stubBalance := Some (5 * 10 ^ 18);
     stubByte := Byte.x2a |}.

(** The chain of [liveToken] with two TokenCreated logs in the block. *)
Definition twoCreations : Stub :=
  {| stubName := Some "Gold"; stubSymbol := Some "GLD";
     stubDecimals := Some 18%nat;
     stubTotalSupply := Some (1000 * 10 ^ 18);
     stubBalanceOf := Some (7 * 10 ^ 18);
     stubAllowance := Some (3 * 10 ^ 18);
     stubWrite := Some "0xhash";
     stubReceipt := Some {| blockNumber := 42 |};
     stubLogs := Some [ {| args := Some {| argsTokenAddress := Some "0xt0ken";
                                           argsOwner := Some "0x0wner" |} |};
                        {| args := Some {| argsTokenAddress := Some "0x0ther";
                                           argsOwner := Some "0x0wner" |} |} ];
     stubBalance := Some (5 * 10 ^ 18);
     stubByte := Byte.x2a |}.

(** The chain of [liveToken] with [logs] in the block. *)
Definition withLogs (logs : list TokenCreatedLog) : Stub :=
  {| stubName := Some "Gold"; stubSymbol := Some "GLD";
     stubDecimals := Some 18%nat;
     stubTotalSupply := Some (1000 * 10 ^ 18);
     stubBalanceOf := Some (7 * 10 ^ 18);
     stubAllowance := Some (3 * 10 ^ 18);
     stubWrite := Some "0xhash";
     stubReceipt := Some {| blockNumber := 42 |};
     stubLogs := Some logs;
     stubBalance := Some (5 * 10 ^ 18);
     stubByte := Byte.x2a |}.

(** A first log with no decoded arguments, then one with a token address. *)
Definition undecodedFirst : list TokenCreatedLog :=
  [ {| args := None |};
    {| args := Some {| argsTokenAddress := Some "0x0ther";
                       argsOwner := Some "0x0wner" |} |} ].

(** A first log with the owner only, then one with a token address. *)
Definition ownerOnlyFirst : list TokenCreatedLog :=
  [ {| args := Some {| argsTokenAddress := None; argsOwner := Some "0x0wner" |} |};
    {| args := Some {| argsTokenAddress := Some "0x0ther";
                       argsOwner := Some "0x0wner" |} |} ].

(** The primary session with the created account of the stub registered
    second. *)
Definition twoAccounts : Session :=
  pushAccount (identity "bob" bobKey bobAddress) primarySession.

(** * Properties *)

(** ** Concrete runs of the pure functions *)

Example parseInt_2 : parseInt "2" = Some 2.
Proof. reflexivity. Qed.

Example parseInt_c : parseInt "c" = None.
Proof. reflexivity. Qed.

Example parseInt_junk : parseInt "  -12abc" = Some (-12).
Proof. reflexivity. Qed.

Example parseInt_hex : parseInt "0x1f" = Some 31.
Proof. reflexivity. Qed.

Example parseInt_empty : parseInt "" = None.
Proof. reflexivity. Qed.

Example showN_0 : showN 0 = "0".
Proof. reflexivity. Qed.

Example showN_1205 : showN 1205 = "1205".
Proof. reflexivity. Qed.

Example parseUnits_10_18 : parseUnits "10" 18 = Some (10 * 10 ^ 18).
Proof. vm_compute. reflexivity. Qed.

Example parseUnits_round_up : parseUnits "1.5" 0 = Some 2.
Proof. vm_compute. reflexivity. Qed.

Example parseUnits_round_neg : parseUnits "-0.0025" 3 = Some (-3).
Proof. vm_compute. reflexivity. Qed.

Example parseUnits_word : parseUnits "ten" 18 = None.
Proof. reflexivity. Qed.

Example parseUnits_two_points : parseUnits "1.2.3" 18 = None.
Proof. reflexivity. Qed.

Example formatUnits_1500_3 : formatUnits 1500 3 = "1.5".
Proof. reflexivity. Qed.

Example formatUnits_small : formatUnits (-5) 3 = "-0.005".
Proof. reflexivity. Qed.

Example formatUnits_zero : formatUnits 0 18 = "0".
Proof. reflexivity. Qed.

Example formatUnits_whole : formatUnits 10 0 = "10".
Proof. reflexivity. Qed.

Example toHexAddress_bare : toHexAddress "ab" = "0xab".
Proof. reflexivity. Qed.

(** ** Amount scaling: the round trip *)

(** *** Digits *)

Lemma digitValue_digitChar : forall k : N, (k < 10)%N -> digitValue (digitChar k) = k.
Proof.
  intros k Hk. unfold digitValue, digitChar.
  rewrite N_ascii_embedding by lia. lia.
Qed.

Lemma isDigit_digitChar : forall k : N, (k < 10)%N -> isDigit (digitChar k) = true.
Proof.
  intros k Hk. unfold isDigit, digitChar.
  rewrite N_ascii_embedding by lia.
  apply andb_true_intro. split; apply N.leb_le; lia.
Qed.

Lemma fold_digits_acc :
  forall (l : list ascii) (acc : N),
    fold_left (fun a c => (a * 10 + digitValue c)%N) l acc
    = (acc * 10 ^ N.of_nat (length l) + digitsValue l)%N.
Proof.
  unfold digitsValue.
  induction l as [|c r IH]; intros acc.
  - cbn. lia.
  - cbn [fold_left length]. rewrite IH, (IH (0 * 10 + digitValue c)%N).
    rewrite Nat2N.inj_succ, N.pow_succ_r'. lia.
Qed.

Lemma digitsValue_app :
  forall a b : list ascii,
    digitsValue (a ++ b)
    = (digitsValue a * 10 ^ N.of_nat (length b) + digitsValue b)%N.
Proof.
  intros a b. unfold digitsValue at 1. rewrite fold_left_app.
  fold (digitsValue a). apply fold_digits_acc.
Qed.

Lemma digitsValue_zeros : forall k : nat, digitsValue (repeat "0"%char k) = 0%N.
Proof.
  induction k as [|k IH]; [reflexivity|].
  change (repeat "0"%char (S k)) with (["0"%char] ++ repeat "0"%char k)%list.
  rewrite digitsValue_app, IH. reflexivity.
Qed.

Lemma toDigits_spec :
  forall (fuel : nat) (n : N),
    (n < 10 ^ N.of_nat fuel)%N ->
    digitsValue (toDigits fuel n) = n
    /\ forallb isDigit (toDigits fuel n) = true.
Proof.
  induction fuel as [|fuel IH]; intros n Hn.
  - cbn in Hn. assert (n = 0%N) by lia. subst. split; reflexivity.
  - cbn [toDigits]. destruct (n <? 10)%N eqn:Hlt.
    + apply N.ltb_lt in Hlt. split.
      * unfold digitsValue. cbn [fold_left]. rewrite digitValue_digitChar by lia. lia.
      * cbn [forallb]. rewrite isDigit_digitChar by lia. reflexivity.
    + apply N.ltb_ge in Hlt.
      rewrite Nat2N.inj_succ, N.pow_succ_r' in Hn.
      assert (Hq : (n / 10 < 10 ^ N.of_nat fuel)%N).
      { apply N.Div0.div_lt_upper_bound; lia. }
      destruct (IH _ Hq) as [Hv Hd].
      assert (Hm : (n mod 10 < 10)%N) by (apply N.mod_lt; lia).
      split.
      * rewrite digitsValue_app, Hv. cbn [length].
        unfold digitsValue at 1. cbn [fold_left].
        rewrite digitValue_digitChar by lia.
        change (10 ^ N.of_nat 1)%N with 10%N.
        rewrite (N.div_mod n 10) at 3 by lia. lia.
      * rewrite forallb_app, Hd. cbn [forallb].
        rewrite isDigit_digitChar by lia. reflexivity.
Qed.

Lemma toDigits_nonempty :
  forall (fuel : nat) (n : N), toDigits (S fuel) n <> [].
Proof.
  intros fuel n. cbn [toDigits]. destruct (n <? 10)%N; [discriminate|].
  intros H. apply app_eq_nil in H. destruct H; discriminate.
Qed.

Lemma digitsOf_spec :
  forall n : N,
    digitsValue (digitsOf n) = n
    /\ forallb isDigit (digitsOf n) = true
    /\ digitsOf n <> [].
Proof.
  intros n. unfold digitsOf.
  assert (Hn : (n < 10 ^ N.of_nat (S (N.to_nat (N.log2 n))))%N).
  { rewrite Nat2N.inj_succ, N2Nat.id.
    destruct (N.eq_dec n 0) as [->|Hnz]; [cbn; lia|].
    assert (Hlog : (n < 2 ^ N.succ (N.log2 n))%N) by (apply N.log2_spec; lia).
    eapply N.lt_le_trans; [exact Hlog|].
    apply N.pow_le_mono_l. lia. }
  destruct (toDigits_spec _ _ Hn) as [Hv Hd].
  split; [exact Hv|]. split; [exact Hd|]. apply toDigits_nonempty.
Qed.

Lemma trimTrailingZeros_spec :
  forall l : list ascii,
    exists k : nat, l = (trimTrailingZeros l ++ repeat "0"%char k)%list.
Proof.
  induction l as [|c r [k IH]].
  - exists 0%nat. reflexivity.
  - cbn [trimTrailingZeros]. destruct (trimTrailingZeros r) as [|x xs] eqn:Ht.
    + destruct (Ascii.eqb c "0") eqn:Hc.
      * apply Ascii.eqb_eq in Hc. subst c. exists (S k). cbn in *. now rewrite IH.
      * exists k. cbn in *. now rewrite IH.
    + exists k. cbn [app] in *. now rewrite IH at 1.
Qed.

Lemma forallb_trimTrailingZeros :
  forall l : list ascii,
    forallb isDigit l = true -> forallb isDigit (trimTrailingZeros l) = true.
Proof.
  intros l H. destruct (trimTrailingZeros_spec l) as [k Hk].
  rewrite Hk, forallb_app in H. now apply andb_true_iff in H.
Qed.

Lemma isDigit_not_dot : forall c : ascii, isDigit c = true -> Ascii.eqb c "." = false.
Proof.
  intros c H. destruct (Ascii.eqb c ".") eqn:E; [|reflexivity].
  apply Ascii.eqb_eq in E. subst c. discriminate.
Qed.

Lemma splitAtDot_digits :
  forall (a : list ascii) (tail : list ascii),
    forallb isDigit a = true ->
    splitAtDot (a ++ "."%char :: tail) = (a, Some tail)
    /\ splitAtDot a = (a, None).
Proof.
  induction a as [|c r IH]; intros tail H.
  - split; reflexivity.
  - cbn [forallb] in H. apply andb_true_iff in H. destruct H as [Hc Hr].
    destruct (IH tail Hr) as [IH1 IH2].
    cbn [app splitAtDot]. rewrite (isDigit_not_dot c Hc), IH1, IH2. split; reflexivity.
Qed.

Lemma pow10_pos : forall n : nat, (0 < pow10 n)%Q.
Proof.
  intros n. unfold pow10. change 0%Q with (inject_Z 0). rewrite <- Zlt_Qlt.
  apply Z.pow_pos_nonneg; lia.
Qed.

Lemma pow10_add : forall a b : nat, (pow10 (a + b) == pow10 a * pow10 b)%Q.
Proof.
  intros a b. unfold pow10. rewrite <- inject_Z_mult, Nat2Z.inj_add, Z.pow_add_r by lia.
  reflexivity.
Qed.

Lemma pow10_N : forall n : nat, pow10 n = inject_Z (Z.of_N (10 ^ N.of_nat n)).
Proof.
  intros n. unfold pow10. f_equal. rewrite N2Z.inj_pow, nat_N_Z. reflexivity.
Qed.

Lemma magnitude_joined :
  forall int frac : list ascii,
    (magnitude int frac
     == inject_Z (Z.of_N (digitsValue (int ++ frac))) / pow10 (length frac))%Q.
Proof.
  intros int frac. unfold magnitude.
  rewrite digitsValue_app, N2Z.inj_add, N2Z.inj_mul, inject_Z_plus, inject_Z_mult.
  rewrite <- pow10_N.
  pose proof (pow10_pos (length frac)) as Hp.
  field. intros H. rewrite H in Hp. now apply Qlt_irrefl in Hp.
Qed.

Lemma magnitude_trim :
  forall int frac : list ascii,
    (magnitude int (trimTrailingZeros frac) == magnitude int frac)%Q.
Proof.
  intros int frac. destruct (trimTrailingZeros_spec frac) as [k Hk].
  set (f := trimTrailingZeros frac) in *. clearbody f. subst frac.
  unfold magnitude.
  rewrite digitsValue_app, digitsValue_zeros, length_app, repeat_length, N.add_0_r.
  rewrite N2Z.inj_mul, inject_Z_mult, <- pow10_N, pow10_add.
  pose proof (pow10_pos (length f)) as Hp1. pose proof (pow10_pos k) as Hp2.
  field. split; intros H; [rewrite H in Hp2; now apply Qlt_irrefl in Hp2
                          |rewrite H in Hp1; now apply Qlt_irrefl in Hp1].
Qed.

Lemma stripSign_digit :
  forall (c : ascii) (r : list ascii),
    isDigit c = true -> stripSign (c :: r) = (false, c :: r).
Proof.
  intros c r H.
  destruct c as [[] [] [] [] [] [] [] []]; try discriminate; reflexivity.
Qed.

Lemma length_padStart :
  forall (l : list ascii) (n : nat), (n <= length (padStart l n))%nat.
Proof.
  intros l n. unfold padStart. rewrite length_app, repeat_length. lia.
Qed.

Lemma digitsValue_padStart :
  forall (l : list ascii) (n : nat), digitsValue (padStart l n) = digitsValue l.
Proof.
  intros l n. unfold padStart. rewrite digitsValue_app, digitsValue_zeros. lia.
Qed.

Lemma forallb_repeat_zero :
  forall k : nat, forallb isDigit (repeat "0"%char k) = true.
Proof. induction k; [reflexivity|cbn; assumption]. Qed.

Lemma forallb_firstn :
  forall (n : nat) (l : list ascii),
    forallb isDigit l = true -> forallb isDigit (firstn n l) = true.
Proof.
  intros n l H. rewrite <- (firstn_skipn n l), forallb_app in H.
  now apply andb_true_iff in H.
Qed.

Lemma forallb_skipn :
  forall (n : nat) (l : list ascii),
    forallb isDigit l = true -> forallb isDigit (skipn n l) = true.
Proof.
  intros n l H. rewrite <- (firstn_skipn n l), forallb_app in H.
  now apply andb_true_iff in H.
Qed.

(** The display string of [formatUnits] reads back as a decimal string
    whose value is [value / 10^decimals]. *)
Lemma formatUnits_parses :
  forall (value : Z) (decimals : nat),
    exists d : DecimalString,
      parseDecimal (formatUnits value decimals) = Some d
      /\ (decimalValue d == inject_Z value / pow10 decimals)%Q.
Proof.
  intros value decimals. unfold formatUnits, parseDecimal.
  rewrite list_ascii_of_string_of_list_ascii.
  destruct (digitsOf_spec (Z.abs_N value)) as (Hv & Hd & _).
  set (display := padStart (digitsOf (Z.abs_N value)) decimals).
  assert (Hdv : digitsValue display = Z.abs_N value)
    by (unfold display; now rewrite digitsValue_padStart).
  assert (Hdd : forallb isDigit display = true).
  { unfold display, padStart. now rewrite forallb_app, forallb_repeat_zero. }
  assert (Hlen : (decimals <= length display)%nat) by apply length_padStart.
  set (cut := (length display - decimals)%nat).
  set (integer := firstn cut display).
  set (frac0 := skipn cut display).
  assert (Hjoin : (integer ++ frac0)%list = display) by apply firstn_skipn.
  assert (Hfl : length frac0 = decimals).
  { unfold frac0, cut. rewrite length_skipn. lia. }
  assert (Hid : forallb isDigit integer = true) by now apply forallb_firstn.
  assert (Hfd : forallb isDigit (trimTrailingZeros frac0) = true).
  { apply forallb_trimTrailingZeros. now apply forallb_skipn. }
  set (fraction := trimTrailingZeros frac0) in *.
  set (intpart := match integer with [] => ["0"%char] | _ => integer end).
  assert (Hipd : forallb isDigit intpart = true)
    by (unfold intpart; destruct integer; [reflexivity|exact Hid]).
  assert (Hipv : digitsValue intpart = digitsValue integer)
    by (unfold intpart; destruct integer; reflexivity).
  assert (Hipn : exists c r, intpart = c :: r /\ isDigit c = true).
  { unfold intpart. destruct integer as [|c r]; [exists "0"%char, []; auto|].
    exists c, r. cbn [forallb] in Hid. apply andb_true_iff in Hid. tauto. }
  set (tail := match fraction with [] => [] | _ => "."%char :: fraction end).
  assert (Hsplit : splitAtDot (intpart ++ tail)
                   = (intpart, match fraction with [] => None | _ => Some fraction end)).
  { unfold tail. destruct fraction as [|f fs] eqn:Hf.
    - rewrite app_nil_r. now apply (splitAtDot_digits intpart []).
    - now apply (splitAtDot_digits intpart (f :: fs)). }
  assert (Hstrip : stripSign ((if value <? 0 then ["-"%char] else []) ++ intpart ++ tail)
                   = (value <? 0, (intpart ++ tail)%list)).
  { destruct (value <? 0); [reflexivity|].
    destruct Hipn as (c & r & -> & Hc). cbn [app]. now apply stripSign_digit. }
  rewrite Hstrip, Hsplit.
  assert (Hfrac : match match fraction with [] => None | _ => Some fraction end with
                  | Some f => f | None => [] end = fraction)
    by (destruct fraction; reflexivity).
  rewrite Hfrac, Hipd, Hfd. cbn [andb].
  assert (Hne : negb (length intpart + length fraction =? 0)%nat = true).
  { destruct Hipn as (c & r & -> & _). reflexivity. }
  rewrite Hne.
  eexists. split; [reflexivity|].
  unfold decimalValue. cbn [negative integerPart fractionPart].
  assert (Hm : (magnitude intpart fraction
                == inject_Z (Z.of_N (Z.abs_N value)) / pow10 decimals)%Q).
  { unfold fraction. rewrite magnitude_trim.
    unfold magnitude at 1. rewrite Hipv. fold (magnitude integer frac0).
    now rewrite magnitude_joined, Hjoin, Hdv, Hfl. }
  rewrite N2Z.inj_abs_N in Hm.
  destruct (value <? 0) eqn:Hneg.
  - apply Z.ltb_lt in Hneg. rewrite Hm, Z.abs_neq by lia.
    rewrite inject_Z_opp. pose proof (pow10_pos decimals) as Hp.
    field. intros H. rewrite H in Hp. now apply Qlt_irrefl in Hp.
  - apply Z.ltb_ge in Hneg. rewrite Hm, Z.abs_eq by lia. reflexivity.
Qed.

Lemma roundQ_close :
  forall q : Q, (Qabs (inject_Z (roundQ q) - q) <= 1 # 2)%Q.
Proof.
  intros q. unfold roundQ. apply Qabs_Qle_condition.
  destruct (Qle_bool 0 q) eqn:Hs.
  - pose proof (Qfloor_le (q + (1 # 2))) as H1.
    pose proof (Qlt_floor (q + (1 # 2))) as H2.
    rewrite inject_Z_plus in H2. change (inject_Z 1) with 1%Q in H2.
    split; lra.
  - pose proof (Qfloor_le (- q + (1 # 2))) as H1.
    pose proof (Qlt_floor (- q + (1 # 2))) as H2.
    rewrite inject_Z_plus in H2. change (inject_Z 1) with 1%Q in H2.
    rewrite inject_Z_opp. split; lra.
Qed.

(** The round trip in numbers: scaling [q] to an integer and back is within
    half a smallest unit of [q]. *)
Lemma scaled_back_close :
  forall (q : Q) (decimals : nat),
    (Qabs (inject_Z (roundQ (q * pow10 decimals)) / pow10 decimals - q)
     <= (1 # 2) / pow10 decimals)%Q.
Proof.
  intros q decimals.
  pose proof (pow10_pos decimals) as Hp.
  pose proof (roundQ_close (q * pow10 decimals)) as Hr.
  set (n := inject_Z (roundQ (q * pow10 decimals))) in *.
  assert (Hnz : ~ (pow10 decimals == 0)%Q)
    by (intros H; rewrite H in Hp; now apply Qlt_irrefl in Hp).
  assert (He : (n / pow10 decimals - q == (n - q * pow10 decimals) / pow10 decimals)%Q)
    by (field; exact Hnz).
  rewrite He. unfold Qdiv. rewrite Qabs_Qmult.
  rewrite (Qabs_pos (/ pow10 decimals)) by (apply Qlt_le_weak, Qinv_lt_0_compat, Hp).
  apply Qmult_le_compat_r; [exact Hr|].
  apply Qlt_le_weak, Qinv_lt_0_compat, Hp.
Qed.

(** C6: for a valid decimal string [s] and a precision [decimals],
    [parseAmount] gives an integer, [formatAmount] of that integer is again
    a valid decimal string, and the two strings denote numbers at most one
    smallest unit (in fact half of one) apart. *)
Theorem amount_round_trip :
  forall (s : string) (decimals : nat) (d : DecimalString),
    parseDecimal s = Some d ->
    exists (n : Z) (d' : DecimalString),
      parseAmount s decimals = inr n
      /\ parseDecimal (formatAmount n decimals) = Some d'
      /\ (Qabs (decimalValue d' - decimalValue d) <= 1 / pow10 decimals)%Q
      /\ (Qabs (decimalValue d' - decimalValue d) <= (1 # 2) / pow10 decimals)%Q.
Proof.
  intros s decimals d Hd.
  set (n := roundQ (decimalValue d * pow10 decimals)).
  destruct (formatUnits_parses n decimals) as (d' & Hp & Hv).
  exists n, d'. split.
  { unfold parseAmount, parseUnits. now rewrite Hd. }
  split; [exact Hp|].
  assert (Hhalf : (Qabs (decimalValue d' - decimalValue d)
                   <= (1 # 2) / pow10 decimals)%Q).
  { rewrite Hv. apply scaled_back_close. }
  split; [|exact Hhalf].
  eapply Qle_trans; [exact Hhalf|].
  unfold Qdiv. apply Qmult_le_compat_r; [discriminate|].
  apply Qlt_le_weak, Qinv_lt_0_compat, pow10_pos.
Qed.

(** ** The operations *)

Ltac run_prog :=
  cbv beta iota zeta delta
    [bind tryCatch prepend ret throw halt get modify tell log consoleError exit
     lift question request await startRead readContract writeContract
     waitForTransactionReceipt getLogs getBalance privateKeyToAccount
     randomBytes generateRandomPrivateKey accountInfoAt
     stdin world outcome final rest trace];
  cbn [app].

(** One answer of the chain, by cases. *)
Ltac step_chain :=
  match goal with
  | |- context [chain_read ?w ?a ?f] =>
      destruct (chain_read w a f) as [[?|] ?] eqn:?
  | |- context [chain_write ?w ?a ?b ?c] =>
      destruct (chain_write w a b c) as [[?|] ?] eqn:?
  | |- context [chain_wait ?w ?h] =>
      destruct (chain_wait w h) as [[?|] ?] eqn:?
  | |- context [chain_logs ?w ?a ?b ?c] =>
      destruct (chain_logs w a b c) as [[?|] ?] eqn:?
  | |- context [chain_balance ?w ?a] =>
      destruct (chain_balance w a) as [[?|] ?] eqn:?
  end; run_prog.

Ltac session_fields :=
  cbn [config publicClient walletClient account userAddress tokenAddress
       accounts currentAccountIndex address signingKey
       AccountInfo.name AccountInfo.privateKey AccountInfo.account
       AccountInfo.address].

(** The cyclic call the goal is waiting for, as an arbitrary run. *)
Ltac resume call :=
  match goal with
  | |- context [call ?p ?s ?i] =>
      destruct (call p s i) as [[[]|?|?] ? ? ?]; run_prog
  end.

Local Open Scope prog_scope.

Section Facts.
Context {W : Type} {chain : ChainClient W} {entropy : Entropy W} {signer : Signer}.

(** *** transferFrom and the allowance

    C1: with a token connected, [transferFromTokens] compares the allowance
    it reads for (sender, current user address) with the amount in smallest
    units.  When the allowance is smaller it prints the shortfall and shows
    the main menu, having only prompted and read; and up to the point where
    the menu comes back, a transaction is handed to the write client only
    after an allowance of at least the amount was read. *)
Theorem transferFrom_checks_allowance :
  forall (call : proc -> Prog W Session unit) (s : Session) (i : Input W) (token : string),
    connectedToken s = Some token ->
    (forall senderInput recipientInput amount lines decimals w1 amountInWei allowance w2,
        stdin i = senderInput :: recipientInput :: amount :: lines ->
        chain_read (world i) token FnDecimals = (Some decimals, w1) ->
        parseAmount amount decimals = inr amountInWei ->
        chain_read w1 token (FnAllowance (toHexAddress senderInput) (userAddress s))
          = (Some allowance, w2) ->
        allowance < amountInWei ->
        transferFromTokens call s i =
          prepend
            [ Question "Enter sender address: ";
              Question "Enter recipient address: ";
              Question "Enter amount to transfer: ";
              ReadContract token FnDecimals;
              ReadContract token (FnAllowance (toHexAddress senderInput) (userAddress s));
              ConsoleLog ("Insufficient allowance. Current allowance: "
                          ++ formatAmount allowance decimals) ]
            ((completion <-
                tryCatch (call ShowMainMenu ;; ret Returned)
                  (fun error =>
                     consoleError "Error transferring tokens:" error ;; ret Normal) ;;
              match completion with
              | Returned => ret tt
              | Normal => call ShowMainMenu
              end) s {| stdin := lines; world := w2 |}))
    /\
    (forall signer' address' f,
        In (WriteContract signer' address' f) (trace (transferFromTokens (exec 0) s i)) ->
        exists senderInput recipientInput amount lines decimals w1 amountInWei allowance w2,
          stdin i = senderInput :: recipientInput :: amount :: lines
          /\ chain_read (world i) token FnDecimals = (Some decimals, w1)
          /\ parseAmount amount decimals = inr amountInWei
          /\ chain_read w1 token (FnAllowance (toHexAddress senderInput) (userAddress s))
             = (Some allowance, w2)
          /\ amountInWei <= allowance
          /\ signer' = account s /\ address' = token
          /\ f = FnTransferFrom (toHexAddress senderInput)
                   (toHexAddress recipientInput) amountInWei).
Proof.
  intros call s i token Hc. split.
  2:{ intros signer' address' f. destruct i as [inp w].
      unfold transferFromTokens. run_prog. rewrite Hc. run_prog.
      destruct inp as [|senderInput [|recipientInput [|amount lines]]];
        run_prog; try (simpl; intuition discriminate).
      destruct (chain_read w token FnDecimals) as [[decimals|] w1] eqn:Hd;
        run_prog; try (simpl; intuition discriminate).
      destruct (parseAmount amount decimals) as [e|amountInWei] eqn:Hp;
        run_prog; try (simpl; intuition discriminate).
      destruct (chain_read w1 token _) as [[allowance|] w2] eqn:Ha;
        run_prog; try (simpl; intuition discriminate).
      destruct (allowance <? amountInWei) eqn:Hlt;
        run_prog; try (simpl; intuition discriminate).
      apply Z.ltb_ge in Hlt.
      repeat step_chain;
        simpl; intros Hin;
        repeat (destruct Hin as [Hin|Hin];
                [ try discriminate; inversion Hin; subst;
                  exists senderInput, recipientInput, amount, lines, decimals, w1,
                    amountInWei, allowance, w2; intuition
                | ]);
        contradiction. }
  intros * Hin Hd Hp Ha Hlt.
  destruct i as [inp w]. simpl in *. subst inp.
  unfold transferFromTokens.
  run_prog. rewrite Hc. run_prog. rewrite Hd. run_prog. rewrite Hp. run_prog. rewrite Ha. run_prog.
  apply Z.ltb_lt in Hlt. rewrite Hlt. run_prog.
  destruct (call ShowMainMenu s _) as [[[]|e|h] s1 i1 t]; run_prog; try reflexivity.
  destruct (call ShowMainMenu s1 i1) as [o2 s2 i2 t2]; run_prog.
  now rewrite <- !app_assoc.
Qed.

(** *** Read-only operations without a connected token *)

(** C9: with no token connected, [checkBalance] and [showTokenDetails]
    print the "no token connected" line and go straight back to the main
    menu: no prompt, no chain request, the variables and the input as they
    were. *)
Theorem read_only_operations_need_a_token :
  forall (call : proc -> Prog W Session unit) (s : Session) (i : Input W),
    connectedToken s = None ->
    checkBalance call s i
      = prepend [ConsoleLog noTokenConnected] (call ShowMainMenu s i)
    /\ showTokenDetails call s i
       = prepend [ConsoleLog noTokenConnected]
           ((call ShowMainMenu ;; ret None) s i)
    /\ trace (checkBalance (exec 0) s i) = [ConsoleLog noTokenConnected]
    /\ trace (showTokenDetails (exec 0) s i) = [ConsoleLog noTokenConnected].
Proof.
  intros call s i Hc.
  unfold checkBalance, showTokenDetails. run_prog. rewrite Hc. run_prog.
  repeat split;
    destruct (call ShowMainMenu s i) as [[[]|e|h] s1 i1 t]; run_prog;
    rewrite ?app_nil_r; reflexivity.
Qed.

(** *** Switching accounts *)

Lemma logAccounts_run :
  forall (l : list AccountInfo.t) (current : Z) (index : nat) (s : Session) (i : Input W),
    logAccounts current index l s i
    = {| outcome := Return tt; final := s; rest := i;
         trace := map ConsoleLog (accountLines current index l) |}.
Proof.
  induction l as [|acc r IH]; intros current index s i; simpl.
  - reflexivity.
  - run_prog. rewrite IH. reflexivity.
Qed.

Lemma lowerAscii_c : forall a : ascii,
    lowerAscii a = "c"%char -> a = "c"%char \/ a = "C"%char.
Proof.
  intros a.
  destruct a as [[] [] [] [] [] [] [] []]; vm_compute; intros H;
    try discriminate; auto.
Qed.

(** The escape token is not a number. *)
Lemma parseInt_escape : forall choice : string,
    toLowerCase choice = "c" -> parseInt choice = None.
Proof.
  intros [|a [|b r]]; simpl; intros H; try discriminate.
  injection H as H. apply lowerAscii_c in H. destruct H; subst; reflexivity.
Qed.

Lemma switchAccount_rejects :
  forall (call : proc -> Prog W Session unit) (s : Session) (i : Input W)
         (choice : string) (lines : list string) (n : Z),
    accounts s <> [] ->
    stdin i = choice :: lines ->
    parseInt choice = Some n ->
    n < 1 \/ n > Z.of_nat (length (accounts s)) ->
    switchAccount call s i
    = prepend
        (ConsoleLog (nl ++ "Available Accounts:")
         :: map ConsoleLog (accountLines (currentAccountIndex s) 0 (accounts s))
         ++ [ Question "Select account number (or 'c' to create new): ";
              ConsoleLog "Invalid selection. Please try again." ])
        (call ShowMainMenu s {| stdin := lines; world := world i |}).
Proof.
  intros call s i choice lines n Hne Hin Hp Hout.
  destruct i as [inp w]. simpl in Hin. subst inp.
  unfold switchAccount. run_prog.
  destruct (accounts s) as [|a0 l0] eqn:Hacc; [congruence|].
  cbn [length Nat.eqb]. run_prog.
  rewrite logAccounts_run. run_prog.
  destruct (toLowerCase choice =? "c")%string eqn:Hc.
  { apply String.eqb_eq in Hc. apply parseInt_escape in Hc. congruence. }
  rewrite Hp.
  assert (Hrange : (n - 1 >=? 0) && (n - 1 <? Z.of_nat (S (length l0))) = false).
  { cbn [length] in Hout.
    destruct (n - 1 >=? 0) eqn:H1; [|reflexivity].
    destruct (n - 1 <? Z.of_nat (S (length l0))) eqn:H2; [|reflexivity].
    apply Z.geb_le in H1. apply Z.ltb_lt in H2. lia. }
  rewrite Hrange. run_prog.
  destruct (call ShowMainMenu s _) as [o1 s1 i1 t1]. run_prog.
  rewrite <- !app_assoc. reflexivity.
Qed.

(** C3: a selection that parses to a number outside [1, count] changes
    nothing: [switchAccount] lists the accounts, reads the selection,
    reports "Invalid selection" and shows the main menu with the variables
    (current index, signing account, user address, wallet client and all
    the others) as they were. *)
Theorem switchAccount_invalid_selection :
  forall (call : proc -> Prog W Session unit) (s : Session) (i : Input W)
         (choice : string) (lines : list string) (n : Z),
    accounts s <> [] ->
    stdin i = choice :: lines ->
    parseInt choice = Some n ->
    n < 1 \/ n > Z.of_nat (length (accounts s)) ->
    switchAccount call s i
    = prepend
        (ConsoleLog (nl ++ "Available Accounts:")
         :: map ConsoleLog (accountLines (currentAccountIndex s) 0 (accounts s))
         ++ [ Question "Select account number (or 'c' to create new): ";
              ConsoleLog "Invalid selection. Please try again." ])
        (call ShowMainMenu s {| stdin := lines; world := world i |})
    /\ (let r := switchAccount (exec 0) s i in
        outcome r = Halt (OutOfFuel ShowMainMenu)
        /\ currentAccountIndex (final r) = currentAccountIndex s
        /\ account (final r) = account s
        /\ userAddress (final r) = userAddress s
        /\ walletClient (final r) = walletClient s
        /\ final r = s
        /\ (forall e, In e (trace r) -> isSubmission e = false)).
Proof.
  intros call s i choice lines n Hne Hin Hp Hout. split.
  - exact (switchAccount_rejects call s i choice lines n Hne Hin Hp Hout).
  - cbv zeta.
    rewrite (switchAccount_rejects (exec 0) s i choice lines n Hne Hin Hp Hout).
    cbn [exec]. run_prog. repeat split.
    intros e He. rewrite app_nil_r in He.
    destruct He as [<-|He]; [reflexivity|].
    apply in_app_or in He. destruct He as [He|He].
    + apply in_map_iff in He. destruct He as (x & <- & _). reflexivity.
    + simpl in He. intuition (subst; reflexivity).
Qed.

(** *** Token details as the validity probe *)

Lemma toHexAddress_truthy : forall a : string, truthy (toHexAddress a) = true.
Proof.
  intros a. unfold toHexAddress, startsWith.
  destruct (String.prefix "0x" a) eqn:Hp; simpl; [|reflexivity].
  destruct a; [discriminate|reflexivity].
Qed.

(** What a token-details fetch on a connected token comes to: it never
    calls back into the menu, it returns whether the token is still
    connected, and the token is still connected exactly when the chain
    answered all five reads. *)
Lemma showTokenDetails_connected :
  forall (call : proc -> Prog W Session unit) (s : Session) (i : Input W) (token : string),
    connectedToken s = Some token ->
    let ok := readsSucceed (world i) token (detailsReads (userAddress s)) in
    let r := showTokenDetails call s i in
    final r = (if ok then s else setTokenAddress None s)
    /\ outcome r = Return (Some ok)
    /\ stdin (rest r) = stdin i
    /\ (ok = true -> In (ConsoleLog "Token Details:") (trace r))
    /\ (ok = false ->
        In (ConsoleError "Error fetching token details:" RpcError) (trace r))
    /\ (forall e, In e (trace r) -> isSubmission e = false)
    /\ (forall label e, In (ConsoleError label e) (trace r) ->
        label = "Error fetching token details:").
Proof.
  intros call s i token Hc. destruct i as [inp w].
  assert (Hs : tokenAddress s = Some token).
  { unfold connectedToken in Hc. destruct (tokenAddress s) as [t|]; [|discriminate].
    destruct (truthy t); congruence. }
  unfold showTokenDetails, detailsReads, readsSucceed. run_prog. rewrite Hc. run_prog.
  destruct (chain_read w token FnName) as [[name|] w1]; run_prog;
  destruct (chain_read w1 token FnSymbol) as [[symbol|] w2]; run_prog;
  destruct (chain_read w2 token FnDecimals) as [[decimals|] w3]; run_prog;
  destruct (chain_read w3 token FnTotalSupply) as [[totalSupply|] w4]; run_prog;
  try destruct (chain_read w4 token (FnBalanceOf (userAddress s))) as [[balance|] w5];
  run_prog; cbn [setTokenAddress tokenAddress]; rewrite ?Hs;
  (split; [reflexivity|]); (split; [reflexivity|]); (split; [reflexivity|]);
  (split; [intros H; try discriminate; simpl; tauto|]);
  (split; [intros H; try discriminate; simpl; tauto|]);
  (split;
   [ intros e He; simpl in He;
     repeat (destruct He as [He|He]; [subst e; reflexivity|]); contradiction
   | intros label e He; simpl in He;
     repeat (destruct He as [He|He]; [try discriminate; now inversion He|]);
     contradiction ]).
Qed.

(** C4: a token-details fetch in which one of the five reads fails leaves
    no token connected, whatever was connected before, and reports the
    failed fetch; and when the reads of a freshly entered address fail,
    [connectToToken] ends with no token connected through that same
    handler (its own handler does not run, and it returns [true]). *)
Theorem failed_details_fetch_disconnects :
  forall (call : proc -> Prog W Session unit) (s : Session) (i : Input W),
    (forall token : string,
        connectedToken s = Some token ->
        readsSucceed (world i) token (detailsReads (userAddress s)) = false ->
        let r := showTokenDetails call s i in
        tokenAddress (final r) = None
        /\ final r = setTokenAddress None s
        /\ outcome r = Return (Some false)
        /\ In (ConsoleError "Error fetching token details:" RpcError) (trace r))
    /\
    (forall (addressInput : string) (lines : list string),
        stdin i = addressInput :: lines ->
        readsSucceed (world i) (toHexAddress addressInput)
          (detailsReads (userAddress s)) = false ->
        let r := connectToToken call s i in
        tokenAddress (final r) = None
        /\ final r = setTokenAddress None s
        /\ outcome r = Return true
        /\ In (ConsoleError "Error fetching token details:" RpcError) (trace r)
        /\ forall e, ~ In (ConsoleError "Error connecting to token:" e) (trace r)).
Proof.
  intros call s i. split.
  - intros token Hc Hfail.
    pose proof (showTokenDetails_connected call s i token Hc) as H.
    cbv zeta in H. rewrite Hfail in H.
    destruct H as (Hf & Ho & _ & _ & He & _).
    cbv zeta. rewrite Hf, Ho. repeat split; auto.
  - intros addressInput lines Hin Hfail.
    destruct i as [inp w]. cbn [stdin world] in Hin, Hfail. subst inp.
    set (s1 := setTokenAddress (Some (toHexAddress addressInput)) s).
    assert (Hc : connectedToken s1 = Some (toHexAddress addressInput)).
    { unfold connectedToken, s1. cbn [setTokenAddress tokenAddress].
      now rewrite toHexAddress_truthy. }
    pose proof (showTokenDetails_connected call s1 {| stdin := lines; world := w |}
                  _ Hc) as H.
    cbv zeta in H. cbn [world] in H.
    change (userAddress s1) with (userAddress s) in H. rewrite Hfail in H.
    destruct H as (Hf & Ho & _ & _ & He & _ & Hlab).
    specialize (He eq_refl).
    unfold connectToToken. run_prog. fold s1.
    destruct (showTokenDetails call s1 _) as [o1 f1 r1 t1].
    cbn [final outcome trace] in Hf, Ho, He, Hlab. subst o1 f1. run_prog.
    rewrite app_nil_r.
    repeat split.
    + right. exact He.
    + intros e [Hq|Hq]; [discriminate|].
      apply Hlab in Hq. discriminate.
Qed.

(** *** Token creation *)

(** C5, as the code has it: once the creation is confirmed and the logs of
    its block are read, with no log "not found" is printed and the menu
    comes back with the variables as they were; with at least one log, the
    first carrying a token address, that address is connected and announced
    and a details fetch is run on it.  When the chain answers the five
    reads the name, symbol, decimals, total supply, contract address and
    balance are displayed and the menu comes back with the token connected;
    when one of the first four reads fails nothing is displayed, and when
    the balance read fails the balance is not; either way the failed fetch
    is reported and the menu comes back with no token connected. *)
Theorem createToken_after_confirmation :
  forall (call : proc -> Prog W Session unit) (s : Session) (i : Input W)
         (name symbol ownerInput : string) (lines : list string)
         (hash : string) (w1 : W) (receipt : Receipt) (w2 : W)
         (logs : list TokenCreatedLog) (w3 : W),
    stdin i = name :: symbol :: ownerInput :: lines ->
    chain_write (world i) (account s)
      (toHexAddress (Config.tokenFactoryAddress (config s)))
      (FnCreateToken name symbol
         (if truthy ownerInput then toHexAddress ownerInput else userAddress s))
      = (Some hash, w1) ->
    chain_wait w1 hash = (Some receipt, w2) ->
    chain_logs w2 (toHexAddress (Config.tokenFactoryAddress (config s)))
      (blockNumber receipt) (blockNumber receipt) = (Some logs, w3) ->
    let submitted := createTokenEvents s name symbol ownerInput hash receipt in
    (logs = [] ->
     createToken call s i
     = prepend
         (submitted
          ++ [ConsoleLog "Token creation event not found in the transaction receipt"])
         (call ShowMainMenu s {| stdin := lines; world := w3 |}))
    /\ (forall (first : TokenCreatedLog) (others : list TokenCreatedLog)
               (decoded : TokenCreatedArgs) (created : string)
               (tokenName tokenSymbol : option string) (decimals : option nat)
               (totalSupply : option Z) (wa wb wc wd : W),
        logs = first :: others ->
        args first = Some decoded ->
        argsTokenAddress decoded = Some created ->
        truthy created = true ->
        chain_read w3 created FnName = (tokenName, wa) ->
        chain_read wa created FnSymbol = (tokenSymbol, wb) ->
        chain_read wb created FnDecimals = (decimals, wc) ->
        chain_read wc created FnTotalSupply = (totalSupply, wd) ->
        let announced :=
          (submitted
           ++ ConsoleLog ("Token created successfully at address: " ++ created)
           :: detailsRequests created)%list in
        match tokenName, tokenSymbol, decimals, totalSupply with
        | Some tokenName, Some tokenSymbol, Some decimals, Some totalSupply =>
            forall (balance : option Z) (we : W),
              chain_read wd created (FnBalanceOf (userAddress s)) = (balance, we) ->
              let displayed :=
                detailsDisplay created tokenName tokenSymbol decimals totalSupply
                  (userAddress s) in
              match balance with
              | Some balance =>
                  createToken call s i
                  = prepend
                      (announced ++ displayed
                       ++ [ConsoleLog ("Your balance: "
                                       ++ formatAmount balance decimals)])
                      (call ShowMainMenu (setTokenAddress (Some created) s)
                         {| stdin := lines; world := we |})
              | None =>
                  createToken call s i
                  = prepend
                      (announced ++ displayed
                       ++ [ConsoleError "Error fetching token details:" RpcError])
                      (call ShowMainMenu (setTokenAddress None s)
                         {| stdin := lines; world := we |})
              end
        | _, _, _, _ =>
            createToken call s i
            = prepend
                (announced
                 ++ [ConsoleError "Error fetching token details:" RpcError])
                (call ShowMainMenu (setTokenAddress None s)
                   {| stdin := lines; world := wd |})
        end).
Proof.
  intros call s i name symbol ownerInput lines hash w1 receipt w2 logs w3
    Hin Hw Hr Hl.
  destruct i as [inp w]. cbn [stdin world] in Hin, Hw. subst inp.
  cbv zeta. split.
  - intros ->. unfold createToken, createTokenEvents. run_prog.
    rewrite Hw. run_prog. rewrite Hr. run_prog. rewrite Hl. run_prog.
    unfold createdToken. run_prog.
    resume call; reflexivity.
  - intros first others decoded created tokenName tokenSymbol decimals totalSupply
      wa wb wc wd -> Hargs Haddr Htruthy Hn Hs Hd Ht.
    assert (Hfound : createdToken (first :: others) = inr (Some created)).
    { unfold createdToken. rewrite Hargs, Haddr, Htruthy. reflexivity. }
    assert (Hc : connectedToken (setTokenAddress (Some created) s) = Some created).
    { unfold connectedToken. cbn [setTokenAddress tokenAddress].
      now rewrite Htruthy. }
    unfold createToken, createTokenEvents, detailsRequests, detailsDisplay.
    run_prog.
    rewrite Hw. run_prog. rewrite Hr. run_prog. rewrite Hl. run_prog.
    rewrite Hfound. run_prog.
    unfold showTokenDetails. run_prog. rewrite Hc. run_prog.
    change (userAddress (setTokenAddress (Some created) s)) with (userAddress s).
    rewrite Hn. run_prog. rewrite Hs. run_prog.
    rewrite Hd. run_prog. rewrite Ht. run_prog.
    destruct tokenName as [tokenName|], tokenSymbol as [tokenSymbol|],
      decimals as [decimals|], totalSupply as [totalSupply|];
      run_prog;
      try (intros balance we Hb; rewrite Hb; destruct balance as [balance|];
           run_prog);
      unfold setTokenAddress; session_fields;
      resume call; rewrite <- ?app_assoc; reflexivity.
Qed.

(** *** Start-up prompts *)

(** C2, as the code has it: of the four connection parameters only the
    private key and the factory address are asked for when the environment
    leaves them unset or empty; the RPC URL falls back to
    http://localhost:8545 and the chain id is whatever [parseInt] makes of
    the variable (NaN when unset), neither with a prompt.  The session then
    established has one identity, at index 0 and current, and no token. *)
Theorem connect_asks_for_key_and_factory_only :
  forall (env : string -> option string) (i : Input W),
    (2 <= length (stdin i))%nat ->
    let r := connect (loadConfig env) i in
    filter isQuestion (trace r)
    = ((if truthy (orElse (env "PRIVATE_KEY") "") then []
        else [Question "Enter your private key: "])
       ++ (if truthy (orElse (env "TOKEN_FACTORY_ADDRESS") "") then []
           else [Question "Enter TokenFactory contract address: "]))%list
    /\ forall s : Session,
        outcome r = Return s ->
        Config.rpcUrl (config s) = orElse (env "RPC_URL") "http://localhost:8545"
        /\ Config.chainId (config s) = parseInt (orElse (env "CHAIN_ID") "")
        /\ length (accounts s) = 1%nat
        /\ currentAccountIndex s = 0
        /\ tokenAddress s = None.
Proof.
  intros env [inp w] Hlen. cbn [stdin] in Hlen.
  destruct inp as [|l1 [|l2 lines]]; cbn [length] in Hlen; try lia.
  unfold connect, loadConfig. cbv zeta. run_prog.
  cbn [Config.privateKey Config.tokenFactoryAddress Config.rpcUrl Config.chainId].
  destruct (truthy (orElse (env "PRIVATE_KEY") "")) eqn:Hk;
    destruct (truthy (orElse (env "TOKEN_FACTORY_ADDRESS") "")) eqn:Hf;
    cbn [negb]; run_prog;
    cbn [setPrivateKey setTokenFactoryAddress Config.privateKey
         Config.tokenFactoryAddress Config.rpcUrl Config.chainId];
    rewrite ?Hf; cbn [negb]; run_prog;
    cbn [setPrivateKey setTokenFactoryAddress Config.privateKey
         Config.tokenFactoryAddress Config.rpcUrl Config.chainId];
    match goal with
    | |- context [addressOfKey ?k] => destruct (addressOfKey k)
    end;
    run_prog; (split; [reflexivity|]);
    intros s' Hs; inversion Hs; subst; cbn; auto.
Qed.

(** *** Amount scaling in the mutating operations *)

Lemma parseAmount_scaled :
  forall (amount : string) (decimals : nat),
    parseAmount amount decimals
    = match parseDecimal amount with
      | Some d => inr (roundQ (decimalValue d * pow10 decimals))
      | None => inl (InvalidDecimalNumberError amount)
      end.
Proof.
  intros. unfold parseAmount, parseUnits. now destruct (parseDecimal amount).
Qed.

Ltac scaled_leaf :=
  repeat step_chain;
  (split; [reflexivity|]); (split; [reflexivity|]);
  try reflexivity;
  (split; [reflexivity|]); simpl; tauto.

Lemma mintTokens_scaled :
  forall (s : Session) (inp : list string) (w : W) (token recipientInput amount : string)
         (lines : list string) (dec : nat) (w1 : W),
    connectedToken s = Some token ->
    inp = recipientInput :: amount :: lines ->
    chain_read w token FnDecimals = (Some dec, w1) ->
    scaledSubmission (mintTokens (exec 0) s {| stdin := inp; world := w |})
      s "Error minting tokens:" amount dec
      (fun n => WriteContract (account s) token
                  (FnMint (if truthy recipientInput
                           then toHexAddress recipientInput
                           else userAddress s) n)).
Proof.
  intros s inp w token recipientInput amount lines dec w1 Hc -> Hd.
  unfold scaledSubmission, mintTokens.
  run_prog. rewrite Hc. run_prog. rewrite Hd. run_prog.
  rewrite parseAmount_scaled. destruct (parseDecimal amount) as [d|]; run_prog;
    cbn [exec]; run_prog; scaled_leaf.
Qed.

(** C7: in each of the five mutating operations the amount handed to the
    write client is the entered decimal string scaled by 10^decimals and
    rounded, [decimals] being what the chain answered; an amount that is
    not a decimal string raises the error the operation reports before any
    transaction, and the menu comes back with the variables unchanged.
    Minting "10" at 18 decimals submits 10 * 10^18, and an empty recipient
    makes the mint recipient the current user address. *)
Theorem amounts_are_scaled :
  forall (s : Session) (i : Input W) (token amount : string) (lines : list string)
         (decimals : nat) (w1 : W),
    connectedToken s = Some token ->
    (forall recipientInput : string,
        stdin i = recipientInput :: amount :: lines ->
        chain_read (world i) token FnDecimals = (Some decimals, w1) ->
        scaledSubmission (mintTokens (exec 0) s i) s "Error minting tokens:"
          amount decimals
          (fun n => WriteContract (account s) token
                      (FnMint (if truthy recipientInput
                               then toHexAddress recipientInput
                               else userAddress s) n)))
    /\ (stdin i = amount :: lines ->
        chain_read (world i) token FnDecimals = (Some decimals, w1) ->
        scaledSubmission (burnTokens (exec 0) s i) s "Error burning tokens:"
          amount decimals
          (fun n => WriteContract (account s) token (FnBurn n)))
    /\ (forall recipientInput : string,
        stdin i = recipientInput :: amount :: lines ->
        chain_read (world i) token FnDecimals = (Some decimals, w1) ->
        scaledSubmission (transferTokens (exec 0) s i) s "Error transferring tokens:"
          amount decimals
          (fun n => WriteContract (account s) token
                      (FnTransfer (toHexAddress recipientInput) n)))
    /\ (forall spenderInput : string,
        stdin i = spenderInput :: amount :: lines ->
        chain_read (world i) token FnDecimals = (Some decimals, w1) ->
        scaledSubmission (approveTokens (exec 0) s i) s "Error approving tokens:"
          amount decimals
          (fun n => WriteContract (account s) token
                      (FnApprove (toHexAddress spenderInput) n)))
    /\ (forall (senderInput recipientInput : string) (allowance : Z) (w2 : W),
        stdin i = senderInput :: recipientInput :: amount :: lines ->
        chain_read (world i) token FnDecimals = (Some decimals, w1) ->
        chain_read w1 token (FnAllowance (toHexAddress senderInput) (userAddress s))
          = (Some allowance, w2) ->
        (forall n, parseAmount amount decimals = inr n -> n <= allowance) ->
        scaledSubmission (transferFromTokens (exec 0) s i) s
          "Error transferring tokens:" amount decimals
          (fun n => WriteContract (account s) token
                      (FnTransferFrom (toHexAddress senderInput)
                         (toHexAddress recipientInput) n)))
    /\ parseAmount "10" 18 = inr (10 * 10 ^ 18)
    /\ (stdin i = "" :: "10" :: lines ->
        chain_read (world i) token FnDecimals = (Some 18%nat, w1) ->
        filter isSubmission (trace (mintTokens (exec 0) s i))
        = [WriteContract (account s) token (FnMint (userAddress s) (10 * 10 ^ 18))]).
Proof.
  intros s [inp w] token amount lines decimals w1 Hc.
  cbn [stdin world].
  assert (Hmint := fun recipientInput amount dec =>
                      mintTokens_scaled s inp w token recipientInput amount lines
                        dec w1 Hc).
  split; [intros; now apply Hmint|].
  split.
  { intros -> Hd. unfold scaledSubmission, burnTokens.
    run_prog. rewrite Hc. run_prog. rewrite Hd. run_prog.
    rewrite parseAmount_scaled. destruct (parseDecimal amount) as [d|]; run_prog;
      cbn [exec]; run_prog; scaled_leaf. }
  split.
  { intros recipientInput -> Hd. unfold scaledSubmission, transferTokens.
    run_prog. rewrite Hc. run_prog. rewrite Hd. run_prog.
    rewrite parseAmount_scaled. destruct (parseDecimal amount) as [d|]; run_prog;
      cbn [exec]; run_prog; scaled_leaf. }
  split.
  { intros spenderInput -> Hd. unfold scaledSubmission, approveTokens.
    run_prog. rewrite Hc. run_prog. rewrite Hd. run_prog.
    rewrite parseAmount_scaled. destruct (parseDecimal amount) as [d|]; run_prog;
      cbn [exec]; run_prog; scaled_leaf. }
  split.
  { intros senderInput recipientInput allowance w2 -> Hd Ha Hle.
    unfold scaledSubmission, transferFromTokens.
    run_prog. rewrite Hc. run_prog. rewrite Hd. run_prog.
    rewrite parseAmount_scaled in *.
    destruct (parseDecimal amount) as [d|]; run_prog.
    - rewrite Ha. run_prog.
      specialize (Hle _ eq_refl). apply Z.ltb_ge in Hle. rewrite Hle. run_prog.
      cbn [exec]; run_prog; scaled_leaf.
    - cbn [exec]; run_prog; scaled_leaf. }
  split; [vm_compute; reflexivity|].
  intros Hin Hd.
  destruct (Hmint "" "10" 18%nat Hin Hd) as (_ & _ & H).
  assert (Hp : parseDecimal "10"
               = Some {| negative := false;
                         integerPart := ["1"%char; "0"%char];
                         fractionPart := [] |}) by reflexivity.
  rewrite Hp in H. cbn [truthy] in H. rewrite H.
  assert (Hr : roundQ (decimalValue {| negative := false;
                                       integerPart := ["1"%char; "0"%char];
                                       fractionPart := [] |} * pow10 18)
               = 10 * 10 ^ 18) by (vm_compute; reflexivity).
  now rewrite Hr.
Qed.

(** *** Creating or importing an account, then the switch prompt *)

Lemma accountAt_last :
  forall (l : list AccountInfo.t) (info : AccountInfo.t),
    accountAt (l ++ [info]) (Z.of_nat (length l)) = Some info.
Proof.
  intros l info. unfold accountAt.
  destruct (Z.of_nat (length l) <? 0) eqn:H; [apply Z.ltb_lt in H; lia|].
  rewrite Nat2Z.id, nth_error_app2, Nat.sub_diag by lia. reflexivity.
Qed.



Lemma accountAt_in_range :
  forall (l : list AccountInfo.t) (k : Z),
    match accountAt l k with
    | Some _ => (k >=? 0) && (k <? Z.of_nat (length l)) = true
    | None => (k >=? 0) && (k <? Z.of_nat (length l)) = false
    end.
Proof.
  intros l k. unfold accountAt.
  destruct (k <? 0) eqn:Hneg.
  - apply Z.ltb_lt in Hneg.
    destruct (k >=? 0) eqn:H; [apply Z.geb_le in H; lia|reflexivity].
  - apply Z.ltb_ge in Hneg.
    assert (Hge : (k >=? 0) = true) by (apply Z.geb_le; lia).
    rewrite Hge. cbn [andb].
    destruct (nth_error l (Z.to_nat k)) eqn:Hn.
    + apply Z.ltb_lt.
      assert (Z.to_nat k < length l)%nat
        by (apply nth_error_Some; congruence).
      lia.
    + apply Z.ltb_ge. apply nth_error_None in Hn. lia.
Qed.

(** What a numeric selection does to the binding, up to the menu: a
    selection in range rebinds index, account, user address and wallet
    client to the selected identity; any other leaves the variables alone. *)
Lemma switchAccount_numeric_selection :
  forall (s : Session) (i : Input W) (choice : string) (lines : list string) (n : Z),
    accounts s <> [] ->
    stdin i = choice :: lines ->
    parseInt choice = Some n ->
    let r := switchAccount (exec 0) s i in
    outcome r = Halt (OutOfFuel ShowMainMenu)
    /\ match accountAt (accounts s) (n - 1) with
       | Some selected =>
           final r
           = setWalletClient
               {| walletAccount := AccountInfo.account selected;
                  walletTransport := Config.rpcUrl (config s) |}
               (setUserAddress (address (AccountInfo.account selected))
                  (setAccount (AccountInfo.account selected)
                     (setCurrentAccountIndex (n - 1) s)))
       | None => final r = s
       end.
Proof.
  intros s [inp w] choice lines n Hne Hin Hp. cbn [stdin] in Hin. subst inp.
  cbv zeta. unfold switchAccount. run_prog.
  destruct (accounts s) as [|a0 l0] eqn:Hacc; [congruence|].
  cbn [length Nat.eqb]. run_prog.
  rewrite logAccounts_run. run_prog.
  destruct (toLowerCase choice =? "c")%string eqn:Hc.
  { apply String.eqb_eq in Hc. apply parseInt_escape in Hc. congruence. }
  rewrite Hp.
  pose proof (accountAt_in_range (a0 :: l0) (n - 1)) as Hrange.
  cbn [length] in Hrange.
  destruct (accountAt (a0 :: l0) (n - 1)) as [selected|] eqn:Hat;
    rewrite Hrange; run_prog.
  - change (accounts (setCurrentAccountIndex (n - 1) s)) with (accounts s).
    rewrite Hacc, Hat. run_prog.
    step_chain; cbn [exec]; run_prog; split; reflexivity.
  - cbn [exec]. run_prog. split; reflexivity.
Qed.


(** *** The registry only grows, by derived identities *)

Lemma Extends_refl : forall s : Session, Extends s s.
Proof.
  intros s. exists []. split; [now rewrite app_nil_r|constructor].
Qed.

Lemma Extends_trans :
  forall s1 s2 s3 : Session, Extends s1 s2 -> Extends s2 s3 -> Extends s1 s3.
Proof.
  intros s1 s2 s3 (a & Ha & Hda) (b & Hb & Hdb).
  exists (a ++ b)%list. split.
  - now rewrite Hb, Ha, app_assoc.
  - apply Forall_app. now split.
Qed.

Lemma Extends_same_accounts :
  forall s s' : Session, accounts s' = accounts s -> Extends s s'.
Proof.
  intros s s' H. exists []. split; [now rewrite app_nil_r|constructor].
Qed.

Lemma Extends_push :
  forall (s : Session) (info : AccountInfo.t),
    Derived info -> Extends s (pushAccount info s).
Proof.
  intros s info H. exists [info]. split; [reflexivity|]. now constructor.
Qed.

Lemma Keeps_bind_yield :
  forall {A B} (m : Prog W Session A) (k : A -> Prog W Session B) (Q : A -> Prop),
    Keeps W m -> Yields W m Q -> (forall a, Q a -> Keeps W (k a)) -> Keeps W (bind m k).
Proof.
  intros A B m k Q Hm Hy Hk s i. unfold bind.
  specialize (Hm s i). specialize (Hy s i).
  destruct (m s i) as [[a|e|h] s1 i1 t]; cbn [final outcome] in *; auto.
  specialize (Hk a (Hy a eq_refl) s1 i1).
  destruct (k a s1 i1) as [o2 s2 i2 t2]. cbn [prepend final] in *.
  eapply Extends_trans; eassumption.
Qed.

Lemma Keeps_bind :
  forall {A B} (m : Prog W Session A) (k : A -> Prog W Session B),
    Keeps W m -> (forall a, Keeps W (k a)) -> Keeps W (bind m k).
Proof.
  intros A B m k Hm Hk.
  apply Keeps_bind_yield with (Q := fun _ => True); auto. now intros s i a _.
Qed.

Lemma Keeps_tryCatch :
  forall {A} (m : Prog W Session A) (handler : Error -> Prog W Session A),
    Keeps W m -> (forall e, Keeps W (handler e)) -> Keeps W (tryCatch m handler).
Proof.
  intros A m handler Hm Hh s i. unfold tryCatch.
  specialize (Hm s i).
  destruct (m s i) as [[a|e|h] s1 i1 t]; cbn [final] in *; auto.
  specialize (Hh e s1 i1).
  destruct (handler e s1 i1) as [o2 s2 i2 t2]. cbn [prepend final] in *.
  eapply Extends_trans; eassumption.
Qed.

Lemma Keeps_ret : forall {A} (a : A), Keeps W (ret a).
Proof. intros A a s i. apply Extends_refl. Qed.

Lemma Keeps_throw : forall {A} (e : Error), Keeps W (@throw W Session A e).
Proof. intros A e s i. apply Extends_refl. Qed.

Lemma Keeps_halt : forall {A} (h : Halted), Keeps W (@halt W Session A h).
Proof. intros A h s i. apply Extends_refl. Qed.

Lemma Keeps_exit : forall {A} (code : Z), Keeps W (@exit W Session A code).
Proof. intros A code s i. apply Extends_refl. Qed.

Lemma Keeps_get : Keeps W get.
Proof. intros s i. apply Extends_refl. Qed.

Lemma Keeps_tell : forall t : list Event, Keeps W (tell t).
Proof. intros t s i. apply Extends_refl. Qed.

Lemma Keeps_log : forall line : string, Keeps W (log line).
Proof. intros line s i. apply Extends_refl. Qed.

Lemma Keeps_consoleError :
  forall (label : string) (e : Error), Keeps W (consoleError label e).
Proof. intros label e s i. apply Extends_refl. Qed.

Lemma Keeps_lift : forall {A} (r : Error + A), Keeps W (lift r).
Proof. intros A [e|a] s i; apply Extends_refl. Qed.

Lemma Keeps_await : forall {A} (p : option A), Keeps W (await p).
Proof. intros A [a|] s i; apply Extends_refl. Qed.

Lemma Keeps_question : forall prompt : string, Keeps W (question prompt).
Proof.
  intros prompt s i. unfold question.
  destruct (stdin i); apply Extends_refl.
Qed.

Lemma Keeps_request :
  forall {A} (e : Event) (ask : W -> option A * W), Keeps W (request e ask).
Proof.
  intros A e ask s i. unfold request.
  destruct (ask (world i)). apply Extends_refl.
Qed.

Lemma Keeps_randomBytes : forall size : nat, Keeps W (randomBytes size).
Proof.
  intros size s i. unfold randomBytes.
  destruct (drawBytes size (world i)). apply Extends_refl.
Qed.

Lemma Keeps_modify :
  forall f : Session -> Session,
    (forall s, Extends s (f s)) -> Keeps W (modify f).
Proof. intros f H s i. apply H. Qed.

Lemma Keeps_privateKeyToAccount :
  forall key : string, Keeps W (privateKeyToAccount key).
Proof.
  intros key s i. unfold privateKeyToAccount.
  destruct (addressOfKey key); apply Extends_refl.
Qed.

Lemma privateKeyToAccount_yields :
  forall key : string,
    Yields W (privateKeyToAccount key)
      (fun acct => addressOfKey key = Some (address acct) /\ signingKey acct = key).
Proof.
  intros key s i acct. unfold privateKeyToAccount.
  destruct (addressOfKey key) as [a|]; cbn; intros H; [|discriminate].
  injection H as <-. auto.
Qed.

Lemma Derived_registered :
  forall (name key : string) (acct : Account),
    addressOfKey key = Some (address acct) ->
    signingKey acct = key ->
    Derived {| AccountInfo.name := name;
               AccountInfo.privateKey := key;
               AccountInfo.account := acct;
               AccountInfo.address := address acct |}.
Proof.
  intros name key [a k] Hk Hs. cbn in *. subst k.
  split; [exact Hk|reflexivity].
Qed.

Lemma Keeps_logAccounts :
  forall (l : list AccountInfo.t) (current : Z) (index : nat),
    Keeps W (logAccounts current index l).
Proof.
  intros l current index s i. rewrite logAccounts_run. apply Extends_refl.
Qed.

Lemma Keeps_accountInfoAt : forall k : Z, Keeps W (accountInfoAt k).
Proof.
  intros k s i. unfold accountInfoAt, bind, get.
  destruct (accountAt (accounts s) k); apply Extends_refl.
Qed.

Create HintDb keeps.
#[local] Hint Resolve Keeps_ret Keeps_throw Keeps_halt Keeps_exit Keeps_get
  Keeps_tell Keeps_log Keeps_consoleError Keeps_lift Keeps_await Keeps_question
  Keeps_request Keeps_randomBytes Keeps_privateKeyToAccount Keeps_logAccounts
  Keeps_accountInfoAt : keeps.
#[local] Hint Extern 1 (Extends _ (setTokenAddress _ _)) =>
  apply Extends_same_accounts; reflexivity : keeps.
#[local] Hint Extern 1 (Extends _ (setCurrentAccountIndex _ _)) =>
  apply Extends_same_accounts; reflexivity : keeps.
#[local] Hint Extern 1 (Extends _ (setAccount _ _)) =>
  apply Extends_same_accounts; reflexivity : keeps.
#[local] Hint Extern 1 (Extends _ (setUserAddress _ _)) =>
  apply Extends_same_accounts; reflexivity : keeps.
#[local] Hint Extern 1 (Extends _ (setWalletClient _ _)) =>
  apply Extends_same_accounts; reflexivity : keeps.

(** Takes a program apart along its binds, handlers and branches. *)
Ltac keeps :=
  repeat
    match goal with
    | |- Keeps _ (bind (privateKeyToAccount _) _) =>
        eapply Keeps_bind_yield;
        [ apply Keeps_privateKeyToAccount
        | apply privateKeyToAccount_yields
        | intros ? [? ?] ]
    | |- Keeps _ (bind _ _) => apply Keeps_bind; [|intros ?]
    | |- Keeps _ (tryCatch _ _) => apply Keeps_tryCatch; [|intros ?]
    | |- Keeps _ (modify (pushAccount _)) =>
        apply Keeps_modify; intros ?; apply Extends_push;
        apply Derived_registered; assumption
    | |- Keeps _ (modify _) => apply Keeps_modify; intros ?; solve [auto with keeps]
    | |- Keeps _ (match ?x with _ => _ end) => destruct x
    | |- Keeps _ (let _ := _ in _) => cbv zeta
    | |- Keeps _ _ => solve [auto with keeps]
    | |- Keeps _ (readContract _ _) => unfold readContract
    | |- Keeps _ (startRead _ _) => unfold startRead
    | |- Keeps _ (writeContract _ _ _) => unfold writeContract
    | |- Keeps _ (waitForTransactionReceipt _) => unfold waitForTransactionReceipt
    | |- Keeps _ (getLogs _ _ _) => unfold getLogs
    | |- Keeps _ (getBalance _) => unfold getBalance
    | |- Keeps _ generateRandomPrivateKey => unfold generateRandomPrivateKey
    end.

Section KeepsOperations.

Variable call : proc -> Prog W Session unit.
Hypothesis call_keeps : forall p, Keeps W (call p).

Lemma Keeps_showTokenDetails : Keeps W (showTokenDetails call).
Proof. unfold showTokenDetails. keeps. Qed.

Lemma Keeps_createToken : Keeps W (createToken call).
Proof.
  unfold createToken. keeps. apply Keeps_showTokenDetails.
Qed.

Lemma Keeps_connectToToken : Keeps W (connectToToken call).
Proof. unfold connectToToken. keeps. apply Keeps_showTokenDetails. Qed.

Lemma Keeps_mintTokens : Keeps W (mintTokens call).
Proof. unfold mintTokens. keeps. Qed.

Lemma Keeps_burnTokens : Keeps W (burnTokens call).
Proof. unfold burnTokens. keeps. Qed.

Lemma Keeps_transferTokens : Keeps W (transferTokens call).
Proof. unfold transferTokens. keeps. Qed.

Lemma Keeps_approveTokens : Keeps W (approveTokens call).
Proof. unfold approveTokens. keeps. Qed.

Lemma Keeps_transferFromTokens : Keeps W (transferFromTokens call).
Proof. unfold transferFromTokens. keeps. Qed.

Lemma Keeps_checkBalance : Keeps W (checkBalance call).
Proof. unfold checkBalance. keeps. Qed.

Lemma Keeps_createNewAccount : Keeps W (createNewAccount call).
Proof. unfold createNewAccount. keeps. Qed.

Lemma Keeps_switchAccount : Keeps W (switchAccount call).
Proof. unfold switchAccount. keeps. Qed.

Lemma Keeps_importAccount : Keeps W (importAccount call).
Proof. unfold importAccount. keeps. Qed.

Lemma Keeps_showMainMenu : Keeps W (showMainMenu call).
Proof.
  unfold showMainMenu. keeps;
    auto using Keeps_createToken, Keeps_connectToToken, Keeps_mintTokens,
      Keeps_burnTokens, Keeps_transferTokens, Keeps_approveTokens,
      Keeps_transferFromTokens, Keeps_checkBalance, Keeps_showTokenDetails,
      Keeps_importAccount.
Qed.

End KeepsOperations.

Lemma Keeps_exec : forall (fuel : nat) (p : proc), Keeps W (exec fuel p).
Proof.
  induction fuel as [|fuel IH]; intros p; cbn [exec].
  - apply Keeps_halt.
  - destruct p.
    + now apply Keeps_showMainMenu.
    + now apply Keeps_createNewAccount.
    + now apply Keeps_switchAccount.
Qed.

Lemma drawBytes_length :
  forall (n : nat) (w : W), length (fst (drawBytes n w)) = n.
Proof.
  induction n as [|n IH]; intros w; cbn [drawBytes].
  - reflexivity.
  - destruct (random_byte w) as [b w1]. specialize (IH w1).
    destruct (drawBytes n w1) as [bs w2]. cbn in *. now rewrite IH.
Qed.

(** C8: the address of every identity in the registry is the derivation of
    its key.  The session [connect] sets up holds one such identity; every
    run of the menu cycle, cut anywhere, leaves the registry it started
    from extended by identities whose address and account are derived from
    their key (so nothing registered is ever changed or removed); and the
    key of a created account is 32 random bytes in hexadecimal. *)
Theorem registry_addresses_are_derived :
  (forall (cfg : Config.t) (i : Input W) (s : Session),
      outcome (connect cfg i) = Return s -> Forall Derived (accounts s))
  /\ (forall (fuel : nat) (p : proc) (s : Session) (i : Input W),
        exists added : list AccountInfo.t,
          accounts (final (exec fuel p s i)) = (accounts s ++ added)%list
          /\ Forall Derived added)
  /\ (forall (fuel : nat) (p : proc) (s : Session) (i : Input W),
        Forall Derived (accounts s) ->
        Forall Derived (accounts (final (exec fuel p s i))))
  /\ (forall (s : Session) (i : Input W) (key : string),
        outcome (generateRandomPrivateKey s i) = Return key ->
        exists bytes : list Byte.byte,
          length bytes = 32%nat /\ key = "0x" ++ toHex bytes).
Proof.
  split; [|split; [|split]].
  - intros cfg [inp w] s. unfold connect. run_prog.
    destruct (negb (truthy (Config.privateKey cfg)));
      [destruct inp as [|l1 inp]|]; run_prog; try discriminate;
      match goal with
      | |- context [negb (truthy ?x)] => destruct (negb (truthy x))
      end;
      try (destruct inp as [|l2 inp]); run_prog; try discriminate;
      match goal with
      | |- context [addressOfKey ?k] => destruct (addressOfKey k) as [a|] eqn:Hk
      end;
      run_prog; try discriminate;
      intros H; injection H as <-; session_fields; cbn [app];
      (constructor; [|constructor]);
      (split; [exact Hk|reflexivity]).
  - intros fuel p s i. exact (Keeps_exec fuel p s i).
  - intros fuel p s i Hs.
    destruct (Keeps_exec fuel p s i) as (added & -> & Hadded).
    apply Forall_app. now split.
  - intros s [inp w] key. unfold generateRandomPrivateKey. run_prog.
    pose proof (drawBytes_length 32 w) as Hlen.
    destruct (drawBytes 32 w) as [bytes w1]. run_prog.
    intros H. injection H as <-. exists bytes. split; [exact Hlen|reflexivity].
Qed.


End Facts.

(** * Session-wide properties *)

Lemma EndsWith_cons :
  forall (e : Event) (t suffix : list Event),
    EndsWith t suffix -> EndsWith (e :: t) suffix.
Proof. intros e t suffix [b ->]. now exists (e :: b). Qed.

Lemma EndsWith_app :
  forall l t suffix : list Event,
    EndsWith t suffix -> EndsWith (l ++ t)%list suffix.
Proof.
  intros l t suffix [b ->]. exists (l ++ b)%list. now rewrite app_assoc.
Qed.

Lemma EndsWith_refl : forall t : list Event, EndsWith t t.
Proof. intros t. now exists []. Qed.

Lemma Coherent_setTokenAddress :
  forall (v : option string) (s : Session),
    Coherent s -> Coherent (setTokenAddress v s).
Proof. intros v s H. exact H. Qed.

Lemma accountAt_app :
  forall (l added : list AccountInfo.t) (k : Z) (info : AccountInfo.t),
    accountAt l k = Some info -> accountAt (l ++ added) k = Some info.
Proof.
  intros l added k info. unfold accountAt.
  destruct (k <? 0); [discriminate|]. intros H.
  rewrite nth_error_app1; [exact H|]. apply nth_error_Some. congruence.
Qed.

Lemma Coherent_pushAccount :
  forall (info : AccountInfo.t) (s : Session),
    Coherent s -> Coherent (pushAccount info s).
Proof.
  intros info s ((cur & Hcur) & Hu & Hw & Hin).
  unfold Coherent, pushAccount. session_fields.
  split; [exists cur; now apply accountAt_app|].
  split; [exact Hu|]. split; [exact Hw|].
  rewrite map_app. apply in_or_app. now left.
Qed.

Lemma Coherent_pushAccount_current :
  forall (info : AccountInfo.t) (s : Session),
    Coherent s ->
    Coherent
      (setCurrentAccountIndex
         (Z.of_nat (length (accounts (pushAccount info s))) - 1)
         (pushAccount info s)).
Proof.
  intros info s (_ & Hu & Hw & Hin).
  unfold Coherent, pushAccount, setCurrentAccountIndex. session_fields.
  split.
  { exists info. rewrite length_app. cbn [length].
    replace (Z.of_nat (length (accounts s) + 1) - 1)
      with (Z.of_nat (length (accounts s))) by lia.
    apply accountAt_last. }
  split; [exact Hu|]. split; [exact Hw|].
  rewrite map_app. apply in_or_app. now left.
Qed.

Lemma accountAt_In :
  forall (l : list AccountInfo.t) (k : Z) (info : AccountInfo.t),
    accountAt l k = Some info -> In info l.
Proof.
  intros l k info. unfold accountAt. destruct (k <? 0); [discriminate|].
  apply nth_error_In.
Qed.

Lemma Coherent_selected :
  forall (s : Session) (k : Z) (selected : AccountInfo.t) (transport : string),
    accountAt (accounts s) k = Some selected ->
    Coherent
      (setWalletClient
         {| walletAccount := AccountInfo.account selected;
            walletTransport := transport |}
         (setUserAddress (address (AccountInfo.account selected))
            (setAccount (AccountInfo.account selected)
               (setCurrentAccountIndex k s)))).
Proof.
  intros s k selected transport Hat.
  unfold Coherent, setWalletClient, setUserAddress, setAccount,
    setCurrentAccountIndex. session_fields. cbn [walletAccount].
  split; [now exists selected|]. split; [reflexivity|]. split; [reflexivity|].
  apply in_map. eapply accountAt_In. exact Hat.
Qed.

(** Proves that a session built from a coherent one by the setters is coherent. *)
Ltac coherent :=
  solve [ assumption
        | apply Coherent_setTokenAddress; coherent
        | apply Coherent_pushAccount_current; coherent
        | apply Coherent_pushAccount; coherent
        | eapply Coherent_selected; eassumption ].

Ltac ends_with :=
  first [ assumption
        | apply EndsWith_refl
        | apply EndsWith_cons; ends_with
        | apply EndsWith_app; ends_with ].

(** Closes a goal about a run that has been computed to the end. *)
Ltac survived :=
  unfold Survives, Loops; cbn [outcome final trace];
  repeat match goal with
         | H : _ /\ _ |- _ => destruct H
         end;
  split;
  [ split;
    [ coherent
    | split;
      [ first [ reflexivity | congruence | cbn in *; congruence ]
      | first [ exact I
              | split; [ first [ assumption | reflexivity ] | ends_with ] ] ] ]
  | exact I ].

Section Survival.

Context {W : Type} {chain : ChainClient W} {entropy : Entropy W} {signer : Signer}.

Section SurvivalOfOperations.

Variable call : proc -> Prog W Session unit.
Hypothesis call_survives :
  forall (p : proc) (s : Session) (i : Input W),
    Coherent s -> Survives s (call p s i) /\ Loops (call p s i).

(** The cyclic call the goal waits for, with what is known of it. *)
Ltac enter_call :=
  match goal with
  | |- context [call ?p ?s ?i] =>
      let H := fresh "Hcall" in
      assert (H : Coherent s) by coherent;
      apply (call_survives p s i) in H;
      unfold Survives, Loops in H;
      destruct (call p s i) as [[?ra|?re|[?rc| |?rp]] ?rs ?ri ?rt];
      cbn [outcome final trace] in H;
      try (exfalso; tauto);
      repeat match goal with
             | H' : _ /\ _ |- _ => destruct H'
             end;
      run_prog
  end.

Ltac next_line :=
  match goal with
  | |- context [match ?l with [] => _ | _ :: _ => _ end] =>
      is_var l; destruct l as [|? l]; run_prog
  end.

Ltac walk :=
  run_prog;
  repeat first [ next_line | step_chain | enter_call ];
  try survived.

(** A function already shown to survive, met in the goal. *)
Ltac enter_proved f lemma :=
  match goal with
  | |- context [f call ?s ?i] =>
      let H := fresh "Hop" in
      assert (H : Coherent s) by coherent;
      apply (lemma s i) in H;
      unfold Survives, Loops in H;
      destruct (f call s i) as [[?ra|?re|[?rc| |?rp]] ?rs ?ri ?rt];
      cbn [outcome final trace] in H;
      try (exfalso; tauto);
      repeat match goal with
             | H' : _ /\ _ |- _ => destruct H'
             end;
      run_prog
  end.

Lemma showTokenDetails_survives :
  forall (s : Session) (i : Input W),
    Coherent s -> Survives s (showTokenDetails call s i).
Proof.
  intros s [inp w] Hs. unfold showTokenDetails. run_prog.
  destruct (connectedToken s) as [token|]; walk;
    unfold Survives; cbn [outcome final trace];
    repeat match goal with H : _ /\ _ |- _ => destruct H end;
    (split; [coherent|]);
    (split; [first [reflexivity | congruence | cbn in *; congruence]|]);
    first [ exact I | split; [assumption | ends_with] ].
Qed.

Lemma connectToToken_survives :
  forall (s : Session) (i : Input W),
    Coherent s -> Survives s (connectToToken call s i).
Proof.
  intros s [inp w] Hs. unfold connectToToken. run_prog.
  destruct inp as [|addressInput inp]; run_prog.
  - unfold Survives. cbn. auto.
  - enter_proved (@showTokenDetails W chain) showTokenDetails_survives;
      unfold Survives; cbn [outcome final trace];
      repeat match goal with H : _ /\ _ |- _ => destruct H end;
      (split; [coherent|]);
      (split; [first [reflexivity | congruence | cbn in *; congruence]|]);
      first [ exact I | split; [assumption | ends_with] ].
Qed.

Lemma createToken_survives :
  forall (s : Session) (i : Input W),
    Coherent s ->
    Survives s (createToken call s i) /\ Loops (createToken call s i).
Proof.
  intros s [inp w] Hs. unfold createToken. run_prog. walk.
  all: destruct (createdToken _) as [refused|[created|]]; run_prog;
    try enter_proved (@showTokenDetails W chain) showTokenDetails_survives;
    walk.
Qed.

Lemma mintTokens_survives :
  forall (s : Session) (i : Input W),
    Coherent s ->
    Survives s (mintTokens call s i) /\ Loops (mintTokens call s i).
Proof.
  intros s [inp w] Hs. unfold mintTokens. run_prog.
  destruct (connectedToken s) as [token|]; walk.
  all: try (destruct (parseAmount _ _); walk).
Qed.

Lemma burnTokens_survives :
  forall (s : Session) (i : Input W),
    Coherent s ->
    Survives s (burnTokens call s i) /\ Loops (burnTokens call s i).
Proof.
  intros s [inp w] Hs. unfold burnTokens. run_prog.
  destruct (connectedToken s) as [token|]; walk.
  all: try (destruct (parseAmount _ _); walk).
Qed.

Lemma transferTokens_survives :
  forall (s : Session) (i : Input W),
    Coherent s ->
    Survives s (transferTokens call s i) /\ Loops (transferTokens call s i).
Proof.
  intros s [inp w] Hs. unfold transferTokens. run_prog.
  destruct (connectedToken s) as [token|]; walk.
  all: try (destruct (parseAmount _ _); walk).
Qed.

Lemma approveTokens_survives :
  forall (s : Session) (i : Input W),
    Coherent s ->
    Survives s (approveTokens call s i) /\ Loops (approveTokens call s i).
Proof.
  intros s [inp w] Hs. unfold approveTokens. run_prog.
  destruct (connectedToken s) as [token|]; walk.
  all: try (destruct (parseAmount _ _); walk).
Qed.

Lemma transferFromTokens_survives :
  forall (s : Session) (i : Input W),
    Coherent s ->
    Survives s (transferFromTokens call s i) /\ Loops (transferFromTokens call s i).
Proof.
  intros s [inp w] Hs. unfold transferFromTokens. run_prog.
  destruct (connectedToken s) as [token|]; walk.
  all: try (destruct (parseAmount _ _); walk).
  all: try (match goal with
            | |- context [?a <? ?b] => destruct (a <? b)
            end; walk).
Qed.

Lemma checkBalance_survives :
  forall (s : Session) (i : Input W),
    Coherent s ->
    Survives s (checkBalance call s i) /\ Loops (checkBalance call s i).
Proof.
  intros s [inp w] Hs. unfold checkBalance. run_prog.
  destruct (connectedToken s) as [token|]; walk.
Qed.

Lemma importAccount_survives :
  forall (s : Session) (i : Input W),
    Coherent s ->
    Survives s (importAccount call s i) /\ Loops (importAccount call s i).
Proof.
  intros s [inp w] Hs. unfold importAccount. walk.
  all: match goal with
       | |- context [addressOfKey ?k] => destruct (addressOfKey k)
       end; walk.
  all: try (match goal with
            | |- context [String.eqb ?a ?b] => destruct (String.eqb a b)
            end; walk).
Qed.

Lemma createNewAccount_survives :
  forall (s : Session) (i : Input W),
    Coherent s ->
    Survives s (createNewAccount call s i) /\ Loops (createNewAccount call s i).
Proof.
  intros s [inp w] Hs. unfold createNewAccount. walk.
  all: destruct (drawBytes 32 w) as [bytes w1]; run_prog.
  all: match goal with
       | |- context [addressOfKey ?k] => destruct (addressOfKey k)
       end; walk.
  all: try (match goal with
            | |- context [String.eqb ?a ?b] => destruct (String.eqb a b)
            end; walk).
Qed.

Lemma switchAccount_survives :
  forall (s : Session) (i : Input W),
    Coherent s ->
    Survives s (switchAccount call s i) /\ Loops (switchAccount call s i).
Proof.
  intros s [inp w] Hs. unfold switchAccount. run_prog.
  destruct (length (accounts s) =? 0)%nat; walk.
  all: rewrite logAccounts_run; walk.
  all: match goal with
       | |- context [String.eqb ?a ?b] => destruct (String.eqb a b)
       end; walk.
  all: destruct (parseInt _) as [n|]; walk.
  all: pose proof (accountAt_in_range (accounts s) (n - 1)) as Hrange;
    destruct (accountAt (accounts s) (n - 1)) as [selected|] eqn:Hat;
    rewrite Hrange; walk.
  all: change (accounts (setCurrentAccountIndex (n - 1) s)) with (accounts s);
    rewrite Hat; walk.
Qed.

Lemma showMainMenu_survives :
  forall (s : Session) (i : Input W),
    Coherent s ->
    Survives s (showMainMenu call s i) /\ Loops (showMainMenu call s i).
Proof.
  intros s [inp w] Hs. unfold showMainMenu. run_prog.
  destruct Hs as ((current & Hcur) & Hrest). rewrite Hcur.
  assert (Hs : Coherent s) by (split; [now exists current|exact Hrest]).
  clear Hrest. run_prog.
  destruct inp as [|choice inp]; run_prog; [survived|].
  repeat match goal with
         | |- context [if String.eqb choice ?c then _ else _] =>
             destruct (String.eqb choice c)
         end.
  - enter_proved (@createToken W chain) createToken_survives; survived.
  - enter_proved (@connectToToken W chain) connectToToken_survives; walk.
  - enter_proved (@mintTokens W chain) mintTokens_survives; survived.
  - enter_proved (@burnTokens W chain) burnTokens_survives; survived.
  - enter_proved (@transferTokens W chain) transferTokens_survives; survived.
  - enter_proved (@approveTokens W chain) approveTokens_survives; survived.
  - enter_proved (@transferFromTokens W chain) transferFromTokens_survives; survived.
  - enter_proved (@checkBalance W chain) checkBalance_survives; survived.
  - enter_proved (@showTokenDetails W chain) showTokenDetails_survives; walk.
  - walk.
  - enter_proved (@importAccount W signer) importAccount_survives; survived.
  - walk.
  - run_prog. survived.
  - walk.
Qed.

End SurvivalOfOperations.

Lemma exec_survives :
  forall (fuel : nat) (p : proc) (s : Session) (i : Input W),
    Coherent s -> Survives s (exec fuel p s i) /\ Loops (exec fuel p s i).
Proof.
  induction fuel as [|fuel IH]; intros p s i Hs; cbn [exec].
  - run_prog. survived.
  - destruct p.
    + now apply showMainMenu_survives.
    + now apply createNewAccount_survives.
    + now apply switchAccount_survives.
Qed.

End Survival.

Section SessionTheorems.

Context {W : Type} {chain : ChainClient W} {entropy : Entropy W} {signer : Signer}.

Lemma connect_coherent :
  forall (cfg : Config.t) (i : Input W) (s : Session),
    outcome (connect cfg i) = Return s -> Coherent s.
Proof.
  intros cfg [inp w] s. unfold connect. run_prog.
  destruct (negb (truthy (Config.privateKey cfg)));
    [destruct inp as [|l1 inp]|]; run_prog; try discriminate;
    match goal with
    | |- context [negb (truthy ?x)] => destruct (negb (truthy x))
    end;
    try (destruct inp as [|l2 inp]); run_prog; try discriminate;
    match goal with
    | |- context [addressOfKey ?k] => destruct (addressOfKey k) as [a|]
    end;
    run_prog; try discriminate;
    intros H; injection H as <-;
    (split; [eexists; reflexivity|]);
    (split; [reflexivity|]); (split; [reflexivity|]); left; reflexivity.
Qed.

(** X1: from a session whose bindings agree, the menu cycle, cut after any
    number of calls, never lets an error escape and never returns to its
    caller: it is waiting for input, was cut, or ended the process, and
    then with status 0 right after printing the goodbye and closing the
    input. *)
Theorem menu_cycle_only_ends_by_exit :
  forall (fuel : nat) (p : proc) (s : Session) (i : Input W),
    Coherent s ->
    exists h : Halted,
      outcome (exec fuel p s i) = Halt h
      /\ forall code : Z,
          h = Exited code ->
          code = 0 /\ EndsWith (trace (exec fuel p s i)) goodbye.
Proof.
  intros fuel p s i Hs.
  destruct (exec_survives fuel p s i Hs) as [(_ & _ & Hout) Hloop].
  unfold Loops in Hloop.
  destruct (outcome (exec fuel p s i)) as [a|e|h]; try contradiction.
  exists h. split; [reflexivity|].
  intros code ->. exact Hout.
Qed.

(** X2: the bindings always agree.  The session [connect] sets up has the
    current index on a registered identity, the user address and the wallet
    client on the signing account, and the signing account in the registry;
    every run of the menu cycle keeps all of that, and the configuration. *)
Theorem bindings_stay_coherent :
  (forall (cfg : Config.t) (i : Input W) (s : Session),
      outcome (connect cfg i) = Return s -> Coherent s)
  /\ (forall (fuel : nat) (p : proc) (s : Session) (i : Input W),
        Coherent s ->
        Coherent (final (exec fuel p s i))
        /\ config (final (exec fuel p s i)) = config s).
Proof.
  split; [exact connect_coherent|].
  intros fuel p s i Hs.
  destruct (exec_survives fuel p s i Hs) as [(Hc & Hcfg & _) _]. now split.
Qed.

(** X3: [initialize] ends the process with status 1 when the key is
    refused and when the first balance read fails, having reported the
    error and shown no menu; once both succeeded it never ends with a
    status other than 0. *)
Theorem initialize_exit_status :
  forall (fuel : nat) (cfg : Config.t) (i : Input W),
    let c := connect cfg i in
    let r := initialize fuel cfg i in
    (forall e : Error,
        outcome c = Throw e ->
        outcome r = Halt (Exited 1)
        /\ trace r = (trace c ++ [ConsoleError "Initialization error:" e])%list)
    /\ (forall (s : Session) (w1 : W),
        outcome c = Return s ->
        chain_balance (world (rest c)) (userAddress s) = (None, w1) ->
        outcome r = Halt (Exited 1)
        /\ trace r
           = (trace c
              ++ [ ConsoleLog ("Connected with account: " ++ userAddress s);
                   GetBalance (userAddress s);
                   ConsoleError "Initialization error:" RpcError ])%list)
    /\ (forall (s : Session) (balance : Z) (w1 : W),
        outcome c = Return s ->
        chain_balance (world (rest c)) (userAddress s) = (Some balance, w1) ->
        exists h : Halted,
          outcome r = Halt h
          /\ forall code : Z, h = Exited code -> code = 0).
Proof.
  intros fuel cfg i. cbv zeta.
  pose proof (connect_coherent cfg i) as Hcoh.
  unfold initialize. run_prog.
  destruct (connect cfg i) as [[s|e|h] c1 [inp1 w1] t1]; cbn [outcome trace rest world] in *.
  - split; [intros e He; discriminate|]. split.
    + intros s' w2 Hs Hb. injection Hs as <-. run_prog. rewrite Hb. run_prog.
      split; [reflexivity|]. now rewrite <- app_assoc.
    + intros s' balance w2 Hs Hb. injection Hs as <-. run_prog. rewrite Hb. run_prog.
      unfold inSession.
      destruct (exec_survives fuel ShowMainMenu s {| stdin := inp1; world := w2 |}
                  (Hcoh s eq_refl)) as [(_ & _ & Hout) Hloop].
      unfold Loops in Hloop.
      destruct (exec fuel ShowMainMenu s _) as [[a|e|h] s2 i2 t2];
        cbn [outcome] in *; try contradiction.
      run_prog. exists h. split; [reflexivity|]. intros code ->. apply Hout.
  - split; [|split; intros; discriminate].
    intros e' He. injection He as <-. run_prog.
    split; [reflexivity|]. reflexivity.
  - split; [intros; discriminate|]. split; intros; discriminate.
Qed.

End SessionTheorems.

Section OperationTheorems.

Context {W : Type} {chain : ChainClient W} {entropy : Entropy W} {signer : Signer}.

(** X4: [toHexAddress] gives a non-empty string that starts with "0x",
    leaves a string that already does unchanged, and applied twice is the
    same as applied once. *)
Theorem toHexAddress_normal_form :
  forall a : string,
    startsWith (toHexAddress a) "0x" = true
    /\ truthy (toHexAddress a) = true
    /\ (startsWith a "0x" = true -> toHexAddress a = a)
    /\ toHexAddress (toHexAddress a) = toHexAddress a.
Proof.
  intros a.
  assert (H1 : startsWith (toHexAddress a) "0x" = true).
  { unfold toHexAddress. destruct (startsWith a "0x") eqn:Hp; [exact Hp|].
    cbn [negb]. destruct a; reflexivity. }
  assert (H3 : forall b, startsWith b "0x" = true -> toHexAddress b = b).
  { intros b Hb. unfold toHexAddress. now rewrite Hb. }
  split; [exact H1|]. split; [apply toHexAddress_truthy|].
  split; [apply H3|]. apply H3, H1.
Qed.

(** X5: without a connected token each of the five mutating operations
    prints the "no token connected" line and goes straight back to the main
    menu: no prompt, no chain request, the variables and the input as they
    were. *)
Theorem mutating_operations_need_a_token :
  forall (call : proc -> Prog W Session unit) (s : Session) (i : Input W),
    connectedToken s = None ->
    mintTokens call s i
      = prepend [ConsoleLog noTokenConnected] (call ShowMainMenu s i)
    /\ burnTokens call s i
       = prepend [ConsoleLog noTokenConnected] (call ShowMainMenu s i)
    /\ transferTokens call s i
       = prepend [ConsoleLog noTokenConnected] (call ShowMainMenu s i)
    /\ approveTokens call s i
       = prepend [ConsoleLog noTokenConnected] (call ShowMainMenu s i)
    /\ transferFromTokens call s i
       = prepend [ConsoleLog noTokenConnected] (call ShowMainMenu s i).
Proof.
  intros call s i Hc.
  unfold mintTokens, burnTokens, transferTokens, approveTokens, transferFromTokens.
  run_prog. rewrite Hc. run_prog.
  repeat split; destruct (call ShowMainMenu s i) as [o s1 i1 t]; reflexivity.
Qed.

Ltac one_submission :=
  unfold AtMostOneSubmission; cbn [final trace filter isSubmission];
  split; [reflexivity|];
  first [ left; reflexivity | right; eexists; reflexivity ].

Ltac run_to_menu :=
  run_prog;
  repeat first
    [ match goal with
      | |- context [match ?l with [] => _ | _ :: _ => _ end] =>
          is_var l; destruct l as [|? l]; run_prog
      end
    | step_chain
    | match goal with
      | |- context [parseAmount ?a ?d] => destruct (parseAmount a d); run_prog
      end
    | match goal with
      | |- context [if ?a <? ?b then _ else _] => destruct (a <? b); run_prog
      end
    | progress (cbn [exec]; run_prog) ].

(** X6: whatever the operator enters and the chain answers, a mutating
    token operation leaves every session variable as it was, and up to the
    menu it submits at most one transaction, signed by the bound account
    and addressed to the connected token. *)
Theorem mutating_operations_submit_at_most_once :
  forall (s : Session) (i : Input W) (token : string),
    connectedToken s = Some token ->
    AtMostOneSubmission s token (mintTokens (exec 0) s i)
    /\ AtMostOneSubmission s token (burnTokens (exec 0) s i)
    /\ AtMostOneSubmission s token (transferTokens (exec 0) s i)
    /\ AtMostOneSubmission s token (approveTokens (exec 0) s i)
    /\ AtMostOneSubmission s token (transferFromTokens (exec 0) s i).
Proof.
  intros s [inp w] token Hc.
  unfold mintTokens, burnTokens, transferTokens, approveTokens, transferFromTokens.
  run_prog. rewrite Hc.
  split; [|split; [|split; [|split]]]; run_to_menu; one_submission.
Qed.

(** X7: [connectToToken], given a line, always returns [true]; the token
    it leaves connected is the entered address in 0x form when the chain
    answers the five reads of the details fetch and none when it does not,
    whatever was connected before; it submits nothing and consumes exactly
    the one line. *)
Theorem connectToToken_outcome :
  forall (call : proc -> Prog W Session unit) (s : Session) (i : Input W)
         (addressInput : string) (lines : list string),
    stdin i = addressInput :: lines ->
    let token := toHexAddress addressInput in
    let r := connectToToken call s i in
    outcome r = Return true
    /\ final r
       = setTokenAddress
           (if readsSucceed (world i) token (detailsReads (userAddress s))
            then Some token else None) s
    /\ stdin (rest r) = lines
    /\ (forall e, In e (trace r) -> isSubmission e = false).
Proof.
  intros call s [inp w] addressInput lines Hin. cbn [stdin world] in *. subst inp.
  cbv zeta.
  set (s1 := setTokenAddress (Some (toHexAddress addressInput)) s).
  assert (Hc : connectedToken s1 = Some (toHexAddress addressInput)).
  { unfold connectedToken, s1. cbn [setTokenAddress tokenAddress].
    now rewrite toHexAddress_truthy. }
  pose proof (showTokenDetails_connected call s1 {| stdin := lines; world := w |}
                _ Hc) as H.
  cbv zeta in H. cbn [world stdin] in H.
  change (userAddress s1) with (userAddress s) in H.
  destruct H as (Hf & Ho & Hrest & _ & _ & Hsub & _).
  unfold connectToToken. run_prog. fold s1.
  destruct (showTokenDetails call s1 _) as [o1 f1 r1 t1].
  cbn [final outcome trace rest] in Hf, Ho, Hrest, Hsub. subst o1 f1. run_prog.
  split; [reflexivity|]. split.
  { destruct (readsSucceed w (toHexAddress addressInput) (detailsReads (userAddress s)));
      reflexivity. }
  split; [exact Hrest|].
  intros e [<-|He]; [reflexivity|].
  rewrite app_nil_r in He. now apply Hsub.
Qed.

(** X8: when the chain rejects the creation, the wait for its receipt or
    the reading of the logs, [createToken] reports "Error creating token:"
    and the menu comes back with every variable as it was, the connected
    token included; the creation is the only transaction it submitted. *)
Theorem createToken_failure_is_contained :
  forall (s : Session) (i : Input W) (name symbol ownerInput : string)
         (lines : list string),
    stdin i = name :: symbol :: ownerInput :: lines ->
    let factory := toHexAddress (Config.tokenFactoryAddress (config s)) in
    let creation :=
      FnCreateToken name symbol
        (if truthy ownerInput then toHexAddress ownerInput else userAddress s) in
    let r := createToken (exec 0) s i in
    (exists w1, chain_write (world i) (account s) factory creation = (None, w1))
    \/ (exists hash w1 w2,
          chain_write (world i) (account s) factory creation = (Some hash, w1)
          /\ chain_wait w1 hash = (None, w2))
    \/ (exists hash w1 receipt w2 w3,
          chain_write (world i) (account s) factory creation = (Some hash, w1)
          /\ chain_wait w1 hash = (Some receipt, w2)
          /\ chain_logs w2 factory (blockNumber receipt) (blockNumber receipt)
             = (None, w3)) ->
    outcome r = Halt (OutOfFuel ShowMainMenu)
    /\ final r = s
    /\ EndsWith (trace r) [ConsoleError "Error creating token:" RpcError]
    /\ filter isSubmission (trace r) = [WriteContract (account s) factory creation].
Proof.
  intros s [inp w] name symbol ownerInput lines Hin. cbn [stdin world] in *.
  subst inp. cbv zeta. intros Hfail.
  unfold createToken. run_prog.
  destruct Hfail as [(w1 & Hw)|[(hash & w1 & w2 & Hw & Hr)
                               |(hash & w1 & receipt & w2 & w3 & Hw & Hr & Hl)]];
    rewrite Hw; run_prog; rewrite ?Hr; run_prog; rewrite ?Hl; run_prog;
    cbn [exec]; run_prog;
    (split; [reflexivity|]); (split; [reflexivity|]);
    (split; [ends_with|reflexivity]).
Qed.

(** X9: [checkBalance] only reads: whatever is entered and answered it
    changes no variable and submits nothing; with a line and a token it
    reads the decimals and then the balance of the entered address in 0x
    form, or of the current user address when the line is empty. *)
Theorem checkBalance_only_reads :
  forall (s : Session) (i : Input W),
    final (checkBalance (exec 0) s i) = s
    /\ (forall e, In e (trace (checkBalance (exec 0) s i)) -> isSubmission e = false)
    /\ (forall (token addressInput : string) (lines : list string),
          connectedToken s = Some token ->
          stdin i = addressInput :: lines ->
          let asked :=
            if truthy addressInput then toHexAddress addressInput
            else userAddress s in
          filter isChainRequest (trace (checkBalance (exec 0) s i))
          = ReadContract token FnDecimals
            :: match chain_read (world i) token FnDecimals with
               | (Some _, _) => [ReadContract token (FnBalanceOf asked)]
               | (None, _) => []
               end).
Proof.
  intros s [inp w].
  split; [|split].
  - unfold checkBalance. run_prog.
    destruct (connectedToken s); run_to_menu; reflexivity.
  - unfold checkBalance. run_prog.
    destruct (connectedToken s); run_to_menu;
      intros e He; simpl in He;
      repeat (destruct He as [He|He]; [subst e; reflexivity|]); contradiction.
  - intros token addressInput lines Hc Hin. cbn [stdin world] in *. subst inp.
    cbv zeta. unfold checkBalance. run_prog. rewrite Hc. run_prog.
    destruct (chain_read w token FnDecimals) as [[d|] w1]; run_to_menu; reflexivity.
Qed.

End OperationTheorems.

Section AccountTheorems.

Context {W : Type} {chain : ChainClient W} {entropy : Entropy W} {signer : Signer}.

(** X10: [importAccount] registers the entered key in 0x form, so a key
    entered without the prefix gives the very run of the same key entered
    with it; a key the derivation refuses is reported, nothing is
    registered and no switch is offered; and when the switch is declined
    the identity is appended with index and bindings as they were. *)
Theorem importAccount_outcomes :
  forall (call : proc -> Prog W Session unit) (s : Session) (w : W)
         (name entered : string) (lines : list string),
    (startsWith entered "0x" = false ->
     importAccount call s {| stdin := name :: entered :: lines; world := w |}
     = importAccount call s
         {| stdin := name :: ("0x" ++ entered) :: lines; world := w |})
    /\ (addressOfKey (importedKey entered) = None ->
        importAccount call s {| stdin := name :: entered :: lines; world := w |}
        = prepend
            [ Question "Enter a name for this account: ";
              Question "Enter private key: ";
              ConsoleError "Error importing account:"
                (InvalidPrivateKeyError (importedKey entered)) ]
            (call ShowMainMenu s {| stdin := lines; world := w |}))
    /\ (forall (derived answer : string) (more : list string),
        addressOfKey (importedKey entered) = Some derived ->
        lines = answer :: more ->
        toLowerCase answer <> "y" ->
        importAccount call s {| stdin := name :: entered :: lines; world := w |}
        = prepend
            [ Question "Enter a name for this account: ";
              Question "Enter private key: ";
              ConsoleLog ("Account imported: " ++ name);
              ConsoleLog ("Address: " ++ derived);
              Question "Switch to this account? (y/n): " ]
            (call ShowMainMenu
               (pushAccount (identity name (importedKey entered) derived) s)
               {| stdin := more; world := w |})).
Proof.
  intros call s w name entered lines. unfold importedKey.
  split; [|split].
  - intros Hp. unfold importAccount. run_prog. rewrite Hp. cbn [negb].
    assert (Hq : startsWith ("0x" ++ entered) "0x" = true)
      by (destruct entered; reflexivity).
    rewrite Hq. cbn [negb]. reflexivity.
  - intros Hk. unfold importAccount. run_prog. rewrite Hk. run_prog.
    resume call; reflexivity.
  - intros derived answer more Hk -> Hn. unfold importAccount. run_prog.
    rewrite Hk. run_prog.
    destruct (toLowerCase answer =? "y")%string eqn:Hy;
      [apply String.eqb_eq in Hy; contradiction|].
    run_prog. unfold identity. reflexivity.
Qed.

Lemma hex_of_byte :
  forall b : Byte.byte,
    isLowerHex (hexChar (Byte.to_N b / 16)) = true
    /\ isLowerHex (hexChar (Byte.to_N b mod 16)) = true.
Proof. intros b. destruct b; split; reflexivity. Qed.

Lemma toHex_format :
  forall bytes : list Byte.byte,
    String.length (toHex bytes) = (2 * length bytes)%nat
    /\ forallb isLowerHex (list_ascii_of_string (toHex bytes)) = true.
Proof.
  induction bytes as [|b r [IHl IHf]]; [split; reflexivity|].
  destruct (hex_of_byte b) as [H1 H2].
  cbn [toHex String.length length list_ascii_of_string forallb].
  rewrite IHl, H1, H2, IHf. split; [lia|reflexivity].
Qed.

(** X11: the key [createNewAccount] generates is "0x" followed by 64
    lower-case hexadecimal digits; when the address derivation accepts it
    and the switch is declined, the identity is appended under the entered
    name and the menu comes back with index and bindings as they were. *)
Theorem createNewAccount_declined :
  forall (call : proc -> Prog W Session unit) (s : Session) (i : Input W)
         (name answer : string) (lines : list string)
         (bytes : list Byte.byte) (w1 : W) (derived : string),
    stdin i = name :: answer :: lines ->
    toLowerCase answer <> "y" ->
    drawBytes 32 (world i) = (bytes, w1) ->
    addressOfKey ("0x" ++ toHex bytes) = Some derived ->
    String.length ("0x" ++ toHex bytes) = 66%nat
    /\ forallb isLowerHex (list_ascii_of_string (toHex bytes)) = true
    /\ createNewAccount call s i
       = prepend
           [ Question "Enter a name for this account: ";
             RandomBytes 32;
             ConsoleLog ("New account created: " ++ name);
             ConsoleLog ("Address: " ++ derived);
             ConsoleLog ("Private Key: " ++ ("0x" ++ toHex bytes)
                         ++ " (Keep this secure!)");
             Question "Switch to this account? (y/n): " ]
           (call ShowMainMenu
              (pushAccount (identity name ("0x" ++ toHex bytes) derived) s)
              {| stdin := lines; world := w1 |}).
Proof.
  intros call s [inp w] name answer lines bytes w1 derived Hin Hn Hb Hk.
  cbn [stdin world] in *. subst inp.
  pose proof (drawBytes_length 32 w) as Hlen. rewrite Hb in Hlen. cbn [fst] in Hlen.
  destruct (toHex_format bytes) as [Hl Hf].
  split; [cbn [append String.length]; rewrite Hl, Hlen; reflexivity|].
  split; [exact Hf|].
  unfold createNewAccount. run_prog. rewrite Hb. run_prog. rewrite Hk. run_prog.
  destruct (toLowerCase answer =? "y")%string eqn:Hy;
    [apply String.eqb_eq in Hy; contradiction|].
  run_prog. unfold identity. reflexivity.
Qed.

End AccountTheorems.

Ltac in_prefix :=
  first [ assumption | apply in_or_app; left; in_prefix ].

Section SelectionTheorems.

Context {W : Type} {chain : ChainClient W} {entropy : Entropy W} {signer : Signer}.

Lemma leadingDigits_decimal :
  forall (ds : list ascii) (a : N),
    forallb isDigit ds = true ->
    leadingDigits 10 (Some a) (string_of_list_ascii ds)
    = Some (fold_left (fun acc c => (acc * 10 + digitValue c)%N) ds a).
Proof.
  induction ds as [|c r IH]; intros a H; [reflexivity|].
  cbn [forallb] in H. apply andb_true_iff in H. destruct H as [Hc Hr].
  cbn [string_of_list_ascii leadingDigits fold_left].
  unfold radixDigit. unfold isDigit in Hc. cbv zeta in Hc. rewrite Hc.
  rewrite (IH _ Hr). reflexivity.
Qed.

Lemma parseInt_leading_digit :
  forall (c : ascii) (r : string),
    isDigit c = true ->
    match c, r with
    | "0"%char, String "x" _ | "0"%char, String "X" _ => True
    | _, _ =>
        parseInt (String c r)
        = match leadingDigits 10 (Some (digitValue c)) r with
          | Some m => Some (1 * Z.of_N m)
          | None => None
          end
    end.
Proof.
  intros c r Hc.
  destruct c as [[] [] [] [] [] [] [] []]; try discriminate Hc; try reflexivity.
  destruct r as [|[[] [] [] [] [] [] [] []] r]; first [reflexivity | exact I].
Qed.

Lemma parseInt_decimal :
  forall (c : ascii) (ds : list ascii),
    isDigit c = true ->
    forallb isDigit ds = true ->
    parseInt (String c (string_of_list_ascii ds))
    = Some (Z.of_N (digitsValue (c :: ds))).
Proof.
  intros c ds Hc Hds.
  assert (Hl : leadingDigits 10 (Some (digitValue c)) (string_of_list_ascii ds)
               = Some (digitsValue (c :: ds)))
    by (rewrite (leadingDigits_decimal ds _ Hds); reflexivity).
  pose proof (parseInt_leading_digit c (string_of_list_ascii ds) Hc) as Hp.
  assert (Hgoal : parseInt (String c (string_of_list_ascii ds))
                  = match leadingDigits 10 (Some (digitValue c))
                            (string_of_list_ascii ds) with
                    | Some m => Some (1 * Z.of_N m)
                    | None => None
                    end).
  { destruct ds as [|c2 ds2].
    - destruct c as [[] [] [] [] [] [] [] []]; exact Hp.
    - cbn [forallb] in Hds. apply andb_true_iff in Hds. destruct Hds as [Hc2 _].
      cbn [string_of_list_ascii] in Hp |- *.
      destruct c as [[] [] [] [] [] [] [] []]; try exact Hp;
        destruct c2 as [[] [] [] [] [] [] [] []]; try exact Hp;
        discriminate Hc2. }
  rewrite Hgoal, Hl, Z.mul_1_l. reflexivity.
Qed.

Lemma parseInt_showN : forall n : N, parseInt (showN n) = Some (Z.of_N n).
Proof.
  intros n. unfold showN.
  destruct (digitsOf_spec n) as (Hv & Hd & Hne).
  destruct (digitsOf n) as [|c ds]; [congruence|].
  cbn [forallb] in Hd. apply andb_true_iff in Hd. destruct Hd as [Hc Hds].
  cbn [string_of_list_ascii]. rewrite (parseInt_decimal c ds Hc Hds), Hv.
  reflexivity.
Qed.

Lemma accountLines_nth :
  forall (l : list AccountInfo.t) (current : Z) (j k : nat) (info : AccountInfo.t),
    nth_error l k = Some info ->
    In (accountLine current (j + k) info) (accountLines current j l).
Proof.
  induction l as [|a r IH]; intros current j k info H.
  - destruct k; discriminate.
  - destruct k as [|k]; cbn [nth_error] in H.
    + injection H as ->. rewrite Nat.add_0_r. left. reflexivity.
    + right. replace (j + S k)%nat with (S j + k)%nat by lia.
      apply IH. exact H.
Qed.

(** X12: the number [switchAccount] prints in front of an identity
    selects that identity when it is entered at the prompt: index, account,
    user address and wallet client are rebound to it, whether or not the
    balance read that follows succeeds, the registry and the connected
    token are untouched, and control goes back to the menu. *)
Theorem switchAccount_selects_the_listed_identity :
  forall (s : Session) (w : W) (k : nat) (info : AccountInfo.t)
         (lines : list string),
    nth_error (accounts s) k = Some info ->
    let number := showN (N.of_nat k + 1) in
    let r := switchAccount (exec 0) s {| stdin := number :: lines; world := w |} in
    In (ConsoleLog
          (number ++ ". " ++ AccountInfo.name info
           ++ " (" ++ AccountInfo.address info ++ ")"
           ++ (if Z.of_nat k =? currentAccountIndex s then " (Current)" else "")))
       (trace r)
    /\ outcome r = Halt (OutOfFuel ShowMainMenu)
    /\ currentAccountIndex (final r) = Z.of_nat k
    /\ account (final r) = AccountInfo.account info
    /\ userAddress (final r) = address (AccountInfo.account info)
    /\ walletAccount (walletClient (final r)) = AccountInfo.account info
    /\ accounts (final r) = accounts s
    /\ tokenAddress (final r) = tokenAddress s.
Proof.
  intros s w k info lines Hk number r.
  assert (Hp : parseInt number = Some (Z.of_nat k + 1)).
  { unfold number. rewrite parseInt_showN. f_equal. lia. }
  assert (Hat : accountAt (accounts s) (Z.of_nat k + 1 - 1) = Some info).
  { unfold accountAt. replace (Z.of_nat k + 1 - 1) with (Z.of_nat k) by lia.
    destruct (Z.of_nat k <? 0) eqn:E; [apply Z.ltb_lt in E; lia|].
    rewrite Nat2Z.id. exact Hk. }
  assert (Hne : accounts s <> []) by (intros E; rewrite E in Hk; destruct k; discriminate).
  split.
  - pose proof (accountLines_nth (accounts s) (currentAccountIndex s) 0 k info Hk)
      as Hline.
    cbn [Nat.add] in Hline.
    apply (in_map ConsoleLog) in Hline.
    change (accountLine (currentAccountIndex s) k info)
      with (number ++ ". " ++ AccountInfo.name info
            ++ " (" ++ AccountInfo.address info ++ ")"
            ++ (if Z.of_nat k =? currentAccountIndex s then " (Current)" else ""))
      in Hline.
    revert Hline.
    generalize (ConsoleLog
                  (number ++ ". " ++ AccountInfo.name info
                   ++ " (" ++ AccountInfo.address info ++ ")"
                   ++ (if Z.of_nat k =? currentAccountIndex s
                       then " (Current)" else ""))).
    intros e Hline. subst r. generalize dependent number. intros number Hp.
    unfold switchAccount. run_prog.
    destruct (accounts s) as [|a0 l0] eqn:Hacc; [congruence|].
    cbn [length Nat.eqb]. run_prog.
    rewrite logAccounts_run. run_prog.
    destruct (toLowerCase number =? "c")%string;
      [cbn [exec]; run_prog; right; in_prefix|].
    rewrite Hp.
    pose proof (accountAt_in_range (a0 :: l0) (Z.of_nat k + 1 - 1)) as Hrange.
    rewrite Hat in Hrange. cbn [length] in Hrange. rewrite Hrange. run_prog.
    change (accounts (setCurrentAccountIndex (Z.of_nat k + 1 - 1) s))
      with (accounts s).
    rewrite Hacc, Hat. run_prog.
    step_chain; cbn [exec]; run_prog; right; in_prefix.
  - destruct (switchAccount_numeric_selection s
                {| stdin := number :: lines; world := w |}
                number lines (Z.of_nat k + 1) Hne eq_refl Hp) as [Ho Hf].
    rewrite Hat in Hf. fold r in Ho, Hf. rewrite Hf.
    split; [exact Ho|].
    unfold setWalletClient, setUserAddress, setAccount, setCurrentAccountIndex.
    session_fields. cbn [walletAccount].
    repeat split; try reflexivity. lia.
Qed.

(** X13: at the main menu the entry "0" says goodbye, closes the input
    and ends the process with status 0, the session as it was; an entry
    that is none of the thirteen listed is answered by "Invalid choice" and
    the menu again, the session as it was and nothing requested from the
    chain. *)
Theorem showMainMenu_exit_and_unrecognised :
  forall (call : proc -> Prog W Session unit) (s : Session) (w : W)
         (current : AccountInfo.t) (choice : string) (lines : list string),
    accountAt (accounts s) (currentAccountIndex s) = Some current ->
    (choice = "0" ->
     showMainMenu call s {| stdin := choice :: lines; world := w |}
     = {| outcome := Halt (Exited 0);
          final := s;
          rest := {| stdin := lines; world := w |};
          trace := menuEvents current
                   ++ [ Question "Enter your choice: ";
                        ConsoleLog "Goodbye!"; RlClose ] |})
    /\ (~ In choice menuChoices ->
        showMainMenu call s {| stdin := choice :: lines; world := w |}
        = prepend
            (menuEvents current
             ++ [ Question "Enter your choice: ";
                  ConsoleLog "Invalid choice. Please try again." ])
            (call ShowMainMenu s {| stdin := lines; world := w |})).
Proof.
  intros call s w current choice lines Hat. split.
  - intros ->. unfold showMainMenu. run_prog. rewrite Hat. run_prog.
    reflexivity.
  - intros Hno. unfold showMainMenu. run_prog. rewrite Hat. run_prog.
    repeat match goal with
           | |- context [(choice =? ?c)%string] =>
               destruct (String.eqb_spec choice c) as [E|_];
               [exfalso; apply Hno; rewrite E; cbn; tauto|]
           end.
    run_prog. resume call; reflexivity.
Qed.

End SelectionTheorems.

Section CreationTheorems.

Context {W : Type} {chain : ChainClient W} {entropy : Entropy W} {signer : Signer}.

(** X14: [createToken] looks at the first log only.  When the first log of
    the confirmation's block has no decoded arguments, reading its token
    address throws and "Error creating token:" is reported; when its
    arguments hold no token address, or an empty one, "not found" is
    printed.  Either way the menu comes back with every variable as it
    was, whatever the later logs hold, and nothing is read from a token. *)
Theorem createToken_first_log_without_address :
  forall (call : proc -> Prog W Session unit) (s : Session) (i : Input W)
         (name symbol ownerInput : string) (lines : list string)
         (hash : string) (w1 : W) (receipt : Receipt) (w2 : W)
         (first : TokenCreatedLog) (others : list TokenCreatedLog) (w3 : W),
    stdin i = name :: symbol :: ownerInput :: lines ->
    chain_write (world i) (account s)
      (toHexAddress (Config.tokenFactoryAddress (config s)))
      (FnCreateToken name symbol
         (if truthy ownerInput then toHexAddress ownerInput else userAddress s))
      = (Some hash, w1) ->
    chain_wait w1 hash = (Some receipt, w2) ->
    chain_logs w2 (toHexAddress (Config.tokenFactoryAddress (config s)))
      (blockNumber receipt) (blockNumber receipt) = (Some (first :: others), w3) ->
    let submitted := createTokenEvents s name symbol ownerInput hash receipt in
    (args first = None ->
     createToken call s i
     = prepend
         (submitted
          ++ [ConsoleError "Error creating token:"
                (TypeError "logs[0].args is undefined")])
         (call ShowMainMenu s {| stdin := lines; world := w3 |}))
    /\ (forall decoded : TokenCreatedArgs,
        args first = Some decoded ->
        argsTokenAddress decoded = None \/ argsTokenAddress decoded = Some "" ->
        createToken call s i
        = prepend
            (submitted
             ++ [ConsoleLog "Token creation event not found in the transaction receipt"])
            (call ShowMainMenu s {| stdin := lines; world := w3 |})).
Proof.
  intros call s i name symbol ownerInput lines hash w1 receipt w2 first others w3
    Hin Hw Hr Hl.
  destruct i as [inp w]. cbn [stdin world] in Hin, Hw. subst inp.
  cbv zeta. split.
  - intros Hargs. unfold createToken, createTokenEvents. run_prog.
    rewrite Hw. run_prog. rewrite Hr. run_prog. rewrite Hl. run_prog.
    unfold createdToken. rewrite Hargs. run_prog.
    resume call; reflexivity.
  - intros decoded Hargs Haddr. unfold createToken, createTokenEvents. run_prog.
    rewrite Hw. run_prog. rewrite Hr. run_prog. rewrite Hl. run_prog.
    unfold createdToken. rewrite Hargs.
    destruct Haddr as [Haddr|Haddr]; rewrite Haddr; cbn [truthy]; run_prog;
      resume call; reflexivity.
Qed.

End CreationTheorems.

(** ** Concrete runs on the fixed outside world *)

#[local] Existing Instance stubChain.
#[local] Existing Instance stubEntropy.
#[local] Existing Instance toySigner.

(** The scenario of the spec: every parameter set, the session has one
    identity at index 0, current, and no token connected. *)
Example bootstrap_scenario :
  outcome
    (stubConnect
       (loadConfig (fun k =>
          if (k =? "RPC_URL")%string then Some "http://localhost:8545"
          else if (k =? "CHAIN_ID")%string then Some "1337"
          else if (k =? "TOKEN_FACTORY_ADDRESS")%string then Some "0xfac"
          else if (k =? "PRIVATE_KEY")%string then Some primaryKey
          else None))
       {| stdin := []; world := liveToken |})
  = Return primarySession.
Proof. vm_compute. reflexivity. Qed.

(** Choosing "0" at the first menu ends the process with status 0. *)
Example exit_from_menu :
  outcome (stubInitialize 1 (config primarySession)
             {| stdin := ["0"]; world := liveToken |})
  = Halt (Exited 0).
Proof. vm_compute. reflexivity. Qed.

(** A key the derivation refuses ends the process with status 1. *)
Example bootstrap_with_bad_key :
  outcome (stubInitialize 1 (loadConfig (fun _ => None))
             {| stdin := ["beef"; "0xfac"]; world := liveToken |})
  = Halt (Exited 1).
Proof. vm_compute. reflexivity. Qed.

(** An unknown menu entry shows the menu again. *)
Example unknown_choice_shows_menu_again :
  outcome (stubExec 1 ShowMainMenu primarySession
             {| stdin := ["42"]; world := liveToken |})
  = Halt (OutOfFuel ShowMainMenu)
  /\ final (stubExec 1 ShowMainMenu primarySession
              {| stdin := ["42"]; world := liveToken |})
     = primarySession.
Proof. split; vm_compute; reflexivity. Qed.

(** Witness of C1: 5 tokens asked for against an allowance of 3. *)
Lemma transferFrom_checks_allowance_witness :
  connectedToken connectedSession = Some "0xt0k"
  /\ @transferFromTokens Stub stubChain (stubExec 0) connectedSession
       {| stdin := ["0xs"; "0xr"; "5"]; world := liveToken |}
     = {| outcome := Halt (OutOfFuel ShowMainMenu);
          final := connectedSession;
          rest := {| stdin := []; world := liveToken |};
          trace :=
            [ Question "Enter sender address: ";
              Question "Enter recipient address: ";
              Question "Enter amount to transfer: ";
              ReadContract "0xt0k" FnDecimals;
              ReadContract "0xt0k" (FnAllowance "0xs" primaryAddress);
              ConsoleLog "Insufficient allowance. Current allowance: 3" ] |}.
Proof.
  split; [reflexivity|].
  pose proof (@transferFrom_checks_allowance Stub stubChain stubEntropy toySigner
                (stubExec 0) connectedSession
                {| stdin := ["0xs"; "0xr"; "5"]; world := liveToken |}
                "0xt0k" eq_refl) as [H _].
  rewrite (H "0xs" "0xr" "5" [] 18%nat liveToken (5 * 10 ^ 18) (3 * 10 ^ 18) liveToken);
    [ reflexivity | reflexivity | reflexivity | vm_compute; reflexivity
    | reflexivity | reflexivity ].
Defined.

(** Counterexample to C2 as worded: with nothing set in the environment the
    session is established after two prompts, not four; the RPC URL is the
    default and the chain id is NaN. *)
Lemma connect_never_asks_for_rpc_url_or_chain_id :
  exists s : Session,
    outcome (stubConnect (loadConfig (fun _ => None))
               {| stdin := [primaryKey; "0xfac"]; world := liveToken |}) = Return s
    /\ Config.rpcUrl (config s) = "http://localhost:8545"
    /\ Config.chainId (config s) = None
    /\ trace (stubConnect (loadConfig (fun _ => None))
                {| stdin := [primaryKey; "0xfac"]; world := liveToken |})
       = [ ConsoleLog "Connecting to blockchain...";
           Question "Enter your private key: ";
           Question "Enter TokenFactory contract address: " ]
    /\ ~ everyUnsetParameterRequested (fun _ => None)
           (stubConnect (loadConfig (fun _ => None))
              {| stdin := [primaryKey; "0xfac"]; world := liveToken |}).
Proof.
  eexists. split; [vm_compute; reflexivity|].
  split; [reflexivity|]. split; [reflexivity|]. split; [vm_compute; reflexivity|].
  unfold everyUnsetParameterRequested. vm_compute. discriminate.
Qed.

(** Witness of C2 as amended: only the factory address is missing. *)
Lemma connect_asks_for_key_and_factory_only_witness :
  (2 <= length ["0xfac"; "spare"])%nat
  /\ filter isQuestion
       (trace (stubConnect
                 (loadConfig (fun k => if (k =? "PRIVATE_KEY")%string
                                       then Some primaryKey else None))
                 {| stdin := ["0xfac"; "spare"]; world := liveToken |}))
     = [Question "Enter TokenFactory contract address: "].
Proof.
  split; [cbn; lia|].
  exact (proj1 (@connect_asks_for_key_and_factory_only Stub toySigner
                  (fun k => if (k =? "PRIVATE_KEY")%string
                            then Some primaryKey else None)
                  {| stdin := ["0xfac"; "spare"]; world := liveToken |}
                  (le_n 2))).
Defined.

(** Witness of C3: selection 7 with one account registered. *)
Lemma switchAccount_invalid_selection_witness :
  accounts primarySession <> []
  /\ parseInt "7" = Some 7
  /\ final (@switchAccount Stub stubChain (stubExec 0) primarySession
              {| stdin := ["7"]; world := liveToken |}) = primarySession.
Proof.
  assert (Hne : accounts primarySession <> []) by discriminate.
  assert (Hout : 7 < 1 \/ 7 > Z.of_nat (length (accounts primarySession)))
    by (right; cbn; lia).
  split; [exact Hne|]. split; [reflexivity|].
  destruct (@switchAccount_invalid_selection Stub stubChain stubEntropy toySigner
              (stubExec 0) primarySession
              {| stdin := ["7"]; world := liveToken |} "7" [] 7
              Hne eq_refl eq_refl Hout) as (_ & _ & _ & _ & _ & _ & Hf & _).
  exact Hf.
Defined.

(** Witness of C4: the token's reads fail. *)
Lemma failed_details_fetch_disconnects_witness :
  connectedToken connectedSession = Some "0xt0k"
  /\ readsSucceed deadToken "0xt0k" (detailsReads primaryAddress) = false
  /\ tokenAddress (final (@showTokenDetails Stub stubChain (stubExec 0) connectedSession
                            {| stdin := []; world := deadToken |})) = None
  /\ tokenAddress (final (@connectToToken Stub stubChain (stubExec 0) connectedSession
                            {| stdin := ["beef"]; world := deadToken |})) = None.
Proof.
  split; [reflexivity|]. split; [reflexivity|].
  pose proof (@failed_details_fetch_disconnects Stub stubChain (stubExec 0)
                connectedSession {| stdin := []; world := deadToken |}) as [H1 _].
  pose proof (@failed_details_fetch_disconnects Stub stubChain (stubExec 0)
                connectedSession {| stdin := ["beef"]; world := deadToken |}) as [_ H2].
  split.
  - exact (proj1 (H1 "0xt0k" eq_refl eq_refl)).
  - exact (proj1 (H2 "beef" [] eq_refl eq_refl)).
Defined.

(** Counterexample to C5 as worded: the creation is confirmed and the block
    holds a TokenCreated log, but the reads of the new token fail; no token
    is connected at the end and no details were displayed. *)
Lemma createToken_details_fetch_can_fail :
  @chain_logs Stub stubChain deadToken "0xfac" 42 42
  = (Some [ {| args := Some {| argsTokenAddress := Some "0xt0ken";
                                  argsOwner := Some "0x0wner" |} |} ],
     deadToken)
  /\ @createToken Stub stubChain (stubExec 0) primarySession
       {| stdin := ["Gold"; "GLD"; ""]; world := deadToken |}
     = {| outcome := Halt (OutOfFuel ShowMainMenu);
          final := primarySession;
          rest := {| stdin := []; world := deadToken |};
          trace :=
            [ Question "Enter token name: ";
              Question "Enter token symbol: ";
              Question ("Enter initial owner address (default: "
                        ++ primaryAddress ++ "): ");
              ConsoleLog "Creating token Gold (GLD)...";
              WriteContract primaryAccount "0xfac"
                (FnCreateToken "Gold" "GLD" primaryAddress);
              ConsoleLog "Transaction sent: 0xhash";
              ConsoleLog "Waiting for transaction confirmation...";
              WaitForTransactionReceipt "0xhash";
              GetLogs "0xfac" 42 42;
              ConsoleLog "Token created successfully at address: 0xt0ken";
              ReadContract "0xt0ken" FnName;
              ReadContract "0xt0ken" FnSymbol;
              ReadContract "0xt0ken" FnDecimals;
              ReadContract "0xt0ken" FnTotalSupply;
              ConsoleError "Error fetching token details:" RpcError ] |}
  /\ ~ createTokenAsClaimed (tokenAddress primarySession)
         [ {| args := Some {| argsTokenAddress := Some "0xt0ken";
                              argsOwner := Some "0x0wner" |} |} ]
         (@createToken Stub stubChain (stubExec 0) primarySession
            {| stdin := ["Gold"; "GLD"; ""]; world := deadToken |}).
Proof.
  split; [reflexivity|]. split; [vm_compute; reflexivity|].
  unfold createTokenAsClaimed. intros [H _]. vm_compute in H. discriminate.
Qed.

(** Witness of C5 as amended: two logs in the block, the token of the
    first answers its reads. *)
Lemma createToken_after_confirmation_witness :
  chain_logs twoCreations "0xfac" 42 42
  = (Some [ {| args := Some {| argsTokenAddress := Some "0xt0ken";
                               argsOwner := Some "0x0wner" |} |};
            {| args := Some {| argsTokenAddress := Some "0x0ther";
                               argsOwner := Some "0x0wner" |} |} ],
     twoCreations)
  /\ truthy "0xt0ken" = true
  /\ createToken (stubExec 0) primarySession
       {| stdin := ["Gold"; "GLD"; ""]; world := twoCreations |}
     = {| outcome := Halt (OutOfFuel ShowMainMenu);
          final := setTokenAddress (Some "0xt0ken") primarySession;
          rest := {| stdin := []; world := twoCreations |};
          trace :=
            [ Question "Enter token name: ";
              Question "Enter token symbol: ";
              Question ("Enter initial owner address (default: "
                        ++ primaryAddress ++ "): ");
              ConsoleLog "Creating token Gold (GLD)...";
              WriteContract primaryAccount "0xfac"
                (FnCreateToken "Gold" "GLD" primaryAddress);
              ConsoleLog "Transaction sent: 0xhash";
              ConsoleLog "Waiting for transaction confirmation...";
              WaitForTransactionReceipt "0xhash";
              GetLogs "0xfac" 42 42;
              ConsoleLog "Token created successfully at address: 0xt0ken";
              ReadContract "0xt0ken" FnName;
              ReadContract "0xt0ken" FnSymbol;
              ReadContract "0xt0ken" FnDecimals;
              ReadContract "0xt0ken" FnTotalSupply;
              ConsoleLog "Token Details:";
              ConsoleLog "Name: Gold";
              ConsoleLog "Symbol: GLD";
              ConsoleLog "Decimals: 18";
              ConsoleLog "Total Supply: 1000";
              ConsoleLog "Contract Address: 0xt0ken";
              ReadContract "0xt0ken" (FnBalanceOf primaryAddress);
              ConsoleLog "Your balance: 7" ] |}.
Proof.
  split; [reflexivity|]. split; [reflexivity|].
  destruct (@createToken_after_confirmation Stub stubChain
              (stubExec 0) primarySession
              {| stdin := ["Gold"; "GLD"; ""]; world := twoCreations |}
              "Gold" "GLD" "" [] "0xhash" twoCreations {| blockNumber := 42 |}
              twoCreations
              [ {| args := Some {| argsTokenAddress := Some "0xt0ken";
                                   argsOwner := Some "0x0wner" |} |};
                {| args := Some {| argsTokenAddress := Some "0x0ther";
                                   argsOwner := Some "0x0wner" |} |} ]
              twoCreations eq_refl eq_refl eq_refl eq_refl) as [_ H].
  specialize (H _ _ _ "0xt0ken" (Some "Gold") (Some "GLD") (Some 18%nat)
                (Some (1000 * 10 ^ 18)) twoCreations twoCreations twoCreations
                twoCreations eq_refl eq_refl eq_refl eq_refl
                eq_refl eq_refl eq_refl eq_refl).
  cbv zeta in H.
  rewrite (H (Some (7 * 10 ^ 18)) twoCreations eq_refl).
  vm_compute. reflexivity.
Defined.

(** Witness of C6: "1.2345" at two decimals comes back as "1.23". *)
Lemma amount_round_trip_witness :
  parseDecimal "1.2345"
  = Some {| negative := false;
            integerPart := ["1"%char];
            fractionPart := ["2"%char; "3"%char; "4"%char; "5"%char] |}
  /\ formatAmount 123 2 = "1.23"
  /\ exists (n : Z) (d' : DecimalString),
      parseAmount "1.2345" 2 = inr n
      /\ parseDecimal (formatAmount n 2) = Some d'
      /\ (Qabs (decimalValue d'
                - decimalValue {| negative := false;
                                  integerPart := ["1"%char];
                                  fractionPart := ["2"%char; "3"%char; "4"%char; "5"%char] |})
          <= 1 / pow10 2)%Q
      /\ (Qabs (decimalValue d'
                - decimalValue {| negative := false;
                                  integerPart := ["1"%char];
                                  fractionPart := ["2"%char; "3"%char; "4"%char; "5"%char] |})
          <= (1 # 2) / pow10 2)%Q.
Proof.
  split; [reflexivity|]. split; [reflexivity|].
  exact (amount_round_trip "1.2345" 2 _ eq_refl).
Defined.

(** Witness of C7: the scenario of the spec, minting 10 with no recipient. *)
Lemma amounts_are_scaled_witness :
  connectedToken connectedSession = Some "0xt0k"
  /\ filter isSubmission
       (trace (mintTokens (stubExec 0) connectedSession
                 {| stdin := [""; "10"]; world := liveToken |}))
     = [WriteContract primaryAccount "0xt0k" (FnMint primaryAddress (10 * 10 ^ 18))].
Proof.
  split; [reflexivity|].
  destruct (amounts_are_scaled connectedSession
              {| stdin := [""; "10"]; world := liveToken |}
              "0xt0k" "10" [] 18%nat liveToken eq_refl)
    as (_ & _ & _ & _ & _ & _ & H).
  exact (H eq_refl eq_refl).
Defined.

(** Witness of C8: an import through the menu extends the registry. *)
Lemma registry_addresses_are_derived_witness :
  Forall Derived (accounts primarySession)
  /\ length (accounts (final (stubExec 3 ShowMainMenu primarySession
                                {| stdin := ["11"; "carol"; primaryKey; "n"];
                                   world := liveToken |}))) = 2%nat
  /\ Forall Derived
       (accounts (final (stubExec 3 ShowMainMenu primarySession
                           {| stdin := ["11"; "carol"; primaryKey; "n"];
                              world := liveToken |}))).
Proof.
  assert (H0 : Forall Derived (accounts primarySession)).
  { constructor; [|constructor]. split; reflexivity. }
  split; [exact H0|]. split; [vm_compute; reflexivity|].
  destruct (@registry_addresses_are_derived Stub stubChain stubEntropy toySigner)
    as (_ & _ & H & _).
  exact (H 3%nat ShowMainMenu primarySession _ H0).
Defined.

(** Witness of C9: a balance check with no token connected. *)
Lemma read_only_operations_need_a_token_witness :
  connectedToken primarySession = None
  /\ trace (checkBalance (stubExec 0) primarySession
              {| stdin := ["0xa"]; world := liveToken |})
     = [ConsoleLog noTokenConnected]
  /\ trace (showTokenDetails (stubExec 0) primarySession
              {| stdin := ["0xa"]; world := liveToken |})
     = [ConsoleLog noTokenConnected].
Proof.
  split; [reflexivity|].
  destruct (read_only_operations_need_a_token (stubExec 0) primarySession
              {| stdin := ["0xa"]; world := liveToken |} eq_refl)
    as (_ & _ & H1 & H2).
  split; [exact H1|exact H2].
Defined.


(** ** Concrete runs for the session-wide and per-operation properties *)

(** Witness of X1: an unknown entry, then the exit. *)
Lemma menu_cycle_only_ends_by_exit_witness :
  Coherent primarySession
  /\ outcome (stubExec 2 ShowMainMenu primarySession
                {| stdin := ["42"; "0"]; world := liveToken |})
     = Halt (Exited 0)
  /\ EndsWith
       (trace (stubExec 2 ShowMainMenu primarySession
                 {| stdin := ["42"; "0"]; world := liveToken |}))
       goodbye.
Proof.
  assert (Hs : Coherent primarySession).
  { split; [eexists; reflexivity|]. split; [reflexivity|].
    split; [reflexivity|]. left; reflexivity. }
  split; [exact Hs|]. split; [vm_compute; reflexivity|].
  destruct (@menu_cycle_only_ends_by_exit Stub stubChain stubEntropy toySigner
              2%nat ShowMainMenu primarySession
              {| stdin := ["42"; "0"]; world := liveToken |} Hs)
    as (h & Ho & Hexit).
  assert (Hh : h = Exited 0) by (vm_compute in Ho; now injection Ho as <-).
  exact (proj2 (Hexit 0 Hh)).
Defined.

(** Witness of X2: create an account from the menu, switch to it. *)
Lemma bindings_stay_coherent_witness :
  Coherent primarySession
  /\ currentAccountIndex
       (final (stubExec 3 ShowMainMenu primarySession
                 {| stdin := ["10"; "bob"; "y"; "2"]; world := liveToken |}))
     = 1
  /\ Coherent
       (final (stubExec 3 ShowMainMenu primarySession
                 {| stdin := ["10"; "bob"; "y"; "2"]; world := liveToken |})).
Proof.
  assert (Hs : Coherent primarySession).
  { split; [eexists; reflexivity|]. split; [reflexivity|].
    split; [reflexivity|]. left; reflexivity. }
  split; [exact Hs|]. split; [vm_compute; reflexivity|].
  destruct (@bindings_stay_coherent Stub stubChain stubEntropy toySigner)
    as [_ H].
  exact (proj1 (H 3%nat ShowMainMenu primarySession
                  {| stdin := ["10"; "bob"; "y"; "2"]; world := liveToken |} Hs)).
Defined.

(** Witness of X3: the key entered at the prompt is refused. *)
Lemma initialize_exit_status_witness :
  outcome (stubConnect (loadConfig (fun _ => None))
             {| stdin := ["beef"; "0xfac"]; world := liveToken |})
  = Throw (InvalidPrivateKeyError "0xbeef")
  /\ outcome (stubInitialize 1 (loadConfig (fun _ => None))
                {| stdin := ["beef"; "0xfac"]; world := liveToken |})
     = Halt (Exited 1).
Proof.
  assert (Hc : outcome (stubConnect (loadConfig (fun _ => None))
                          {| stdin := ["beef"; "0xfac"]; world := liveToken |})
               = Throw (InvalidPrivateKeyError "0xbeef"))
    by (vm_compute; reflexivity).
  split; [exact Hc|].
  pose proof (@initialize_exit_status Stub stubChain stubEntropy toySigner
                1%nat (loadConfig (fun _ => None))
                {| stdin := ["beef"; "0xfac"]; world := liveToken |}) as H.
  cbv zeta in H. destruct H as (H & _ & _).
  exact (proj1 (H _ Hc)).
Defined.

(** Witness of X4: an address entered with its prefix. *)
Lemma toHexAddress_normal_form_witness :
  toHexAddress "beef" = "0xbeef"
  /\ startsWith "0xbeef" "0x" = true
  /\ toHexAddress "0xbeef" = "0xbeef".
Proof.
  split; [reflexivity|]. split; [reflexivity|].
  exact (proj1 (proj2 (proj2 (toHexAddress_normal_form "0xbeef"))) eq_refl).
Defined.

(** Witness of X5: a mint with no token connected. *)
Lemma mutating_operations_need_a_token_witness :
  connectedToken primarySession = None
  /\ trace (mintTokens (stubExec 0) primarySession
              {| stdin := ["0xa"; "10"]; world := liveToken |})
     = [ConsoleLog noTokenConnected].
Proof.
  split; [reflexivity|].
  destruct (mutating_operations_need_a_token (stubExec 0) primarySession
              {| stdin := ["0xa"; "10"]; world := liveToken |} eq_refl)
    as (H & _).
  rewrite H. reflexivity.
Defined.

(** Witness of X6: a transfer of 2.5 tokens. *)
Lemma mutating_operations_submit_at_most_once_witness :
  connectedToken connectedSession = Some "0xt0k"
  /\ filter isSubmission
       (trace (transferTokens (stubExec 0) connectedSession
                 {| stdin := ["0xb"; "2.5"]; world := liveToken |}))
     = [WriteContract primaryAccount "0xt0k" (FnTransfer "0xb" (25 * 10 ^ 17))]
  /\ AtMostOneSubmission connectedSession "0xt0k"
       (transferTokens (stubExec 0) connectedSession
          {| stdin := ["0xb"; "2.5"]; world := liveToken |}).
Proof.
  split; [reflexivity|]. split; [vm_compute; reflexivity|].
  exact (proj1 (proj2 (proj2
           (mutating_operations_submit_at_most_once connectedSession
              {| stdin := ["0xb"; "2.5"]; world := liveToken |}
              "0xt0k" eq_refl)))).
Defined.

(** Witness of X7: an address whose reads fail, one whose reads succeed. *)
Lemma connectToToken_outcome_witness :
  tokenAddress (final (connectToToken (stubExec 0) connectedSession
                         {| stdin := ["beef"]; world := deadToken |}))
  = None
  /\ tokenAddress (final (connectToToken (stubExec 0) primarySession
                            {| stdin := ["beef"]; world := liveToken |}))
     = Some "0xbeef".
Proof.
  pose proof (connectToToken_outcome (stubExec 0) connectedSession
                {| stdin := ["beef"]; world := deadToken |} "beef" [] eq_refl)
    as H1.
  pose proof (connectToToken_outcome (stubExec 0) primarySession
                {| stdin := ["beef"]; world := liveToken |} "beef" [] eq_refl)
    as H2.
  cbv zeta in H1, H2.
  destruct H1 as (_ & H1 & _). destruct H2 as (_ & H2 & _).
  split; [rewrite H1|rewrite H2]; reflexivity.
Defined.

(** Witness of X8: the factory call is rejected while a token is connected. *)
Lemma createToken_failure_is_contained_witness :
  chain_write rejectingChain primaryAccount "0xfac"
    (FnCreateToken "Gold" "GLD" primaryAddress)
  = (None, rejectingChain)
  /\ final (createToken (stubExec 0) connectedSession
              {| stdin := ["Gold"; "GLD"; ""]; world := rejectingChain |})
     = connectedSession
  /\ EndsWith
       (trace (createToken (stubExec 0) connectedSession
                 {| stdin := ["Gold"; "GLD"; ""]; world := rejectingChain |}))
       [ConsoleError "Error creating token:" RpcError].
Proof.
  split; [reflexivity|].
  pose proof (createToken_failure_is_contained connectedSession
                {| stdin := ["Gold"; "GLD"; ""]; world := rejectingChain |}
                "Gold" "GLD" "" [] eq_refl) as H.
  cbv zeta in H.
  destruct (H (or_introl (ex_intro _ rejectingChain eq_refl)))
    as (_ & Hf & He & _).
  split; [exact Hf|exact He].
Defined.

(** Witness of X9: the balance of the current account. *)
Lemma checkBalance_only_reads_witness :
  connectedToken connectedSession = Some "0xt0k"
  /\ filter isChainRequest
       (trace (checkBalance (stubExec 0) connectedSession
                 {| stdin := [""]; world := liveToken |}))
     = [ ReadContract "0xt0k" FnDecimals;
         ReadContract "0xt0k" (FnBalanceOf primaryAddress) ].
Proof.
  split; [reflexivity|].
  destruct (checkBalance_only_reads connectedSession
              {| stdin := [""]; world := liveToken |}) as (_ & _ & H).
  exact (H "0xt0k" "" [] eq_refl eq_refl).
Defined.

(** Witness of X10: the primary key entered without its prefix, and a key
    the derivation refuses. *)
Lemma importAccount_outcomes_witness :
  startsWith (substring 2 64 primaryKey) "0x" = false
  /\ importAccount (stubExec 0) primarySession
       {| stdin := ["carol"; substring 2 64 primaryKey; "n"]; world := liveToken |}
     = importAccount (stubExec 0) primarySession
         {| stdin := ["carol"; "0x" ++ substring 2 64 primaryKey; "n"];
            world := liveToken |}
  /\ addressOfKey (importedKey "beef") = None
  /\ final (importAccount (stubExec 0) primarySession
              {| stdin := ["dave"; "beef"; "y"]; world := liveToken |})
     = primarySession.
Proof.
  destruct (importAccount_outcomes (stubExec 0) primarySession liveToken
              "carol" (substring 2 64 primaryKey) ["n"]) as (H1 & _ & _).
  destruct (importAccount_outcomes (stubExec 0) primarySession liveToken
              "dave" "beef" ["y"]) as (_ & H2 & _).
  split; [reflexivity|]. split; [exact (H1 eq_refl)|].
  split; [reflexivity|]. rewrite (H2 eq_refl). reflexivity.
Defined.

(** Witness of X11: create "bob" and decline the switch. *)
Lemma createNewAccount_declined_witness :
  toLowerCase "n" <> "y"
  /\ accounts (final (createNewAccount (stubExec 0) primarySession
                        {| stdin := ["bob"; "n"]; world := liveToken |}))
     = [ identity "Default Account" primaryKey primaryAddress;
         identity "bob" bobKey bobAddress ]
  /\ currentAccountIndex
       (final (createNewAccount (stubExec 0) primarySession
                 {| stdin := ["bob"; "n"]; world := liveToken |}))
     = 0.
Proof.
  assert (Hn : toLowerCase "n" <> "y") by (vm_compute; discriminate).
  assert (Hb : drawBytes 32 liveToken = (repeat Byte.x2a 32, liveToken))
    by (vm_compute; reflexivity).
  split; [exact Hn|].
  destruct (@createNewAccount_declined Stub stubEntropy toySigner
              (stubExec 0) primarySession
              {| stdin := ["bob"; "n"]; world := liveToken |}
              "bob" "n" [] (repeat Byte.x2a 32) liveToken bobAddress
              eq_refl Hn Hb eq_refl) as (_ & _ & H).
  rewrite H. split; reflexivity.
Defined.

(** Witness of X12: with two accounts registered, entering 2. *)
Lemma switchAccount_selects_the_listed_identity_witness :
  nth_error (accounts twoAccounts) 1 = Some (identity "bob" bobKey bobAddress)
  /\ showN 2 = "2"
  /\ currentAccountIndex
       (final (switchAccount (stubExec 0) twoAccounts
                 {| stdin := ["2"]; world := liveToken |}))
     = 1
  /\ account
       (final (switchAccount (stubExec 0) twoAccounts
                 {| stdin := ["2"]; world := liveToken |}))
     = {| address := bobAddress; signingKey := bobKey |}.
Proof.
  split; [reflexivity|]. split; [reflexivity|].
  pose proof (switchAccount_selects_the_listed_identity twoAccounts liveToken
                1%nat (identity "bob" bobKey bobAddress) [] eq_refl) as H.
  cbv zeta in H. destruct H as (_ & _ & Hi & Ha & _).
  split; [exact Hi|exact Ha].
Defined.

(** Witness of X13: the entry "42", which the menu does not list. *)
Lemma showMainMenu_exit_and_unrecognised_witness :
  accountAt (accounts primarySession) (currentAccountIndex primarySession)
  = Some (identity "Default Account" primaryKey primaryAddress)
  /\ ~ In "42" menuChoices
  /\ final (showMainMenu (stubExec 0) primarySession
              {| stdin := ["42"]; world := liveToken |})
     = primarySession
  /\ outcome (showMainMenu (stubExec 0) primarySession
                {| stdin := ["0"]; world := liveToken |})
     = Halt (Exited 0).
Proof.
  assert (Hno : ~ In "42" menuChoices).
  { intros H. cbn in H.
    repeat (destruct H as [H|H]; [discriminate|]). exact H. }
  split; [reflexivity|]. split; [exact Hno|].
  destruct (showMainMenu_exit_and_unrecognised (stubExec 0) primarySession liveToken
              (identity "Default Account" primaryKey primaryAddress) "42" []
              eq_refl) as [_ H42].
  destruct (showMainMenu_exit_and_unrecognised (stubExec 0) primarySession liveToken
              (identity "Default Account" primaryKey primaryAddress) "0" []
              eq_refl) as [H0 _].
  split; [rewrite (H42 Hno)|rewrite (H0 eq_refl)]; reflexivity.
Defined.

(** Witness of X14: the two first logs without an address, each followed by
    a log that has one. *)
Lemma createToken_first_log_without_address_witness :
  tokenAddress
    (final (createToken (stubExec 0) connectedSession
              {| stdin := ["Gold"; "GLD"; ""]; world := withLogs undecodedFirst |}))
  = Some "0xt0k"
  /\ trace (createToken (stubExec 0) connectedSession
              {| stdin := ["Gold"; "GLD"; ""]; world := withLogs ownerOnlyFirst |})
     = (createTokenEvents connectedSession "Gold" "GLD" "" "0xhash"
          {| blockNumber := 42 |}
        ++ [ConsoleLog "Token creation event not found in the transaction receipt"])%list.
Proof.
  destruct (@createToken_first_log_without_address Stub stubChain
              (stubExec 0) connectedSession
              {| stdin := ["Gold"; "GLD"; ""]; world := withLogs undecodedFirst |}
              "Gold" "GLD" "" [] "0xhash" (withLogs undecodedFirst)
              {| blockNumber := 42 |} (withLogs undecodedFirst)
              {| args := None |}
              [ {| args := Some {| argsTokenAddress := Some "0x0ther";
                                   argsOwner := Some "0x0wner" |} |} ]
              (withLogs undecodedFirst) eq_refl eq_refl eq_refl eq_refl)
    as [H1 _].
  destruct (@createToken_first_log_without_address Stub stubChain
              (stubExec 0) connectedSession
              {| stdin := ["Gold"; "GLD"; ""]; world := withLogs ownerOnlyFirst |}
              "Gold" "GLD" "" [] "0xhash" (withLogs ownerOnlyFirst)
              {| blockNumber := 42 |} (withLogs ownerOnlyFirst)
              {| args := Some {| argsTokenAddress := None;
                                 argsOwner := Some "0x0wner" |} |}
              [ {| args := Some {| argsTokenAddress := Some "0x0ther";
                                   argsOwner := Some "0x0wner" |} |} ]
              (withLogs ownerOnlyFirst) eq_refl eq_refl eq_refl eq_refl)
    as [_ H2].
  split.
  - rewrite (H1 eq_refl). reflexivity.
  - rewrite (H2 _ eq_refl (or_introl eq_refl)). reflexivity.
Defined.
